(** * Alertas: the seven-day water-level report (7dias.py)

    A shallow embedding of the batch script [src/7dias.py] and the proofs of
    its specified behaviour.  The script reads a list of station codes,
    queries the ANA telemetry service twice per station (inventory and
    measurements), cleans the measurement table with pandas, draws one chart
    per station with matplotlib and logs every failure.

    The development follows the script from top to bottom:
    - [Python]: strings, exceptions and the state-and-exception monad in
      which the statements of the script run;
    - [Datetime]: the proleptic Gregorian calendar of [datetime.date];
    - [Pandas]: the data-frame operations the script calls;
    - [Pyplot]: the figure the script builds;
    - [Script]: the script itself, statement by statement;
    - [Texto]: the list file in the words of the specification;
    - the theorems about the script.

    What the surroundings answer (the clock, the two input files, the
    service, the parsers of XML, CSV and timestamps, [os.makedirs],
    [plt.savefig]) is a parameter of the run, collected in a record [World]:
    every theorem holds for all of them.  Text is held as the bytes of its
    UTF-8 encoding, numbers are whole. *)

From stdpp Require Import base gmap strings list pretty sorting.
From Stdlib Require Import ZArith Ascii String Lia Bool.

(** ** Python values the script relies on *)

Module Python.

(** *** Strings

    A [str] is held as the bytes of its UTF-8 encoding, the form in which
    the text of the script is written here. *)

(** [str.isspace] for a character of one byte: tab, line feed, vertical tab,
    form feed, carriage return, the four separators 0x1c-0x1f and the
    space. *)
Definition isspace (c : ascii) : bool :=
  let n := nat_of_ascii c in
  ((9 <=? n) && (n <=? 13) || (28 <=? n) && (n <=? 32))%nat.

(** [str.isspace] for a character of two bytes: U+0085 and U+00A0. *)
Definition isspace2 (a b : ascii) : bool :=
  Ascii.eqb a "194" && (Ascii.eqb b "133" || Ascii.eqb b "160").

(** [str.isspace] for a character of three bytes: U+1680, U+2000 to U+200A,
    U+2028, U+2029, U+202F, U+205F and U+3000. *)
Definition isspace3 (a b c : ascii) : bool :=
  let n := nat_of_ascii c in
  (Ascii.eqb a "225" && Ascii.eqb b "154" && Ascii.eqb c "128")
  || (Ascii.eqb a "226" && Ascii.eqb b "128"
      && ((128 <=? n) && (n <=? 138) || (n =? 168) || (n =? 169) || (n =? 175))%nat)
  || (Ascii.eqb a "226" && Ascii.eqb b "129" && Ascii.eqb c "159")
  || (Ascii.eqb a "227" && Ascii.eqb b "128" && Ascii.eqb c "128").

(** [s.lstrip()]: the leading white-space characters are removed, one
    character of one, two or three bytes at a time. *)
Fixpoint lstrip (s : string) : string :=
  match s with
  | EmptyString => EmptyString
  | String a r =>
      if isspace a then lstrip r
      else
        match r with
        | EmptyString => s
        | String b r' =>
            if isspace2 a b then lstrip r'
            else
              match r' with
              | EmptyString => s
              | String c r'' => if isspace3 a b c then lstrip r'' else s
              end
        end
  end.

(** The string holds white space only ([not s.strip()]). *)
Definition blank (s : string) : bool :=
  match lstrip s with EmptyString => true | String _ _ => false end.

(** [s.rstrip()]: the longest ending made of white space is removed.  No
    ending that starts inside a character is white space only, since it
    starts with a continuation byte. *)
Fixpoint rstrip (s : string) : string :=
  match s with
  | EmptyString => EmptyString
  | String c s' => if blank s then EmptyString else String c (rstrip s')
  end.

(** [s.strip()] *)
Definition strip (s : string) : string := rstrip (lstrip s).

(** [s.startswith(p)] *)
Fixpoint startswith (s p : string) {struct p} : bool :=
  match p, s with
  | EmptyString, _ => true
  | String a p', String b s' => if Ascii.eqb a b then startswith s' p' else false
  | String _ _, EmptyString => false
  end.

(** [s.endswith(c)] for a one-character suffix *)
Fixpoint endswith_char (s : string) (c : ascii) : bool :=
  match s with
  | EmptyString => false
  | String a EmptyString => Ascii.eqb a c
  | String _ s' => endswith_char s' c
  end.

(** Truth value of a string: the empty string is false. *)
Definition truthy (s : string) : bool :=
  match s with EmptyString => false | String _ _ => true end.

(** [c in s] for a character *)
Fixpoint contains_char (c : ascii) (s : string) : bool :=
  match s with
  | EmptyString => false
  | String a s' => Ascii.eqb a c || contains_char c s'
  end.

(** [os.path.join(a, b)] of [posixpath]: an absolute second component
    discards the first one. *)
Definition os_path_join (a b : string) : string :=
  if startswith b "/" then b
  else if negb (truthy a) || endswith_char a "/" then a +:+ b
  else a +:+ "/" +:+ b.

(** *** Exceptions *)

(** An instance of a subclass of [Exception]: the class name and [str(e)]. *)
Record exception := Exception { exc_class : string; exc_str : string }.

Definition NameError (name : string) : exception :=
  Exception "NameError" ("name '" +:+ name +:+ "' is not defined").
Definition KeyError (key : string) : exception :=
  Exception "KeyError" ("'" +:+ key +:+ "'").
Definition ValueError (msg : string) : exception := Exception "ValueError" msg.
Definition TypeError (msg : string) : exception := Exception "TypeError" msg.
Definition FileNotFoundError (path : string) : exception :=
  Exception "FileNotFoundError"
            ("[Errno 2] No such file or directory: '" +:+ path +:+ "'").

(** What a statement can raise: an [Exception], or the [SystemExit] of
    [exit()], which derives from [BaseException] only and is therefore not
    caught by [except Exception]. *)
Inductive raised :=
| Exc (e : exception)
| SystemExit.

(** The result of a library call or of an expression. *)
Inductive result (A : Type) :=
| ok (a : A)
| raise (e : exception).
Arguments ok {A} a.
Arguments raise {A} e.

#[global] Instance result_ret : MRet result := λ A a, ok a.
#[global] Instance result_bind : MBind result := λ A B f r,
  match r with
  | ok a => f a
  | raise e => raise e
  end.

End Python.

(** ** The calendar of [datetime.date] *)

Module Datetime.
Local Open Scope Z_scope.

(** A [datetime.date]: year, month and day of the proleptic Gregorian
    calendar. *)
Record date := mkdate { year : Z; month : Z; day : Z }.

(** A [datetime.datetime]: a date and the seconds elapsed in that day. *)
Record datetime := mkdatetime { dt_date : date; dt_seconds : Z }.

Definition _DAYS_IN_MONTH : list Z :=
  [-1; 31; 28; 31; 30; 31; 30; 31; 31; 30; 31; 30; 31].
Definition _DAYS_BEFORE_MONTH : list Z :=
  [-1; 0; 31; 59; 90; 120; 151; 181; 212; 243; 273; 304; 334].

Definition getitem (t : list Z) (i : Z) : Z := nth (Z.to_nat i) t 0.
Definition b2z (b : bool) : Z := if b then 1 else 0.

Definition _is_leap (y : Z) : bool :=
  (y mod 4 =? 0) && (negb (y mod 100 =? 0) || (y mod 400 =? 0)).

Definition _days_before_year (year : Z) : Z :=
  let y := year - 1 in y * 365 + y / 4 - y / 100 + y / 400.

Definition _days_in_month (year month : Z) : Z :=
  if (month =? 2) && _is_leap year then 29 else getitem _DAYS_IN_MONTH month.

Definition _days_before_month (year month : Z) : Z :=
  getitem _DAYS_BEFORE_MONTH month + b2z ((2 <? month) && _is_leap year).

Definition _ymd2ord (year month day : Z) : Z :=
  _days_before_year year + _days_before_month year month + day.

Definition _DI400Y : Z := 146097.
Definition _DI100Y : Z := 36524.
Definition _DI4Y : Z := 1461.

(** Ordinal of 9999-12-31, the last [date]. *)
Definition _MAXORDINAL : Z := 3652059.

Definition _ord2ymd (n : Z) : date :=
  let n := n - 1 in
  let n400 := n / _DI400Y in let n := n mod _DI400Y in
  let year := n400 * 400 + 1 in
  let n100 := n / _DI100Y in let n := n mod _DI100Y in
  let n4 := n / _DI4Y in let n := n mod _DI4Y in
  let n1 := n / 365 in let n := n mod 365 in
  let year := year + n100 * 100 + n4 * 4 + n1 in
  if (n1 =? 4) || (n100 =? 4) then mkdate (year - 1) 12 31
  else
    let leapyear := (n1 =? 3) && (negb (n4 =? 24) || (n100 =? 3)) in
    let month := Z.shiftr (n + 50) 5 in
    let preceding :=
      getitem _DAYS_BEFORE_MONTH month + b2z ((2 <? month) && leapyear) in
    let '(month, preceding) :=
      if n <? preceding
      then (month - 1,
            preceding - (getitem _DAYS_IN_MONTH (month - 1)
                         + b2z ((month - 1 =? 2) && leapyear)))
      else (month, preceding) in
    mkdate year month (n - preceding + 1).

(** [d.toordinal()] and [date.fromordinal(n)] *)
Definition toordinal (d : date) : Z := _ymd2ord (year d) (month d) (day d).
Definition fromordinal (n : Z) : date := _ord2ymd n.

(** [d + timedelta(days=k)].  Python raises [OverflowError] when the result
    leaves 0001-01-01 .. 9999-12-31; the system clock never gets there, and
    the theorems about the query window state the range they cover. *)
Definition add_days (d : date) (k : Z) : date := fromordinal (toordinal d + k).

(** A well-formed date. *)
Definition valid (d : date) : Prop :=
  1 <= year d /\ 1 <= month d <= 12
  /\ 1 <= day d <= _days_in_month (year d) (month d).

(** Zero-padded decimal fields of [strftime]. *)
Definition digit (n : Z) : ascii := ascii_of_nat (48 + Z.to_nat (n mod 10)).
Definition fmt02 (n : Z) : string :=
  String (digit (n / 10)) (String (digit n) EmptyString).
Definition fmt04 (n : Z) : string :=
  String (digit (n / 1000)) (String (digit (n / 100)) (fmt02 n)).

(** [d.strftime('%d-%m-%Y')], with the year on four digits (platforms
    differ on years before 1000, which the theorems leave out). *)
Definition strftime_dmY (d : date) : string :=
  fmt02 (day d) +:+ "-" +:+ fmt02 (month d) +:+ "-" +:+ fmt04 (year d).

(** A [pandas.Timestamp] is held as nanoseconds since 1970-01-01 00:00; these
    are its calendar fields. *)
Definition _NS_PER_DAY : Z := 86400 * 1000000000.
Definition _EPOCH_ORDINAL : Z := 719163.
Definition timestamp_date (t : Z) : date :=
  fromordinal (_EPOCH_ORDINAL + t / _NS_PER_DAY).
Definition timestamp_hour (t : Z) : Z := (t mod _NS_PER_DAY) / 3600000000000.
Definition timestamp_minute (t : Z) : Z :=
  ((t mod _NS_PER_DAY) mod 3600000000000) / 60000000000.

(** [ts.strftime('%d/%m/%y %H:%M')] *)
Definition strftime_dmy_HM (t : Z) : string :=
  let d := timestamp_date t in
  fmt02 (day d) +:+ "/" +:+ fmt02 (month d) +:+ "/" +:+ fmt02 (year d mod 100)
  +:+ " " +:+ fmt02 (timestamp_hour t) +:+ ":" +:+ fmt02 (timestamp_minute t).

(** [str(ts)] at whole seconds: [YYYY-MM-DD HH:MM:SS] *)
Definition timestamp_second (t : Z) : Z :=
  ((t mod _NS_PER_DAY) mod 60000000000) / 1000000000.
Definition timestamp_str (t : Z) : string :=
  let d := timestamp_date t in
  fmt04 (year d) +:+ "-" +:+ fmt02 (month d) +:+ "-" +:+ fmt02 (day d)
  +:+ " " +:+ fmt02 (timestamp_hour t) +:+ ":" +:+ fmt02 (timestamp_minute t)
  +:+ ":" +:+ fmt02 (timestamp_second t).

(** Reading a [DD-MM-YYYY] text back, as the remote service does. *)
Definition digit_value (c : ascii) : option Z :=
  let n := nat_of_ascii c in
  if ((48 <=? n) && (n <=? 57))%nat then Some (Z.of_nat n - 48) else None.

Definition parse_dmY (s : string) : option date :=
  match s with
  | String d1 (String d0 (String "-" (String m1 (String m0 (String "-"
      (String y3 (String y2 (String y1 (String y0 EmptyString))))))))) =>
      d1 ← digit_value d1; d0 ← digit_value d0;
      m1 ← digit_value m1; m0 ← digit_value m0;
      y3 ← digit_value y3; y2 ← digit_value y2;
      y1 ← digit_value y1; y0 ← digit_value y0;
      Some (mkdate (1000 * y3 + 100 * y2 + 10 * y1 + y0)
                   (10 * m1 + m0) (10 * d1 + d0))
  | _ => None
  end.

(** The month and day that [_ord2ymd] computes from the offset [n] in the
    year, and the check of that step against the month tables. *)
Definition month_part (leapyear : bool) (n : Z) : Z * Z :=
  let month := Z.shiftr (n + 50) 5 in
  let preceding :=
    getitem _DAYS_BEFORE_MONTH month + b2z ((2 <? month) && leapyear) in
  let '(month, preceding) :=
    if n <? preceding
    then (month - 1,
          preceding - (getitem _DAYS_IN_MONTH (month - 1)
                       + b2z ((month - 1 =? 2) && leapyear)))
    else (month, preceding) in
  (month, n - preceding + 1).

Definition month_ok (leapyear : bool) (n : Z) : bool :=
  let '(m, d) := month_part leapyear n in
  (1 <=? m) && (m <=? 12) && (1 <=? d)
  && (d <=? (if (m =? 2) && leapyear then 29 else getitem _DAYS_IN_MONTH m))
  && (getitem _DAYS_BEFORE_MONTH m + b2z ((2 <? m) && leapyear) + d =? n + 1).

End Datetime.

(** ** The data frames of pandas *)

Module Pandas.
Import Python.

(** A cell.  [NaN] stands for every missing value ([None], [NaN], [NaT]).
    Numbers are whole (levels in centimetres): [Num x] is the integer [x],
    [Float x] the float of value [x], which prints with a decimal point;
    floats stay below 10^16 in absolute value, where [repr] has no exponent.
    In a column that holds a float or a missing number pandas has floats
    only.  A [Timestamp] holds nanoseconds since the epoch. *)
Inductive value :=
| NaN
| Num (x : Z)
| Float (x : Z)
| Str (s : string)
| Timestamp (t : Z).

#[global] Instance value_eq_dec : EqDecision value.
Proof. solve_decision. Defined.

Definition isna (v : value) : bool :=
  match v with NaN => true | _ => false end.

(** A row: its index label and its cells by column name.  A cell that is
    absent reads as [NaN], as in a frame built from rows that lack a field. *)
Record row := Row { label : value; cells : gmap string value }.

Definition cell (r : row) (c : string) : value := default NaN (cells r !! c).

(** A frame: the column labels, in order, and the rows, in order. *)
Record DataFrame := Frame { columns : list string; rows : list row }.

(** [pd.DataFrame()] *)
Definition empty_frame : DataFrame := Frame [] [].

(** [df.empty]: some axis has length zero. *)
Definition empty (df : DataFrame) : bool :=
  match columns df, rows df with
  | [], _ | _, [] => true
  | _, _ => false
  end.

(** [df.index] *)
Definition index (df : DataFrame) : list value := label <$> rows df.

(** [df[c]] as a column of values.  With two columns of that name the
    selection is a frame, not a column; nothing the script does with the
    selection ([.iloc] and number formatting) accepts one. *)
Definition getitem (df : DataFrame) (c : string) : result (list value) :=
  match filter (λ k, k = c) (columns df) with
  | [] => raise (KeyError c)
  | [_] => ok ((λ r, cell r c) <$> rows df)
  | _ => raise (TypeError "unsupported format string passed to Series.__format__")
  end.

(** [col.iloc[0]] and [col.iloc[-1]] *)
Definition iloc_first (col : list value) : result value :=
  match col with
  | v :: _ => ok v
  | [] => raise (Exception "IndexError" "single positional indexer is out-of-bounds")
  end.
Definition iloc_last (col : list value) : result value :=
  match last col with
  | Some v => ok v
  | None => raise (Exception "IndexError" "single positional indexer is out-of-bounds")
  end.

(** [df[c] = col], for a column that exists. *)
Definition setitem (df : DataFrame) (c : string) (col : list value) : DataFrame :=
  Frame (columns df)
        (zip_with (λ r v, Row (label r) (<[c := v]> (cells r))) (rows df) col).

(** [pd.to_datetime] on one cell, given the parser of timestamp text
    ([ok None] is [NaT]); integers are read as nanoseconds. *)
Definition to_datetime_value
    (parse : string → result (option Z)) (v : value) : result value :=
  match v with
  | NaN => ok NaN
  | Num n => ok (Timestamp n)
  | Float x => ok (Timestamp x)
  | Timestamp t => ok (Timestamp t)
  | Str s => o ← parse s; ok (from_option Timestamp NaN o)
  end.

(** [pd.to_datetime(col)] *)
Fixpoint to_datetime
    (parse : string → result (option Z)) (col : list value) : result (list value) :=
  match col with
  | [] => ok []
  | v :: col' =>
      t ← to_datetime_value parse v;
      ts ← to_datetime parse col';
      ok (t :: ts)
  end.

(** A row has a value in every column of [subset]. *)
Definition complete (subset : list string) (r : row) : Prop :=
  Forall (λ c, isna (cell r c) = false) subset.

#[global] Instance complete_dec subset r : Decision (complete subset r).
Proof. unfold complete. apply _. Defined.

(** [df.dropna(subset=...)] *)
Definition dropna (subset : list string) (df : DataFrame) : result DataFrame :=
  match filter (λ c, c ∉ columns df) subset with
  | [] => ok (Frame (columns df) (filter (complete subset) (rows df)))
  | c :: _ => raise (KeyError c)
  end.

(** [df.rename(columns={old: new})]; a name that is absent is ignored. *)
Definition rename_label (old new c : string) : string :=
  if decide (c = old) then new else c.

Definition rename_cells (old new : string) (m : gmap string value) : gmap string value :=
  match m !! old with
  | Some v => <[new := v]> (delete old m)
  | None => m
  end.

Definition rename (old new : string) (df : DataFrame) : DataFrame :=
  Frame (rename_label old new <$> columns df)
        ((λ r, Row (label r) (rename_cells old new (cells r))) <$> rows df).

(** [df.set_index(c)]: the column becomes the index and leaves the columns. *)
Definition set_index (c : string) (df : DataFrame) : result DataFrame :=
  if decide (c ∈ columns df)
  then ok (Frame (filter (λ k, k ≠ c) (columns df))
                 ((λ r, Row (cell r c) (delete c (cells r))) <$> rows df))
  else raise (KeyError ("None of ['" +:+ c +:+ "'] are in the columns")).

(** The order of index labels.  On timestamps it is the order of time, with
    [NaT] after every timestamp ([na_position='last']); the other cases only
    make the relation total. *)
Definition sort_key (v : value) : Z * Z :=
  match v with
  | Timestamp t => (0, t)
  | Num x => (1, x)
  | Float x => (1, x)
  | Str _ => (2, 0)
  | NaN => (3, 0)
  end%Z.

Definition value_le (a b : value) : Prop :=
  ((sort_key a).1 < (sort_key b).1
   ∨ ((sort_key a).1 = (sort_key b).1 ∧ (sort_key a).2 ≤ (sort_key b).2))%Z.

Definition label_le (a b : row) : Prop := value_le (label a) (label b).

#[global] Instance label_le_dec : RelDecision label_le.
Proof. intros a b. unfold label_le, value_le. apply _. Defined.

(** [df.sort_index(ascending=True)] *)
Definition sort_index (df : DataFrame) : DataFrame :=
  Frame (columns df) (merge_sort label_le (rows df)).

(** [str(v)], as an f-string field prints a cell. *)
Definition py_str (v : value) : string :=
  match v with
  | NaN => "nan"
  | Num x => pretty x
  | Float x => pretty x +:+ ".0"
  | Str s => s
  | Timestamp t => Datetime.timestamp_str t
  end.

(** The order of time on rows indexed by timestamps. *)
Definition time_le (a b : row) : Prop :=
  ∃ ta tb, label a = Timestamp ta ∧ label b = Timestamp tb ∧ (ta ≤ tb)%Z.

(** [label in df.index] *)
Definition in_index (v : value) (df : DataFrame) : bool :=
  bool_decide (v ∈ index df).

(** [df.loc[label]]: one matching row gives that row, several give the frame
    of those rows. *)
Inductive selection :=
| LocRow (r : row)
| LocFrame (rs : list row).

Definition loc (df : DataFrame) (v : value) : result selection :=
  match filter (λ r, label r = v) (rows df) with
  | [] => raise (KeyError (py_str v))
  | [r] => ok (LocRow r)
  | rs => ok (LocFrame rs)
  end.

(** The dtype of a column or of a row, as far as the printing of a number
    depends on it. *)
Inductive dtype := int64 | float64 | object.

#[global] Instance dtype_eq_dec : EqDecision dtype.
Proof. solve_decision. Defined.

Definition is_int (v : value) : bool :=
  match v with Num _ => true | _ => false end.
Definition is_number (v : value) : bool :=
  match v with NaN | Num _ | Float _ => true | _ => false end.

(** [df[c].dtype]: integers only give [int64]; numbers with a float or a
    missing value among them give [float64]; anything else counts as
    [object]. *)
Definition column_dtype (df : DataFrame) (c : string) : dtype :=
  let col := (λ r, cell r c) <$> rows df in
  if forallb is_int col then int64
  else if forallb is_number col then float64
  else object.

(** The dtype of a row taken across the columns, their common dtype:
    [int64] when every column is, [float64] when every column is numeric,
    [object] otherwise. *)
Definition row_dtype (df : DataFrame) : dtype :=
  let ds := column_dtype df <$> columns df in
  if forallb (λ d, bool_decide (d = int64)) ds then int64
  else if forallb (λ d, bool_decide (d ≠ object)) ds then float64
  else object.

(** A value held under a dtype: an integer becomes a float under
    [float64]. *)
Definition astype (d : dtype) (v : value) : value :=
  match d, v with
  | float64, Num x => Float x
  | _, _ => v
  end.

(** The cell of column [c] in the row [r] that [df.loc[label]] returns: the
    value as its column holds it, cast to the dtype of the row. *)
Definition row_value (df : DataFrame) (r : row) (c : string) : value :=
  astype (row_dtype df) (astype (column_dtype df c) (cell r c)).

(** [ref_data[c]] on a selection: a cell of the row, or a whole column. *)
Inductive selected :=
| Scalar (v : value)
| Column (vs : list value).

Definition selection_getitem
    (df : DataFrame) (sel : selection) (c : string) : result selected :=
  if decide (c ∈ columns df)
  then match sel with
       | LocRow r => ok (Scalar (row_value df r c))
       | LocFrame rs => ok (Column ((λ r, cell r c) <$> rs))
       end
  else raise (KeyError c).

(** [f"{v:.0f}"] *)
Definition format_0f (v : value) : result string :=
  match v with
  | NaN => ok "nan"
  | Num x => ok (pretty x)
  | Float x => ok (pretty x)
  | Str _ => raise (ValueError "Unknown format code 'f' for object of type 'str'")
  | Timestamp _ => raise (TypeError "unsupported format string passed to Timestamp.__format__")
  end.

End Pandas.

(** ** The figure of matplotlib *)

Module Pyplot.
Import Python Pandas.

(** What is drawn on the axes: the lines of [ax.plot] and of [ax.axhline]. *)
Inductive artist :=
| Line2D (xdata ydata : list value) (color linestyle label : string)
| HLine (y : value) (color linestyle label : string).

(** The figure with its single axes, as far as the script sets it. *)
Record Figure := mkFigure {
  artists : list artist;
  legend : bool;
  title : string;
  xlabel : string;
  ylabel : string;
  texts : list string
}.

(** [plt.subplots(figsize=(10, 6))] *)
Definition subplots : Figure := mkFigure [] false "" "" "" [].

Definition add_artist (a : artist) (fig : Figure) : Figure :=
  mkFigure (artists fig ++ [a]) (legend fig) (title fig) (xlabel fig)
           (ylabel fig) (texts fig).

(** [ax.plot(x, y, linestyle=..., color=..., label=...)] *)
Definition plot (x y : list value) (color linestyle label : string)
    (fig : Figure) : Figure :=
  add_artist (Line2D x y color linestyle label) fig.

(** [ax.axhline(y=..., color=..., linestyle=..., label=...)].  The call
    compares [y] with the bounds of the axis in a boolean context, which a
    pandas column refuses. *)
Definition axhline (y : selected) (color linestyle label : string)
    (fig : Figure) : result Figure :=
  match y with
  | Scalar v => ok (add_artist (HLine v color linestyle label) fig)
  | Column _ =>
      raise (ValueError "The truth value of a Series is ambiguous. Use a.empty, a.bool(), a.item(), a.any() or a.all().")
  end.

(** [ax.legend(...)] *)
Definition set_legend (fig : Figure) : Figure :=
  mkFigure (artists fig) true (title fig) (xlabel fig) (ylabel fig) (texts fig).

(** [ax.set_title], [ax.set_xlabel], [ax.set_ylabel], [ax.text] *)
Definition set_title (t : string) (fig : Figure) : Figure :=
  mkFigure (artists fig) (legend fig) t (xlabel fig) (ylabel fig) (texts fig).
Definition set_xlabel (t : string) (fig : Figure) : Figure :=
  mkFigure (artists fig) (legend fig) (title fig) t (ylabel fig) (texts fig).
Definition set_ylabel (t : string) (fig : Figure) : Figure :=
  mkFigure (artists fig) (legend fig) (title fig) (xlabel fig) t (texts fig).
Definition text (t : string) (fig : Figure) : Figure :=
  mkFigure (artists fig) (legend fig) (title fig) (xlabel fig) (ylabel fig)
           (texts fig ++ [t]).

(** The horizontal lines of a figure. *)
Definition is_hline (a : artist) : bool :=
  match a with HLine _ _ _ _ => true | Line2D _ _ _ _ _ => false end.
Definition hlines (fig : Figure) : list artist :=
  List.filter is_hline (artists fig).

End Pyplot.

(** ** The script *)

Module Script.
Import Python Datetime Pandas Pyplot.

(** *** Logging, requests and the state of a run *)

Inductive level := INFO | WARNING | ERROR.

(** A record handed to the rotating log file. *)
Record log_record := LogRecord { levelname : level; message : string }.

(** An HTTP GET as [requests.get(url, timeout=...)] issues it. *)
Record request := Request { url : string; timeout : Z }.

(** What a run changes: the records logged, the requests sent, the
    directories and image files on disk, and the global variable [nome],
    which is unbound until its first assignment. *)
Record state := State {
  log : list log_record;
  requests : list request;
  dirs : gset string;
  files : gmap string Figure;
  nome : option value
}.

(** The surroundings of a run: the clock, the two input files and the
    library calls whose results the script consumes.  [lista_txt] is what
    opening and reading the list file gives: its lines, or the exception
    raised ([FileNotFoundError], [PermissionError], [UnicodeDecodeError],
    ...).  [read_xml] is the parse of a document: the rows an xpath selects
    and their fields, possibly none.  [makedirs_raises] is the failure of
    [os.makedirs], if any.  [requests_get] and [savefig_raises] take the
    number of requests sent so far, so that the same URL or path may behave
    differently at different moments. *)
Record World := {
  now : datetime;
  lista_txt : result (list string);
  read_csv : string → result DataFrame;
  requests_get : nat → string → Z → result string;
  decode_utf8 : string → result string;
  read_xml : string → string → result DataFrame;
  to_datetime_text : string → result (option Z);
  makedirs_raises : string → option exception;
  savefig_raises : nat → string → option exception
}.

(** *** Statements: state passing with exceptions *)

Inductive completion (A : Type) :=
| Returns (a : A)
| Raises (r : raised).
Arguments Returns {A} a.
Arguments Raises {A} r.

Definition M (A : Type) : Type := state → state * completion A.

#[global] Instance M_ret : MRet M := λ A a s, (s, Returns a).
#[global] Instance M_bind : MBind M := λ A B f m s,
  match m s with
  | (s', Returns a) => f a s'
  | (s', Raises r) => (s', Raises r)
  end.

(** An expression evaluated inside a statement. *)
Definition lift {A} (r : result A) : M A := λ s,
  match r with
  | ok a => (s, Returns a)
  | raise e => (s, Raises (Exc e))
  end.

(** [try: body except Exception as e: handler] *)
Definition try_except {A} (body : M A) (handler : exception → M A) : M A := λ s,
  match body s with
  | (s', Raises (Exc e)) => handler e s'
  | other => other
  end.

(** [try: body except FileNotFoundError: handler]: every other exception
    goes on. *)
Definition try_except_FileNotFoundError {A} (body handler : M A) : M A := λ s,
  match body s with
  | (s', Raises (Exc e)) =>
      if decide (exc_class e = "FileNotFoundError")
      then handler s'
      else (s', Raises (Exc e))
  | other => other
  end.

(** [exit()] *)
Definition exit {A} : M A := λ s, (s, Raises SystemExit).

(** [for x in l: body] *)
Fixpoint for_each {A} (l : list A) (body : A → M unit) : M unit :=
  match l with
  | [] => mret tt
  | x :: l' => body x ;; for_each l' body
  end.

Definition add_log (r : log_record) (s : state) : state :=
  State (log s ++ [r]) (requests s) (dirs s) (files s) (nome s).
Definition add_request (r : request) (s : state) : state :=
  State (log s) (requests s ++ [r]) (dirs s) (files s) (nome s).
Definition add_dir (d : string) (s : state) : state :=
  State (log s) (requests s) ({[d]} ∪ dirs s) (files s) (nome s).
Definition add_file (path : string) (fig : Figure) (s : state) : state :=
  State (log s) (requests s) (dirs s) (<[path := fig]> (files s)) (nome s).
Definition assign_nome (v : value) (s : state) : state :=
  State (log s) (requests s) (dirs s) (files s) (Some v).

(** [logger.warning(msg)] and [logger.error(msg)] *)
Definition logger_warning (msg : string) : M unit := λ s,
  (add_log (LogRecord WARNING msg) s, Returns tt).
Definition logger_error (msg : string) : M unit := λ s,
  (add_log (LogRecord ERROR msg) s, Returns tt).

(** What [os.makedirs(d, exist_ok=True)] does when it succeeds. *)
Definition makedirs (d : string) : M unit := λ s, (add_dir d s, Returns tt).

(** [nome = v] and the evaluation of the name [nome] *)
Definition set_nome (v : value) : M unit := λ s, (assign_nome v s, Returns tt).
Definition get_nome : M value := λ s,
  match nome s with
  | Some v => (s, Returns v)
  | None => (s, Raises (Exc (NameError "nome")))
  end.

(** *** Configuration *)

Definition LOG_FILENAME : string := "log_execucao_cotas.txt".
Definition nome_do_arquivo : string := "lista.txt".
Definition nome_arquivo_referencia : string := "cotas_referencia.txt".
Definition diretorio_graficos : string := "Graficos_Saida".

(** The initial state of a run on a disk holding [dirs0] and [files0]. *)
Definition inicio (dirs0 : gset string) (files0 : gmap string Figure) : state :=
  State [] [] dirs0 files0 None.

(** The station codes read from the lines of the list file. *)
Fixpoint lista_estacoes (arquivo : list string) : list string :=
  match arquivo with
  | [] => []
  | linha :: resto =>
      if truthy (strip linha) && negb (startswith linha "#")
      then strip linha :: lista_estacoes resto
      else lista_estacoes resto
  end.

(** [os.path.join(diretorio_graficos, f'{codigo}.png')] *)
Definition nome_arquivo_grafico (codigo : string) : string :=
  os_path_join diretorio_graficos (codigo +:+ ".png").

Definition url_inventario (codigo : string) : string :=
  "https://telemetriaws1.ana.gov.br/ServiceANA.asmx/HidroInventario?codEstDE="
  +:+ codigo +:+ "&codEstATE=" +:+ codigo
  +:+ "&tpEst=&nmEst=&nmRio=&codSubBacia=&codBacia=&nmMunicipio=&nmEstado=&sgResp=&sgOper=&telemetrica=".

(** [f"{sel}"] for a threshold read from the reference table. *)
Definition selected_str (sel : selected) : string :=
  match sel with
  | Scalar v => py_str v
  | Column vs => String.concat (String "010" EmptyString) (py_str <$> vs)
  end.

(** [df_cota.index[-1].strftime('%d/%m/%y %H:%M')] *)
Definition ultimo_indice_strftime (df : DataFrame) : result string :=
  v ← iloc_last (index df);
  match v with
  | Timestamp t => ok (strftime_dmy_HM t)
  | NaN => raise (ValueError "NaTType does not support strftime")
  | _ => raise (Exception "AttributeError" "object has no attribute 'strftime'")
  end.

(** Lines 109-114: the cleaned series [df_cota]. *)
Definition df_cota (df_cota_temp : DataFrame) : result DataFrame :=
  df ← dropna ["DataHora"; "Nivel"] df_cota_temp;
  df ← set_index "DataHora" (rename "Nivel" "Cota" df);
  ok (sort_index df).

(** Lines 129-141: the alert and flood lines and the legend. *)
Definition linhas_referencia
    (cotas_ref : DataFrame) (codigo : string) (fig : Figure) : result Figure :=
  if in_index (Str codigo) cotas_ref
  then
    ref_data ← loc cotas_ref (Str codigo);
    alerta ← selection_getitem cotas_ref ref_data "Alerta";
    inundacao ← selection_getitem cotas_ref ref_data "Inundacao";
    fig ← axhline alerta "orange" "--"
                  ("Alerta (" +:+ selected_str alerta +:+ " cm)") fig;
    fig ← axhline inundacao "red" "--"
                  ("Inundação (" +:+ selected_str inundacao +:+ " cm)") fig;
    ok (set_legend fig)
  else ok fig.

Section Run.
Variable w : World.

(** Lines 28-31: the query window. *)
Definition agora : datetime := now w.
Definition hoje : date := dt_date agora.
Definition data_fim_consulta : string := strftime_dmY (add_days hoje 1).
Definition data_inicio_consulta : string := strftime_dmY (add_days hoje (-7)).

Definition url_dados (codigo : string) : string :=
  "https://telemetriaws1.ana.gov.br/ServiceANA.asmx/DadosHidrometeorologicos?codEstacao="
  +:+ codigo +:+ "&dataInicio=" +:+ data_inicio_consulta
  +:+ "&dataFim=" +:+ data_fim_consulta.

(** [os.makedirs(d, exist_ok=True)]: the directory is there afterwards,
    unless the call raises. *)
Definition os_makedirs (d : string) : M unit := λ s,
  match makedirs_raises w d with
  | Some e => (s, Raises (Exc e))
  | None => makedirs d s
  end.

(** [pd.read_xml(StringIO(xml), xpath=xpath)].  pandas raises [ValueError]
    when the xpath selects no node, or nodes that have neither children nor
    attributes: no table it returns is empty. *)
Definition pd_read_xml (xml xpath : string) : result DataFrame :=
  df ← read_xml w xml xpath;
  if empty df
  then raise (ValueError "xpath does not return any nodes or attributes. Be sure to specify in `xpath` the parent nodes of children and attributes to parse. If document uses namespaces denoted with xmlns, be sure to define namespaces and use them in xpath.")
  else ok df.

(** [requests.get(url, timeout=t).content] *)
Definition requests_get_content (u : string) (t : Z) : M string := λ s,
  let s' := add_request (Request u t) s in
  match requests_get w (List.length (requests s)) u t with
  | ok content => (s', Returns content)
  | raise e => (s', Raises (Exc e))
  end.

(** [plt.savefig(path)] of the figure under construction.  [savefig_raises]
    stands for every failure of matplotlib while the figure is laid out and
    written; [ax.grid], [fig.autofmt_xdate], [plt.tight_layout] and
    [plt.close] change nothing that [Figure] records. *)
Definition savefig (path : string) (fig : Figure) : M unit := λ s,
  match savefig_raises w (List.length (requests s)) path with
  | Some e => (s, Raises (Exc e))
  | None => (add_file path fig s, Returns tt)
  end.

(** Lines 39-50: the reference thresholds, empty when the file is missing or
    unreadable. *)
Definition carrega_cotas_ref : M DataFrame :=
  try_except
    (lift (df ← read_csv w nome_arquivo_referencia; set_index "Codigo" df))
    (λ e,
       if decide (exc_class e = "FileNotFoundError")
       then logger_warning ("Arquivo de referência '" +:+ nome_arquivo_referencia
              +:+ "' não encontrado. As linhas de alerta/inundação não serão plotadas.");;
            mret empty_frame
       else logger_error ("Erro ao carregar o arquivo de referência: " +:+ exc_str e);;
            mret empty_frame).

(** Lines 53-66: the station list, or the end of the run.  An exception
    of [open] or of the reading other than [FileNotFoundError] has no
    handler. *)
Definition carrega_lista : M (list string) :=
  lista ← try_except_FileNotFoundError
            (arquivo ← lift (lista_txt w); mret (lista_estacoes arquivo))
            (logger_error ("ERRO: Arquivo '" +:+ nome_do_arquivo +:+ "' não encontrado.");;
             exit);
  match lista with
  | [] =>
      logger_error "ERRO: A lista de estações está vazia após a leitura do arquivo.";;
      exit
  | _ => mret lista
  end.

(** Lines 80-91: the station name from the inventory. *)
Definition corpo_inventario (codigo : string) : M unit :=
  response_inventario ← requests_get_content (url_inventario codigo) 30;
  xml_inventario ← lift (decode_utf8 w response_inventario);
  inventario ← lift (pd_read_xml xml_inventario ".//Table");
  if negb (empty inventario)
  then
    v ← lift (col ← getitem inventario "Nome"; iloc_first col);
    set_nome v
  else
    logger_warning ("Estação " +:+ codigo +:+ ": Não encontrada no inventário da ANA.").

Definition consulta_inventario (codigo : string) : M unit :=
  try_except (corpo_inventario codigo)
    (λ e, logger_error ("Estação " +:+ codigo
            +:+ ": Erro ao consultar inventário da ANA. Detalhe: " +:+ exc_str e)).

(** Line 107: [df_cota_temp['DataHora'] = pd.to_datetime(df_cota_temp['DataHora'])] *)
Definition converte_DataHora (df_cota_temp : DataFrame) : result DataFrame :=
  col ← getitem df_cota_temp "DataHora";
  ts ← to_datetime (to_datetime_text w) col;
  ok (setitem df_cota_temp "DataHora" ts).

(** Lines 122-159: the figure of one station. *)
Definition grafico
    (cotas_ref : DataFrame) (codigo : string) (df : DataFrame) : M Figure :=
  cota ← lift (getitem df "Cota");
  ultimo_dado ← lift (iloc_last cota);
  data_ultimo_dado ← lift (ultimo_indice_strftime df);
  let fig := plot (index df) cota "blue" "-" "Nível do rio" subplots in
  fig ← lift (linhas_referencia cotas_ref codigo fig);
  nome ← get_nome;
  let fig := set_title ("Estação " +:+ codigo +:+ ": " +:+ py_str nome
                        +:+ " - Cotas dos últimos 7 dias") fig in
  let fig := set_xlabel "Data" fig in
  let fig := set_ylabel "Cota (cm)" fig in
  cota_txt ← lift (format_0f ultimo_dado);
  let text_box := "Último Dado:" +:+ String "010" EmptyString
                  +:+ "Data: " +:+ data_ultimo_dado +:+ String "010" EmptyString
                  +:+ "Cota: " +:+ cota_txt +:+ " cm" in
  mret (text text_box fig).

(** Lines 97-169: the measurements and the chart.  [continue] ends the
    iteration; nothing follows the [try] statement in the loop body. *)
Definition corpo_dados (cotas_ref : DataFrame) (codigo : string) : M unit :=
  response_dados ← requests_get_content (url_dados codigo) 60;
  xml_dados ← lift (decode_utf8 w response_dados);
  df_cota_temp ← lift (pd_read_xml xml_dados ".//DadosHidrometereologicos");
  if empty df_cota_temp
  then logger_warning ("Estação " +:+ codigo
         +:+ ": Nenhum dado de cota encontrado no período de consulta.")
  else
    df_cota_temp ← lift (converte_DataHora df_cota_temp);
    df ← lift (df_cota df_cota_temp);
    if empty df
    then logger_warning ("Estação " +:+ codigo
           +:+ ": Nenhum dado válido de cota encontrado após limpeza.")
    else
      fig ← grafico cotas_ref codigo df;
      savefig (nome_arquivo_grafico codigo) fig.

Definition processa_dados (cotas_ref : DataFrame) (codigo : string) : M unit :=
  try_except (corpo_dados cotas_ref codigo)
    (λ e, logger_error ("Estação " +:+ codigo
            +:+ ": ERRO CRÍTICO no processamento, plotagem ou consulta de dados. Detalhe: "
            +:+ exc_str e)).

(** Lines 75-170: one iteration of the main loop. *)
Definition estacao (cotas_ref : DataFrame) (codigo : string) : M unit :=
  consulta_inventario codigo;;
  processa_dados cotas_ref codigo.

(** The whole script. *)
Definition main : M unit :=
  cotas_ref ← carrega_cotas_ref;
  lista ← carrega_lista;
  os_makedirs diretorio_graficos;;
  for_each lista (estacao cotas_ref).

(** *** The outcome of each stage, as a function of the surroundings

    These functions say what a stage of the loop body amounts to for the
    request sent after [k] earlier ones; the lemmas below prove that the
    statements above compute exactly this. *)

(** The table a request yields: [requests.get], [decode] and [pd.read_xml]. *)
Definition tabela_xml (k : nat) (u : string) (t : Z) (xpath : string)
    : result DataFrame :=
  content ← requests_get w k u t;
  xml ← decode_utf8 w content;
  pd_read_xml xml xpath.

(** The inventory lookup: [ok (Some v)] when it succeeds and [v] is the name
    in the first row, [raise e] when any step of the lookup fails, as
    [pd.read_xml] does when the xpath selects no row; [ok None] is the
    [else] branch of line 87, for an empty table. *)
Definition nome_resolvido (k : nat) (codigo : string) : result (option value) :=
  inventario ← tabela_xml k (url_inventario codigo) 30 ".//Table";
  if negb (empty inventario)
  then v ← (col ← getitem inventario "Nome"; iloc_first col); ok (Some v)
  else ok None.

(** The measurement table of a station. *)
Definition tabela_dados (k : nat) (codigo : string) : result DataFrame :=
  tabela_xml k (url_dados codigo) 60 ".//DadosHidrometereologicos".

(** The figure of lines 122-159 when the variable [nome] holds [n]. *)
Definition figura (n : option value)
    (cotas_ref : DataFrame) (codigo : string) (df : DataFrame) : result Figure :=
  cota ← getitem df "Cota";
  ultimo_dado ← iloc_last cota;
  data_ultimo_dado ← ultimo_indice_strftime df;
  let fig := plot (index df) cota "blue" "-" "Nível do rio" subplots in
  fig ← linhas_referencia cotas_ref codigo fig;
  nome ← match n with Some v => ok v | None => raise (NameError "nome") end;
  let fig := set_title ("Estação " +:+ codigo +:+ ": " +:+ py_str nome
                        +:+ " - Cotas dos últimos 7 dias") fig in
  let fig := set_xlabel "Data" fig in
  let fig := set_ylabel "Cota (cm)" fig in
  cota_txt ← format_0f ultimo_dado;
  let text_box := "Último Dado:" +:+ String "010" EmptyString
                  +:+ "Data: " +:+ data_ultimo_dado +:+ String "010" EmptyString
                  +:+ "Cota: " +:+ cota_txt +:+ " cm" in
  ok (text text_box fig).

(** How the measurement stage of one station ends. *)
Inductive desfecho :=
| SemDados
| SemDadosValidos
| Falha (e : exception)
| Grafico (fig : Figure).

Definition desfecho_dados (k : nat) (n : option value)
    (cotas_ref : DataFrame) (codigo : string) : desfecho :=
  match tabela_dados k codigo with
  | raise e => Falha e
  | ok df_cota_temp =>
      if empty df_cota_temp then SemDados
      else
        match df1 ← converte_DataHora df_cota_temp; df_cota df1 with
        | raise e => Falha e
        | ok df =>
            if empty df then SemDadosValidos
            else
              match figura n cotas_ref codigo df with
              | raise e => Falha e
              | ok fig =>
                  match savefig_raises w (S k) (nome_arquivo_grafico codigo) with
                  | Some e => Falha e
                  | None => Grafico fig
                  end
              end
        end
  end.

End Run.

Definition msg_sem_dados (codigo : string) : string :=
  "Estação " +:+ codigo +:+ ": Nenhum dado de cota encontrado no período de consulta.".
Definition msg_sem_dados_validos (codigo : string) : string :=
  "Estação " +:+ codigo +:+ ": Nenhum dado válido de cota encontrado após limpeza.".
Definition msg_erro_critico (codigo : string) (e : exception) : string :=
  "Estação " +:+ codigo
  +:+ ": ERRO CRÍTICO no processamento, plotagem ou consulta de dados. Detalhe: "
  +:+ exc_str e.
Definition msg_nao_encontrada (codigo : string) : string :=
  "Estação " +:+ codigo +:+ ": Não encontrada no inventário da ANA.".
Definition msg_erro_inventario (codigo : string) (e : exception) : string :=
  "Estação " +:+ codigo
  +:+ ": Erro ao consultar inventário da ANA. Detalhe: " +:+ exc_str e.

(** The effect of each outcome on the state. *)
Definition aplica_desfecho (codigo : string) (d : desfecho) (s : state) : state :=
  match d with
  | SemDados => add_log (LogRecord WARNING (msg_sem_dados codigo)) s
  | SemDadosValidos => add_log (LogRecord WARNING (msg_sem_dados_validos codigo)) s
  | Falha e => add_log (LogRecord ERROR (msg_erro_critico codigo e)) s
  | Grafico fig => add_file (nome_arquivo_grafico codigo) fig s
  end.

Definition aplica_inventario
    (codigo : string) (r : result (option value)) (s : state) : state :=
  match r with
  | ok (Some v) => assign_nome v s
  | ok None => add_log (LogRecord WARNING (msg_nao_encontrada codigo)) s
  | raise e => add_log (LogRecord ERROR (msg_erro_inventario codigo e)) s
  end.

(** The state after each stage of an iteration, and after the loop. *)
Definition apos_inventario (w : World) (codigo : string) (s : state) : state :=
  aplica_inventario codigo
    (nome_resolvido w (List.length (requests s)) codigo)
    (add_request (Request (url_inventario codigo) 30) s).

Definition apos_dados
    (w : World) (cotas_ref : DataFrame) (codigo : string) (s : state) : state :=
  aplica_desfecho codigo
    (desfecho_dados w (List.length (requests s)) (nome s) cotas_ref codigo)
    (add_request (Request (url_dados w codigo) 60) s).

Definition apos_estacao
    (w : World) (cotas_ref : DataFrame) (codigo : string) (s : state) : state :=
  apos_dados w cotas_ref codigo (apos_inventario w codigo s).

Definition apos_lista
    (w : World) (cotas_ref : DataFrame) (lista : list string) (s : state) : state :=
  foldl (λ s codigo, apos_estacao w cotas_ref codigo s) s lista.

(** The reference table a run works with, and the record logged when the
    file could not be loaded. *)
Definition cotas_ref (w : World) : DataFrame :=
  match df ← read_csv w nome_arquivo_referencia; set_index "Codigo" df with
  | ok df => df
  | raise _ => empty_frame
  end.

Definition aviso_cotas_ref (w : World) : option log_record :=
  match df ← read_csv w nome_arquivo_referencia; set_index "Codigo" df with
  | ok _ => None
  | raise e =>
      if decide (exc_class e = "FileNotFoundError")
      then Some (LogRecord WARNING
             ("Arquivo de referência '" +:+ nome_arquivo_referencia
              +:+ "' não encontrado. As linhas de alerta/inundação não serão plotadas."))
      else Some (LogRecord ERROR
             ("Erro ao carregar o arquivo de referência: " +:+ exc_str e))
  end.

Definition apos_cotas_ref (w : World) (s : state) : state :=
  match aviso_cotas_ref w with
  | Some r => add_log r s
  | None => s
  end.

Definition msg_lista_ausente : string :=
  "ERRO: Arquivo '" +:+ nome_do_arquivo +:+ "' não encontrado.".
Definition msg_lista_vazia : string :=
  "ERRO: A lista de estações está vazia após a leitura do arquivo.".

(** The requests of a run over a list of stations. *)
Definition pedidos (w : World) (lista : list string) : list request :=
  flat_map (λ codigo, [Request (url_inventario codigo) 30;
                        Request (url_dados w codigo) 60]) lista.

End Script.

(** ** Sample runs

    Concrete surroundings on which the theorems below are exercised: the
    answers of the service are given per request, in the order the requests
    are sent. *)

Module Exemplos.
Import Python Datetime Pandas Pyplot Script.

Definition nl : string := String "010" EmptyString.

(** A measurement row as [pd.read_xml] delivers it. *)
Definition medicao (i : Z) (datahora nivel : value) : row :=
  Row (Num i) (<["CodEstacao" := Num 60474000]>
               (<["DataHora" := datahora]> (<["Nivel" := nivel]> ∅))).

(** Four readings, two of them incomplete, out of order. *)
Definition tabela : DataFrame :=
  Frame ["CodEstacao"; "DataHora"; "Nivel"]
    [medicao 0 (Str "2024-03-02 00:00:00") (Float 120);
     medicao 1 NaN (Float 130);
     medicao 2 (Str "2024-03-01 00:00:00") (Float 110);
     medicao 3 (Str "2024-03-03 00:00:00") NaN].

(** A table whose readings are all incomplete. *)
Definition tabela_incompleta : DataFrame :=
  Frame ["CodEstacao"; "DataHora"; "Nivel"]
    [medicao 0 NaN (Float 130);
     medicao 1 (Str "2024-03-03 00:00:00") NaN].

Definition le_data_hora (s : string) : result (option Z) :=
  if decide (s = "2024-03-01 00:00:00") then ok (Some 1709251200000000000%Z)
  else if decide (s = "2024-03-02 00:00:00") then ok (Some 1709337600000000000%Z)
  else if decide (s = "2024-03-03 00:00:00") then ok (Some 1709424000000000000%Z)
  else raise (ValueError ("Unknown datetime string format, unable to parse: " +:+ s)).

Definition inventario_rio : DataFrame :=
  Frame ["Codigo"; "Nome"]
    [Row (Num 0) (<["Codigo" := Num 12345678]> (<["Nome" := Str "RIO DOCE"]> ∅))].

(** The reference file with the thresholds of station 12345678. *)
Definition referencia : DataFrame :=
  Frame ["Codigo"; "Alerta"; "Inundacao"]
    [Row (Num 0) (<["Codigo" := Str "12345678"]>
                  (<["Alerta" := Num 150]> (<["Inundacao" := Num 300]> ∅)))].

Definition Timeout : exception :=
  Exception "ReadTimeout" "HTTPSConnectionPool(host='telemetriaws1.ana.gov.br', port=443): Read timed out.".

(** The surroundings of a run on 2024-03-04 at 08:00, with the given list
    file and the given answers to the successive requests. *)
Definition mundo (lista : result (list string)) (respostas : list (result string))
    : World := {|
  now := mkdatetime (mkdate 2024 3 4) 28800;
  lista_txt := lista;
  read_csv := λ _, ok referencia;
  requests_get := λ k _ _, nth k respostas (raise Timeout);
  decode_utf8 := ok;
  read_xml := λ xml _,
    if decide (xml = "inventario") then ok inventario_rio
    else if decide (xml = "dados") then ok tabela
    else if decide (xml = "incompletos") then ok tabela_incompleta
    else if decide (xml = "vazio") then ok empty_frame
    else raise (Exception "XMLSyntaxError" "Document is empty, line 1, column 1");
  to_datetime_text := le_data_hora;
  makedirs_raises := λ _, None;
  savefig_raises := λ _ _, None
|}.

Definition lista_exemplo : list string :=
  ["# estacoes do rio Doce" +:+ nl; "12345678" +:+ nl; nl; " 60474000 " +:+ nl].

(** Both stations answer. *)
Definition mundo_normal : World :=
  mundo (ok lista_exemplo)
        [ok "inventario"; ok "dados"; ok "inventario"; ok "dados"].

(** The inventory of the only station times out. *)
Definition mundo_sem_nome : World :=
  mundo (ok ["60474000"]) [raise Timeout; ok "dados"].

(** The inventory of the second station times out. *)
Definition mundo_nome_anterior : World :=
  mundo (ok ["12345678"; "60474000"])
        [ok "inventario"; ok "dados"; raise Timeout; ok "dados"].

(** The first station has no reading, the second only incomplete ones. *)
Definition mundo_sem_dados : World :=
  mundo (ok ["12345678"; "60474000"])
        [ok "inventario"; ok "vazio"; ok "inventario"; ok "incompletos"].

(** The state in which a run starts on an empty disk. *)
Definition disco_vazio : state := inicio ∅ ∅.

(** [tabela] with its timestamps converted. *)
Definition tabela_convertida : DataFrame :=
  Frame ["CodEstacao"; "DataHora"; "Nivel"]
    [medicao 0 (Timestamp 1709337600000000000) (Float 120);
     medicao 1 NaN (Float 130);
     medicao 2 (Timestamp 1709251200000000000) (Float 110);
     medicao 3 (Timestamp 1709424000000000000) NaN].

(** The cleaned series of [tabela]. *)
Definition serie_limpa : DataFrame :=
  match df_cota tabela_convertida with
  | ok df => df
  | raise _ => empty_frame
  end.

(** The figure of a measurement stage, or the empty figure when the stage
    does not end with one. *)
Definition figura_de (d : desfecho) : Figure :=
  match d with
  | Grafico fig => fig
  | _ => subplots
  end.

(** The chart of station 12345678 in [mundo_normal]. *)
Definition grafico_12345678 : Figure :=
  figura_de (desfecho_dados mundo_normal 1 (Some (Str "RIO DOCE"))
               (cotas_ref mundo_normal) "12345678").

(** The chart of station 60474000 in [mundo_nome_anterior], drawn after its
    own inventory lookup timed out. *)
Definition grafico_60474000 : Figure :=
  figura_de (desfecho_dados mundo_nome_anterior 3 (Some (Str "RIO DOCE"))
               (cotas_ref mundo_nome_anterior) "60474000").

End Exemplos.

(** ** The list file, in the words of the specification

    A second description of what loading the list file means, written from
    the words of the specification and from the Unicode tables, without the
    functions of the script: the theorems compare the two. *)

Module Texto.

(** The characters that count as white space, by code point: the controls
    U+0009 to U+000D and U+001C to U+001F, the space, U+0085, U+00A0, U+1680,
    U+2000 to U+200A, U+2028, U+2029, U+202F, U+205F and U+3000. *)
Definition white_space : list N :=
  [9; 10; 11; 12; 13; 28; 29; 30; 31; 32; 133; 160; 5760;
   8192; 8193; 8194; 8195; 8196; 8197; 8198; 8199; 8200; 8201; 8202;
   8232; 8233; 8239; 8287; 12288]%N.

(** The UTF-8 encoding of a code point. *)
Definition utf8 (n : N) : string :=
  let byte (k : N) := String (ascii_of_N k) in
  if (n <? 128)%N then byte n EmptyString
  else if (n <? 2048)%N then
    byte (192 + n / 64)%N (byte (128 + n mod 64)%N EmptyString)
  else if (n <? 65536)%N then
    byte (224 + n / 4096)%N
      (byte (128 + (n / 64) mod 64)%N (byte (128 + n mod 64)%N EmptyString))
  else
    byte (240 + n / 262144)%N
      (byte (128 + (n / 4096) mod 64)%N
        (byte (128 + (n / 64) mod 64)%N (byte (128 + n mod 64)%N EmptyString))).

(** The white-space characters, as the text of a file holds them. *)
Definition espacos : list string := utf8 <$> white_space.

(** A text made of white-space characters only. *)
Inductive brancos : string → Prop :=
| brancos_nil : brancos EmptyString
| brancos_cons (c s : string) : c ∈ espacos → brancos s → brancos (c +:+ s).

(** [codigo] is [linha] with the surrounding white space stripped: white
    space comes before it and after it in the line, and it neither starts
    nor ends with a white-space character. *)
Definition sem_espacos_em_volta (linha codigo : string) : Prop :=
  (∃ antes depois,
     linha = antes +:+ codigo +:+ depois ∧ brancos antes ∧ brancos depois)
  ∧ (∀ c r, c ∈ espacos → codigo ≠ c +:+ r)
  ∧ (∀ c r, c ∈ espacos → codigo ≠ r +:+ c).

(** The codes a list file yields: blank lines and lines that start with the
    comment marker are left out, every other line gives its stripped text,
    in the order of the file. *)
Inductive lista_do_arquivo : list string → list string → Prop :=
| lista_fim : lista_do_arquivo [] []
| lista_em_branco (linha : string) (resto lista : list string) :
    brancos linha →
    lista_do_arquivo resto lista →
    lista_do_arquivo (linha :: resto) lista
| lista_comentario (r : string) (resto lista : list string) :
    lista_do_arquivo resto lista →
    lista_do_arquivo (String "#" r :: resto) lista
| lista_codigo (linha codigo : string) (resto lista : list string) :
    ¬ brancos linha →
    (∀ r, linha ≠ String "#" r) →
    sem_espacos_em_volta linha codigo →
    lista_do_arquivo resto lista →
    lista_do_arquivo (linha :: resto) (codigo :: lista).

(** The bytes that continue a character of several bytes. *)
Fixpoint continuation (s : string) : bool :=
  match s with
  | EmptyString => true
  | String a r =>
      let n := nat_of_ascii a in (128 <=? n)%nat && (n <? 192)%nat && continuation r
  end.

End Texto.

(** ** Notions about whole runs

    What the later sections say about a run as a whole: the list file that
    holds given codes, and the files a loop writes, in the order it writes
    them. *)

Module Corrida.
Import Python Datetime Pandas Pyplot Script.

(** The line feed that ends a line of a text file. *)
Definition LF : string := String "010" EmptyString.

(** A list file with one code per line. *)
Definition linhas_de (lista : list string) : list string :=
  (λ codigo, codigo +:+ LF) <$> lista.

(** The figure the measurement stage of [codigo] saves when the iteration
    starts in state [s], if it saves one. *)
Definition escrita
    (w : World) (cotas_ref : DataFrame) (codigo : string) (s : state)
    : list (string * Figure) :=
  match desfecho_dados w (S (List.length (requests s)))
          (nome (apos_inventario w codigo s)) cotas_ref codigo with
  | Grafico fig => [(nome_arquivo_grafico codigo, fig)]
  | _ => []
  end.

(** The files the loop over [lista] writes from state [s], in order. *)
Fixpoint escritas
    (w : World) (cotas_ref : DataFrame) (lista : list string) (s : state)
    : list (string * Figure) :=
  match lista with
  | [] => []
  | codigo :: resto =>
      escrita w cotas_ref codigo s
      ++ escritas w cotas_ref resto (apos_estacao w cotas_ref codigo s)
  end.

(** Writing files one after the other. *)
Definition grava (m : gmap string Figure) (u : list (string * Figure))
    : gmap string Figure :=
  foldl (λ m pf, <[pf.1 := pf.2]> m) m u.

(** Two states that differ at most in what the disk holds. *)
Definition mesmo_fora_do_disco (s t : state) : Prop :=
  log s = log t ∧ requests s = requests t ∧ nome s = nome t.

(** The records an iteration may add to the log name its station. *)
Definition registro_da_estacao (codigo : string) (r : log_record) : Prop :=
  (levelname r = WARNING ∨ levelname r = ERROR)
  ∧ ∃ resto, message r = "Estação " +:+ codigo +:+ ": " +:+ resto.

End Corrida.

(** ** More sample runs *)

Module MaisExemplos.
Import Python Datetime Pandas Pyplot Script Exemplos.

(** [mundo_normal] without the reference file. *)
Definition mundo_sem_referencia : World := {|
  now := now mundo_normal;
  lista_txt := lista_txt mundo_normal;
  read_csv := λ arquivo, raise (FileNotFoundError arquivo);
  requests_get := requests_get mundo_normal;
  decode_utf8 := decode_utf8 mundo_normal;
  read_xml := read_xml mundo_normal;
  to_datetime_text := to_datetime_text mundo_normal;
  makedirs_raises := makedirs_raises mundo_normal;
  savefig_raises := savefig_raises mundo_normal
|}.

(** The chart of station 12345678 when the reference file is missing. *)
Definition grafico_sem_referencia : Figure :=
  figura_de (desfecho_dados mundo_sem_referencia 1 (Some (Str "RIO DOCE"))
               (cotas_ref mundo_sem_referencia) "12345678").

(** A world in which every inventory request yields [inventario] and every
    measurement request yields [dados]; the reference file is the sample
    one. *)
Definition mundo_com (inventario dados : DataFrame) : World := {|
  now := now mundo_normal;
  lista_txt := ok ["12345678" +:+ nl];
  read_csv := λ _, ok referencia;
  requests_get := λ _ _ _, ok "xml";
  decode_utf8 := ok;
  read_xml := λ _ xpath,
    if decide (xpath = ".//Table") then ok inventario else ok dados;
  to_datetime_text := le_data_hora;
  makedirs_raises := λ _, None;
  savefig_raises := λ _ _, None
|}.

(** Two readings, the second with a timestamp that cannot be read. *)
Definition tabela_ilegivel : DataFrame :=
  Frame ["CodEstacao"; "DataHora"; "Nivel"]
    [medicao 0 (Str "2024-03-02 00:00:00") (Num 120);
     medicao 1 (Str "ontem") (Num 130)].

(** A measurement table without the level column, as fetched and with its
    timestamps converted. *)
Definition tabela_sem_nivel : DataFrame :=
  Frame ["CodEstacao"; "DataHora"]
    [Row (Num 0) (<["CodEstacao" := Num 60474000]>
                  (<["DataHora" := Str "2024-03-02 00:00:00"]> ∅))].

Definition tabela_sem_nivel_convertida : DataFrame :=
  Frame ["CodEstacao"; "DataHora"]
    [Row (Num 0) (<["CodEstacao" := Num 60474000]>
                  (<["DataHora" := Timestamp 1709337600000000000]> ∅))].

(** A reference table, already indexed by code, without the alert column. *)
Definition referencia_sem_alerta : DataFrame :=
  Frame ["Inundacao"] [Row (Str "12345678") (<["Inundacao" := Num 300]> ∅)].

(** An inventory table without the name column. *)
Definition inventario_sem_nome : DataFrame :=
  Frame ["Codigo"] [Row (Num 0) (<["Codigo" := Num 12345678]> ∅)].

(** The row of [inventario_rio]. *)
Definition linha_rio : row :=
  Row (Num 0) (<["Codigo" := Num 12345678]> (<["Nome" := Str "RIO DOCE"]> ∅)).

(** A reference table, indexed by code, in which the flood level of the
    second station is missing: that column holds floats. *)
Definition referencia_com_falta : DataFrame :=
  Frame ["Alerta"; "Inundacao"]
    [Row (Str "12345678")
         (<["Alerta" := Num 150]> (<["Inundacao" := Float 300]> ∅));
     Row (Str "60474000")
         (<["Alerta" := Num 200]> (<["Inundacao" := NaN]> ∅))].

(** The chart of station 12345678 under that table. *)
Definition grafico_com_falta : Figure :=
  match figura (Some (Str "RIO DOCE")) referencia_com_falta "12345678"
          serie_limpa with
  | ok fig => fig
  | raise _ => subplots
  end.

(** U+00A0, the no-break space, and U+3000, the ideographic space. *)
Definition NBSP : string := String "194" (String "160" EmptyString).
Definition IDEOGRAPHIC_SPACE : string :=
  String "227" (String "128" (String "128" EmptyString)).

(** A list file with a comment, a code between a no-break space and a
    carriage return, a line of white space only, a code after a tab and an
    indented comment. *)
Definition lista_unicode : list string :=
  ["# estacoes do rio Doce" +:+ nl;
   NBSP +:+ "12345678" +:+ String "013" nl;
   " " +:+ IDEOGRAPHIC_SPACE +:+ nl;
   String "009" "60474000" +:+ NBSP +:+ nl;
   "  # nota" +:+ nl].

(** The list file is there but is not UTF-8. *)
Definition erro_de_leitura : exception :=
  Exception "UnicodeDecodeError"
    "'utf-8' codec can't decode byte 0xe7 in position 4: invalid continuation byte".

Definition mundo_latin1 : World :=
  mundo (raise erro_de_leitura) [ok "inventario"; ok "dados"].

(** The output directory cannot be created. *)
Definition erro_de_permissao : exception :=
  Exception "PermissionError" "[Errno 13] Permission denied: 'Graficos_Saida'".

Definition mundo_sem_permissao : World := {|
  now := now mundo_normal;
  lista_txt := lista_txt mundo_normal;
  read_csv := read_csv mundo_normal;
  requests_get := requests_get mundo_normal;
  decode_utf8 := decode_utf8 mundo_normal;
  read_xml := read_xml mundo_normal;
  to_datetime_text := to_datetime_text mundo_normal;
  makedirs_raises := λ _, Some erro_de_permissao;
  savefig_raises := savefig_raises mundo_normal
|}.

End MaisExemplos.

(** * Properties *)

(** ** Strings *)

Section StringFacts.
Import Python Texto.

Lemma string_app_assoc (a b c : string) : (a +:+ b) +:+ c = a +:+ (b +:+ c).
Proof.
  induction a as [|x a IH]; [reflexivity|].
  change (String x ((a +:+ b) +:+ c) = String x (a +:+ (b +:+ c))).
  by rewrite IH.
Qed.

Lemma string_app_nil_r (a : string) : a +:+ EmptyString = a.
Proof.
  induction a as [|x a IH]; [reflexivity|].
  change (String x (a +:+ EmptyString) = String x a). by rewrite IH.
Qed.

Lemma string_length_app (s t : string) :
  String.length (s +:+ t) = String.length s + String.length t.
Proof.
  induction s as [|a s IH]; [reflexivity|].
  change (String a s +:+ t) with (String a (s +:+ t)).
  cbn [String.length]. by rewrite IH.
Qed.

(** The white-space characters, byte by byte. *)
Lemma espacos_eq :
  espacos
  = [String "009" EmptyString; String "010" EmptyString;
     String "011" EmptyString; String "012" EmptyString;
     String "013" EmptyString; String "028" EmptyString;
     String "029" EmptyString; String "030" EmptyString;
     String "031" EmptyString; String "032" EmptyString;
     String "194" (String "133" EmptyString);
     String "194" (String "160" EmptyString);
     String "225" (String "154" (String "128" EmptyString));
     String "226" (String "128" (String "128" EmptyString));
     String "226" (String "128" (String "129" EmptyString));
     String "226" (String "128" (String "130" EmptyString));
     String "226" (String "128" (String "131" EmptyString));
     String "226" (String "128" (String "132" EmptyString));
     String "226" (String "128" (String "133" EmptyString));
     String "226" (String "128" (String "134" EmptyString));
     String "226" (String "128" (String "135" EmptyString));
     String "226" (String "128" (String "136" EmptyString));
     String "226" (String "128" (String "137" EmptyString));
     String "226" (String "128" (String "138" EmptyString));
     String "226" (String "128" (String "168" EmptyString));
     String "226" (String "128" (String "169" EmptyString));
     String "226" (String "128" (String "175" EmptyString));
     String "226" (String "129" (String "159" EmptyString));
     String "227" (String "128" (String "128" EmptyString))].
Proof. vm_compute. reflexivity. Qed.

Ltac espaco_cases H :=
  rewrite espacos_eq in H;
  repeat (apply elem_of_cons in H as [->|H]);
  [..|by apply elem_of_nil in H].

Ltac espaco_in :=
  rewrite espacos_eq; apply (bool_decide_unpack _); vm_compute; exact I.

(** Removing one leading white-space character. *)
Lemma lstrip_espaco (c s : string) : c ∈ espacos → lstrip (c +:+ s) = lstrip s.
Proof. intros H. espaco_cases H; reflexivity. Qed.

Lemma espaco_length (c : string) : c ∈ espacos → 0 < String.length c.
Proof. intros H. espaco_cases H; cbn; lia. Qed.

(** A white-space character starts with a byte that continues no character,
    and goes on with continuation bytes only. *)
Lemma espaco_bytes (c : string) :
  c ∈ espacos →
  ∃ a r, c = String a r ∧ continuation (String a EmptyString) = false
         ∧ continuation r = true.
Proof. intros H. espaco_cases H; eexists _, _; split; reflexivity || (split; reflexivity). Qed.

Lemma isspace_espaco (a : ascii) :
  isspace a = true → String a EmptyString ∈ espacos.
Proof.
  intros H.
  destruct a as [[] [] [] [] [] [] [] []]; vm_compute in H;
    try discriminate H; espaco_in.
Qed.

Lemma isspace2_espaco (a b : ascii) :
  isspace2 a b = true → String a (String b EmptyString) ∈ espacos.
Proof.
  unfold isspace2. intros H.
  apply andb_true_iff in H as [Ha Hb]. apply Ascii.eqb_eq in Ha as ->.
  apply orb_true_iff in Hb as [Hb|Hb]; apply Ascii.eqb_eq in Hb as ->; espaco_in.
Qed.

Lemma isspace3_espaco (a b c : ascii) :
  isspace3 a b c = true → String a (String b (String c EmptyString)) ∈ espacos.
Proof.
  unfold isspace3. intros H.
  repeat (apply orb_true_iff in H as [H|H]).
  - apply andb_true_iff in H as [H Hc]. apply andb_true_iff in H as [Ha Hb].
    apply Ascii.eqb_eq in Ha as ->, Hb as ->, Hc as ->. espaco_in.
  - apply andb_true_iff in H as [H Hc]. apply andb_true_iff in H as [Ha Hb].
    apply Ascii.eqb_eq in Ha as ->, Hb as ->.
    destruct c as [[] [] [] [] [] [] [] []]; vm_compute in Hc;
      try discriminate Hc; espaco_in.
  - apply andb_true_iff in H as [H Hc]. apply andb_true_iff in H as [Ha Hb].
    apply Ascii.eqb_eq in Ha as ->, Hb as ->, Hc as ->. espaco_in.
  - apply andb_true_iff in H as [H Hc]. apply andb_true_iff in H as [Ha Hb].
    apply Ascii.eqb_eq in Ha as ->, Hb as ->, Hc as ->. espaco_in.
Qed.

(** One step of [lstrip]: nothing to remove, or one white-space character
    less. *)
Lemma lstrip_step (s : string) :
  lstrip s = s ∨ ∃ c t, c ∈ espacos ∧ s = c +:+ t ∧ lstrip s = lstrip t.
Proof.
  destruct s as [|a r]; [by left|]. cbn [lstrip].
  destruct (isspace a) eqn:Ha.
  { right. exists (String a EmptyString), r.
    split; [by apply isspace_espaco|]. done. }
  destruct r as [|b r']; [by left|].
  destruct (isspace2 a b) eqn:Hb.
  { right. exists (String a (String b EmptyString)), r'.
    split; [by apply isspace2_espaco|]. done. }
  destruct r' as [|c r'']; [by left|].
  destruct (isspace3 a b c) eqn:Hc; [|by left].
  right. exists (String a (String b (String c EmptyString))), r''.
  split; [by apply isspace3_espaco|]. done.
Qed.

Lemma lstrip_length (s : string) : String.length (lstrip s) ≤ String.length s.
Proof.
  remember (String.length s) as n eqn:Hn. revert s Hn.
  induction (lt_wf n) as [n _ IH]. intros s ->.
  destruct (lstrip_step s) as [->|(c & t & Hc & -> & ->)]; [done|].
  rewrite string_length_app. pose proof (espaco_length c Hc).
  specialize (IH (String.length t)).
  etrans; [apply IH; [rewrite string_length_app; lia | done]|]. lia.
Qed.

(** What [lstrip] leaves does not start with white space. *)
Lemma lstrip_fixed (s c r : string) :
  lstrip s = s → c ∈ espacos → s ≠ c +:+ r.
Proof.
  intros Hs Hc ->. rewrite lstrip_espaco in Hs by done.
  pose proof (lstrip_length r) as Hl. rewrite Hs, string_length_app in Hl.
  pose proof (espaco_length c Hc). lia.
Qed.

Lemma lstrip_of_clean (s : string) :
  (∀ c r, c ∈ espacos → s ≠ c +:+ r) → lstrip s = s.
Proof.
  intros H. destruct (lstrip_step s) as [|(c & t & Hc & Hs & _)]; [done|].
  by destruct (H c t Hc).
Qed.

Lemma lstrip_spec (s : string) :
  ∃ antes, brancos antes ∧ s = antes +:+ lstrip s ∧ lstrip (lstrip s) = lstrip s.
Proof.
  remember (String.length s) as n eqn:Hn. revert s Hn.
  induction (lt_wf n) as [n _ IH]. intros s ->.
  destruct (lstrip_step s) as [Hs|(c & t & Hc & -> & Hs)].
  - exists EmptyString. rewrite Hs. split; [constructor|]. done.
  - destruct (IH (String.length t)) with (s := t) as (antes & Ha & Ht & Hi);
      [rewrite string_length_app; pose proof (espaco_length c Hc); lia | done |].
    exists (c +:+ antes). rewrite Hs. split; [by constructor|].
    split; [|done]. rewrite string_app_assoc. by rewrite <- Ht.
Qed.

Lemma lstrip_idemp (s : string) : lstrip (lstrip s) = lstrip s.
Proof. by destruct (lstrip_spec s) as (_ & _ & _ & H). Qed.

Lemma brancos_app (a b : string) : brancos a → brancos b → brancos (a +:+ b).
Proof.
  induction 1 as [|c s Hc Hs IH]; intros Hb; [done|].
  rewrite string_app_assoc. constructor; auto.
Qed.

Lemma brancos_espaco (c : string) : c ∈ espacos → brancos c.
Proof.
  intros H. rewrite <- (string_app_nil_r c). constructor; [done | constructor].
Qed.

Lemma lstrip_brancos (a s : string) : brancos a → lstrip (a +:+ s) = lstrip s.
Proof.
  induction 1 as [|c a Hc Ha IH]; [done|].
  by rewrite string_app_assoc, lstrip_espaco.
Qed.

(** [blank] decides [brancos]. *)
Lemma blank_brancos (s : string) : blank s = true ↔ brancos s.
Proof.
  unfold blank. split.
  - intros H. destruct (lstrip_spec s) as (antes & Ha & Hs & _).
    destruct (lstrip s); [|discriminate]. rewrite string_app_nil_r in Hs.
    by subst.
  - intros H. rewrite <- (string_app_nil_r s), lstrip_brancos by done. done.
Qed.

Lemma brancos_last (s : string) :
  brancos s → s = EmptyString ∨ ∃ p c, c ∈ espacos ∧ s = p +:+ c.
Proof.
  induction 1 as [|c s Hc Hs IH]; [by left|]. right.
  destruct IH as [->|(p & c' & Hc' & ->)].
  - exists EmptyString, c. by rewrite string_app_nil_r.
  - exists (c +:+ p), c'. by rewrite string_app_assoc.
Qed.

Lemma continuation_app (a b : string) :
  continuation (a +:+ b) = continuation a && continuation b.
Proof.
  induction a as [|x a IH]; [reflexivity|].
  change (String x a +:+ b) with (String x (a +:+ b)).
  cbn [continuation]. rewrite IH. by rewrite andb_assoc.
Qed.

Lemma string_app_split (a b c d : string) :
  a +:+ b = c +:+ d →
  (∃ x, c = a +:+ x ∧ b = x +:+ d) ∨ (∃ x, a = c +:+ x ∧ d = x +:+ b).
Proof.
  revert c. induction a as [|x a IH]; intros c H.
  - left. exists c. done.
  - destruct c as [|y c].
    + right. exists (String x a). done.
    + change (String x (a +:+ b) = String y (c +:+ d)) in H.
      injection H as -> H.
      destruct (IH c H) as [(z & -> & ->)|(z & -> & ->)]; [left|right];
        by exists z.
Qed.

(** Text that does not start with white space still does not when white
    space is written after it: no white-space character starts in the
    text and ends in what follows. *)
Lemma lstrip_app_clean (c d : string) :
  c ≠ EmptyString → lstrip c = c → brancos d → lstrip (c +:+ d) = c +:+ d.
Proof.
  intros Hne Hc Hd.
  destruct (lstrip_step (c +:+ d)) as [|(w & t & Hw & Heq & _)]; [done|].
  exfalso.
  destruct (string_app_split _ _ _ _ Heq) as [(x & -> & Hx)|(x & -> & _)].
  2: { by apply (lstrip_fixed _ w x Hc Hw). }
  destruct (espaco_bytes _ Hw) as (a & r & Hwa & _ & Hr).
  destruct c as [|a' c']; [done|].
  change (String a' (c' +:+ x) = String a r) in Hwa. injection Hwa as -> <-.
  rewrite continuation_app in Hr. apply andb_true_iff in Hr as [_ Hx'].
  destruct Hd as [|w' d' Hw' Hd'].
  - destruct x; [|discriminate Hx].
    rewrite string_app_nil_r in Hw.
    by apply (lstrip_fixed _ _ EmptyString Hc Hw), eq_sym, string_app_nil_r.
  - destruct (espaco_bytes _ Hw') as (b & r' & -> & Hb & _).
    destruct x as [|b' x'].
    + rewrite string_app_nil_r in Hw.
      by apply (lstrip_fixed _ _ EmptyString Hc Hw), eq_sym, string_app_nil_r.
    + change (String b (r' +:+ d') = String b' (x' +:+ t)) in Hx.
      injection Hx as <- _. cbn [continuation] in Hx', Hb.
      rewrite andb_true_r in Hb. apply andb_true_iff in Hx' as [Hx' _].
      congruence.
Qed.

Lemma lstrip_app_brancos (c d : string) :
  brancos d →
  lstrip (c +:+ d) = if blank c then EmptyString else lstrip c +:+ d.
Proof.
  intros Hd. destruct (lstrip_spec c) as (antes & Ha & Hc & Hi).
  rewrite Hc at 1. rewrite string_app_assoc, lstrip_brancos by done.
  unfold blank. destruct (lstrip c) as [|x t] eqn:E.
  - apply blank_brancos in Hd. unfold blank in Hd.
    change (EmptyString +:+ d) with d. by destruct (lstrip d).
  - by apply lstrip_app_clean.
Qed.

Lemma blank_app_brancos (c d : string) : brancos d → blank (c +:+ d) = blank c.
Proof.
  intros Hd. unfold blank at 1. rewrite lstrip_app_brancos by done.
  destruct (blank c) eqn:E; [done|]. unfold blank in E.
  by destruct (lstrip c).
Qed.

(** What [rstrip] removes is white space, and what it leaves does not end
    with white space. *)
Lemma rstrip_spec (s : string) :
  ∃ depois, brancos depois ∧ s = rstrip s +:+ depois
            ∧ ∀ c r, c ∈ espacos → rstrip s ≠ r +:+ c.
Proof.
  induction s as [|a s (depois & Hd & Hs & Hend)].
  - exists EmptyString. split; [constructor|]. split; [done|].
    intros c r Hc H. apply (f_equal String.length) in H.
    rewrite string_length_app in H. pose proof (espaco_length c Hc).
    cbn in H. lia.
  - cbn [rstrip]. destruct (blank (String a s)) eqn:Hb.
    + exists (String a s). split; [by apply blank_brancos|]. split; [done|].
      intros c r Hc H. apply (f_equal String.length) in H.
      rewrite string_length_app in H. pose proof (espaco_length c Hc).
      cbn in H. lia.
    + exists depois. split; [done|]. split.
      * change (String a s = String a (rstrip s +:+ depois)). by rewrite <- Hs.
      * intros c r Hc H. destruct r as [|x r].
        -- change (String a (rstrip s) = c) in H.
           assert (Hall : brancos (String a s)).
           { rewrite Hs. change (brancos (String a (rstrip s) +:+ depois)).
             rewrite H. by constructor. }
           apply blank_brancos in Hall. congruence.
        -- change (String a (rstrip s) = String x (r +:+ c)) in H.
           injection H as _ H. by apply (Hend c r Hc).
Qed.

Lemma rstrip_of_clean (s : string) :
  (∀ c r, c ∈ espacos → s ≠ r +:+ c) → rstrip s = s.
Proof.
  induction s as [|a s IH]; [done|]. intros H. cbn [rstrip].
  destruct (blank (String a s)) eqn:Hb.
  - apply blank_brancos, brancos_last in Hb as [|(p & c & Hc & Hs)]; [done|].
    by destruct (H c p Hc).
  - f_equal. apply IH. intros c r Hc ->.
    by apply (H c (String a r) Hc).
Qed.

Lemma rstrip_idemp (s : string) : rstrip (rstrip s) = rstrip s.
Proof.
  destruct (rstrip_spec s) as (_ & _ & _ & H). by apply rstrip_of_clean.
Qed.

Lemma rstrip_app_brancos (c d : string) : brancos d → rstrip (c +:+ d) = rstrip c.
Proof.
  intros Hd. induction c as [|a c IH].
  - change (EmptyString +:+ d) with d.
    destruct d as [|x d]; [done|]. cbn [rstrip].
    apply blank_brancos in Hd. by rewrite Hd.
  - change (String a c +:+ d) with (String a (c +:+ d)). cbn [rstrip].
    change (String a (c +:+ d)) with (String a c +:+ d).
    by rewrite blank_app_brancos, IH.
Qed.

(** What [rstrip] leaves starts as the text did. *)
Lemma rstrip_keeps_start (s : string) :
  (∀ c r, c ∈ espacos → s ≠ c +:+ r) →
  ∀ c r, c ∈ espacos → rstrip s ≠ c +:+ r.
Proof.
  intros H c r Hc Hr. destruct (rstrip_spec s) as (depois & _ & Hs & _).
  rewrite Hr, string_app_assoc in Hs. by apply (H c (r +:+ depois) Hc).
Qed.

Lemma lstrip_strip (s : string) : lstrip (strip s) = strip s.
Proof.
  unfold strip. apply lstrip_of_clean, rstrip_keeps_start.
  intros c r Hc. apply lstrip_fixed; [apply lstrip_idemp | done].
Qed.

Lemma rstrip_strip (s : string) : rstrip (strip s) = strip s.
Proof. unfold strip. apply rstrip_idemp. Qed.

(** [strip] gives the text without the white space around it. *)
Lemma strip_spec (s : string) : sem_espacos_em_volta s (strip s).
Proof.
  unfold strip.
  destruct (lstrip_spec s) as (antes & Ha & Hs & Hi).
  destruct (rstrip_spec (lstrip s)) as (depois & Hd & Ht & Hend).
  split; [|split].
  - exists antes, depois. split; [|done]. by rewrite <- Ht.
  - apply rstrip_keeps_start. intros c r Hc. by apply lstrip_fixed.
  - exact Hend.
Qed.

(** Nothing else is the text without the white space around it. *)
Lemma strip_unique (s codigo : string) :
  sem_espacos_em_volta s codigo → codigo = strip s.
Proof.
  intros ((antes & depois & -> & Ha & Hd) & Hstart & Hend).
  unfold strip. rewrite lstrip_brancos by done.
  rewrite lstrip_app_brancos by done.
  pose proof (lstrip_of_clean codigo Hstart) as Hl.
  unfold blank. rewrite Hl. destruct codigo as [|x t]; [done|].
  rewrite rstrip_app_brancos by done. symmetry. by apply rstrip_of_clean.
Qed.

Lemma strip_empty (s : string) : strip s = EmptyString ↔ brancos s.
Proof.
  split.
  - intros H. destruct (strip_spec s) as ((antes & depois & Hs & Ha & Hd) & _).
    rewrite H in Hs. rewrite Hs. by apply brancos_app.
  - intros H. symmetry. apply strip_unique. split; [|split].
    + exists s, EmptyString. split; [|split; [done | constructor]].
      by rewrite string_app_nil_r.
    + intros c r Hc Hr. apply (f_equal String.length) in Hr.
      rewrite string_length_app in Hr. pose proof (espaco_length c Hc).
      cbn in Hr. lia.
    + intros c r Hc Hr. apply (f_equal String.length) in Hr.
      rewrite string_length_app in Hr. pose proof (espaco_length c Hc).
      cbn in Hr. lia.
Qed.

Lemma truthy_nonempty (s : string) : truthy s = true ↔ s ≠ EmptyString.
Proof. destruct s; cbn; split; intros; congruence. Qed.

Lemma startswith_hash (s : string) :
  startswith s "#" = true ↔ ∃ r, s = String "#" r.
Proof.
  destruct s as [|a r]; [split; [discriminate | by intros [? ?]]|].
  change (startswith (String a r) "#") with (if Ascii.eqb "#" a then true else false).
  destruct (Ascii.eqb_spec "#" a) as [<-|Hne].
  - split; eauto.
  - split; [discriminate|]. intros [r' [= ? ?]]. congruence.
Qed.

Lemma startswith_app_char (c : ascii) (s t : string) :
  s ≠ EmptyString →
  startswith (s +:+ t) (String c EmptyString) = startswith s (String c EmptyString).
Proof. destruct s; [done|]. intros _. reflexivity. Qed.

Lemma endswith_char_spec (s : string) (c : ascii) (d : ascii) :
  endswith_char (s +:+ String d EmptyString) c = Ascii.eqb d c.
Proof.
  induction s as [|a s IH]; [reflexivity|].
  change (String a s +:+ String d EmptyString)
    with (String a (s +:+ String d EmptyString)).
  destruct s as [|b s]; [reflexivity|].
  change (String b s +:+ String d EmptyString)
    with (String b (s +:+ String d EmptyString)) in *.
  exact IH.
Qed.

End StringFacts.

(** ** The station list *)

Section ListaFacts.
Import Python Script Texto.

Lemma lista_estacoes_filter (arquivo : list string) :
  lista_estacoes arquivo
  = strip <$> List.filter
      (λ linha, truthy (strip linha) && negb (startswith linha "#")) arquivo.
Proof.
  induction arquivo as [|linha resto IH]; [done|].
  cbn [lista_estacoes List.filter].
  destruct (truthy (strip linha) && negb (startswith linha "#")); cbn; by rewrite IH.
Qed.

Lemma truthy_strip (linha : string) :
  truthy (strip linha) = false ↔ brancos linha.
Proof.
  rewrite <- strip_empty. destruct (strip linha); cbn; split; congruence.
Qed.

(** C7.  [strip] gives each line with the surrounding white space stripped,
    and nothing else does: white space alone comes before and after the
    result in the line, and the result neither starts nor ends with a
    white-space character.  The loaded list is the list the specification
    describes, and the only one: a line made of white space only gives
    nothing, a line whose first character is [#] gives nothing, every other
    line gives its stripped text, and the codes come in the order of the
    file. *)
Theorem lista_estacoes_spec (arquivo : list string) :
  (∀ linha, sem_espacos_em_volta linha (strip linha))
  ∧ (∀ linha codigo, sem_espacos_em_volta linha codigo → codigo = strip linha)
  ∧ lista_do_arquivo arquivo (lista_estacoes arquivo)
  ∧ (∀ lista, lista_do_arquivo arquivo lista → lista = lista_estacoes arquivo).
Proof.
  split; [apply strip_spec|]. split; [apply strip_unique|]. split.
  - induction arquivo as [|linha resto IH]; [constructor|].
    cbn [lista_estacoes].
    destruct (truthy (strip linha)) eqn:Ht; cbn [andb].
    + destruct (startswith linha "#") eqn:Hs; cbn [negb].
      * apply startswith_hash in Hs as [r ->]. by constructor.
      * apply lista_codigo; [| |apply strip_spec|done].
        -- intros Hb. apply truthy_strip in Hb. congruence.
        -- intros r ->. by rewrite (proj2 (startswith_hash _)) in Hs by eauto.
    + apply lista_em_branco; [by apply truthy_strip | done].
  - intros lista H.
    induction H as [|linha resto lista Hb _ IH|r resto lista _ IH
                    |linha codigo resto lista Hb Hc Hs _ IH]; [done| | |].
    + cbn [lista_estacoes]. apply truthy_strip in Hb. by rewrite Hb.
    + cbn [lista_estacoes].
      rewrite (proj2 (startswith_hash (String "#" r))) by eauto.
      cbn [negb]. by rewrite andb_false_r.
    + cbn [lista_estacoes]. pose proof (strip_unique _ _ Hs) as ->.
      destruct (truthy (strip linha)) eqn:Ht.
      2: { destruct Hb. by apply truthy_strip. }
      destruct (startswith linha "#") eqn:Hh.
      { apply startswith_hash in Hh as [r ->]. by destruct (Hc r). }
      cbn [andb negb]. by rewrite IH.
Qed.

End ListaFacts.

(** ** The calendar *)

Section DatetimeFacts.
Import Datetime.
Local Open Scope Z_scope.

Lemma forallb_range (f : Z → bool) (k : nat) (n : Z) :
  forallb (λ i, f (Z.of_nat i)) (seq 0 k) = true →
  0 ≤ n < Z.of_nat k → f n = true.
Proof.
  intros Hall Hn. rewrite forallb_forall in Hall.
  replace n with (Z.of_nat (Z.to_nat n)) by lia.
  apply Hall. apply in_seq. lia.
Qed.

Lemma month_ok_all (leapyear : bool) (n : Z) :
  0 ≤ n < 365 + b2z leapyear → month_ok leapyear n = true.
Proof.
  intros H. destruct leapyear.
  - apply (forallb_range (month_ok true) 366);
      [vm_compute; reflexivity | cbn in H; lia].
  - apply (forallb_range (month_ok false) 365);
      [vm_compute; reflexivity | cbn in H; lia].
Qed.

Lemma month_part_spec (leapyear : bool) (n : Z) :
  0 ≤ n < 365 + b2z leapyear →
  let m := (month_part leapyear n).1 in
  let d := (month_part leapyear n).2 in
  1 ≤ m ≤ 12 ∧
  1 ≤ d ≤ (if (m =? 2) && leapyear then 29 else getitem _DAYS_IN_MONTH m) ∧
  getitem _DAYS_BEFORE_MONTH m + b2z ((2 <? m) && leapyear) + d = n + 1.
Proof.
  intros H. pose proof (month_ok_all leapyear n H) as Hok.
  unfold month_ok in Hok. cbv zeta.
  destruct (month_part leapyear n) as [m d]. cbn [fst snd].
  rewrite !andb_true_iff in Hok.
  destruct Hok as ((((H1 & H2) & H3) & H4) & H5).
  lia.
Qed.

Lemma ord2ymd_month_part (y : Z) (leapyear : bool) (n : Z) :
  (let month := Z.shiftr (n + 50) 5 in
   let preceding :=
     getitem _DAYS_BEFORE_MONTH month + b2z ((2 <? month) && leapyear) in
   let '(month, preceding) :=
     if n <? preceding
     then (month - 1,
           preceding - (getitem _DAYS_IN_MONTH (month - 1)
                        + b2z ((month - 1 =? 2) && leapyear)))
     else (month, preceding) in
   mkdate y month (n - preceding + 1))
  = mkdate y (month_part leapyear n).1 (month_part leapyear n).2.
Proof.
  unfold month_part. cbv zeta. destruct (n <? _); reflexivity.
Qed.

Lemma days_before_year_decomp (a b c d : Z) :
  0 ≤ b < 4 → 0 ≤ c < 25 → 0 ≤ d < 4 →
  _days_before_year (400 * a + 100 * b + 4 * c + d + 1)
  = _DI400Y * a + _DI100Y * b + _DI4Y * c + 365 * d.
Proof.
  intros Hb Hc Hd. unfold _days_before_year, _DI400Y, _DI100Y, _DI4Y.
  replace (400 * a + 100 * b + 4 * c + d + 1 - 1)
    with (400 * a + 100 * b + 4 * c + d) by lia.
  assert (H4 : (400 * a + 100 * b + 4 * c + d) / 4 = 100 * a + 25 * b + c)
    by (symmetry; apply (Z.div_unique _ 4 _ d); lia).
  assert (H100 : (400 * a + 100 * b + 4 * c + d) / 100 = 4 * a + b)
    by (symmetry; apply (Z.div_unique _ 100 _ (4 * c + d)); lia).
  assert (H400 : (400 * a + 100 * b + 4 * c + d) / 400 = a)
    by (symmetry; apply (Z.div_unique _ 400 _ (100 * b + 4 * c + d)); lia).
  rewrite H4, H100, H400. lia.
Qed.

Lemma is_leap_decomp (a b c d : Z) :
  0 ≤ b < 4 → 0 ≤ c < 25 → 0 ≤ d < 4 →
  _is_leap (400 * a + 100 * b + 4 * c + d + 1)
  = (d =? 3) && (negb (c =? 24) || (b =? 3)).
Proof.
  intros Hb Hc Hd. unfold _is_leap.
  assert (H4 : (400 * a + 100 * b + 4 * c + d + 1) mod 4 = (d + 1) mod 4).
  { replace (400 * a + 100 * b + 4 * c + d + 1)
      with ((d + 1) + (100 * a + 25 * b + c) * 4) by lia.
    apply Z.mod_add. lia. }
  assert (H100 : (400 * a + 100 * b + 4 * c + d + 1) mod 100
                 = (4 * c + d + 1) mod 100).
  { replace (400 * a + 100 * b + 4 * c + d + 1)
      with ((4 * c + d + 1) + (4 * a + b) * 100) by lia.
    apply Z.mod_add. lia. }
  assert (H400 : (400 * a + 100 * b + 4 * c + d + 1) mod 400
                 = (100 * b + 4 * c + d + 1) mod 400).
  { replace (400 * a + 100 * b + 4 * c + d + 1)
      with ((100 * b + 4 * c + d + 1) + a * 400) by lia.
    apply Z.mod_add. lia. }
  rewrite H4, H100, H400.
  destruct (Z.eqb_spec d 3) as [->|Hd3].
  - replace ((3 + 1) mod 4) with 0 by reflexivity. cbn [Z.eqb andb].
    destruct (Z.eqb_spec c 24) as [->|Hc24].
    + replace ((4 * 24 + 3 + 1) mod 100) with 0 by reflexivity.
      cbn [Z.eqb negb orb].
      destruct (Z.eqb_spec b 3) as [->|Hb3]; [reflexivity|].
      apply Z.eqb_neq. rewrite Z.mod_small by lia. lia.
    + cbn [negb orb]. rewrite Z.mod_small by lia.
      destruct (Z.eqb_spec (4 * c + 3 + 1) 0); [lia | reflexivity].
  - rewrite Z.mod_small by lia.
    destruct (Z.eqb_spec (d + 1) 0); [lia | reflexivity].
Qed.

Lemma ord_decomp (n : Z) :
  let m := n - 1 in
  let a := m / _DI400Y in let r1 := m mod _DI400Y in
  let b := r1 / _DI100Y in let r2 := r1 mod _DI100Y in
  let c := r2 / _DI4Y in let r3 := r2 mod _DI4Y in
  let d := r3 / 365 in let r := r3 mod 365 in
  n - 1 = _DI400Y * a + _DI100Y * b + _DI4Y * c + 365 * d + r
  ∧ 0 ≤ b ≤ 4 ∧ 0 ≤ c ≤ 24 ∧ 0 ≤ d ≤ 4 ∧ 0 ≤ r < 365
  ∧ (b = 4 → c = 0 ∧ d = 0 ∧ r = 0)
  ∧ (d = 4 → r = 0 ∧ c < 24).
Proof.
  cbv zeta. unfold _DI400Y, _DI100Y, _DI4Y.
  Z.div_mod_to_equations. lia.
Qed.

(** [fromordinal] inverts [toordinal]: the date it returns is well formed and
    is the day with that ordinal. *)
Lemma fromordinal_spec (n : Z) :
  1 ≤ n → valid (fromordinal n) ∧ toordinal (fromordinal n) = n.
Proof.
  intros Hpos.
  pose proof (ord_decomp n) as H. cbv zeta in H.
  unfold fromordinal, _ord2ymd. cbv zeta.
  set (a := (n - 1) / _DI400Y) in *.
  set (r1 := (n - 1) mod _DI400Y) in *.
  set (b := r1 / _DI100Y) in *. set (r2 := r1 mod _DI100Y) in *.
  set (c := r2 / _DI4Y) in *. set (r3 := r2 mod _DI4Y) in *.
  set (d := r3 / 365) in *. set (r := r3 mod 365) in *.
  assert (Ha : 0 ≤ a) by (apply Z.div_pos; unfold _DI400Y; lia).
  clearbody a r1 b r2 c r3 d r.
  destruct H as (Hn & Hb & Hc & Hd & Hr & Hb4 & Hd4).
  unfold _DI400Y, _DI100Y, _DI4Y in Hn.
  destruct ((d =? 4) || (b =? 4)) eqn:Hend.
  - assert (Hy : ∃ b' c',
               0 ≤ b' < 4 ∧ 0 ≤ c' < 25 ∧
               (negb (c' =? 24) || (b' =? 3)) = true ∧
               a * 400 + 1 + b * 100 + c * 4 + d - 1
               = 400 * a + 100 * b' + 4 * c' + 3 + 1 ∧
               n = 146097 * a + 36524 * b' + 1461 * c' + 365 * 3 + 366).
    { destruct (Z.eqb_spec d 4) as [->|Hd'].
      - destruct (Hd4 eq_refl) as [-> Hc24].
        assert (b ≠ 4)
          by (intros ->; destruct (Hb4 eq_refl) as (_ & ? & _); lia).
        exists b, c. repeat split; lia.
      - destruct (Z.eqb_spec b 4) as [->|Hb']; [|discriminate Hend].
        destruct (Hb4 eq_refl) as (-> & -> & ->).
        exists 3, 24. repeat split; lia. }
    destruct Hy as (b' & c' & Hb' & Hc' & Hleap & Hyear & Hord).
    unfold valid, toordinal, _ymd2ord, _days_in_month, _days_before_month.
    cbn [year month day]. rewrite Hyear.
    rewrite days_before_year_decomp, is_leap_decomp by lia.
    rewrite Hleap. unfold _DI400Y, _DI100Y, _DI4Y.
    change (getitem _DAYS_BEFORE_MONTH 12) with 334.
    change (getitem _DAYS_IN_MONTH 12) with 31.
    change (12 =? 2) with false. change (2 <? 12) with true.
    change (3 =? 3) with true. cbn [andb b2z]. lia.
  - apply orb_false_iff in Hend. destruct Hend as [Hd' Hb'].
    apply Z.eqb_neq in Hd', Hb'.
    rewrite ord2ymd_month_part.
    set (leapyear := (d =? 3) && (negb (c =? 24) || (b =? 3))).
    assert (Hr' : 0 ≤ r < 365 + b2z leapyear) by (destruct leapyear; cbn; lia).
    pose proof (month_part_spec leapyear r Hr') as Hm. cbv zeta in Hm.
    destruct Hm as (Hm1 & Hm2 & Hm3).
    unfold valid, toordinal, _ymd2ord, _days_in_month, _days_before_month.
    cbn [year month day].
    replace (a * 400 + 1 + b * 100 + c * 4 + d)
      with (400 * a + 100 * b + 4 * c + d + 1) by lia.
    rewrite days_before_year_decomp, is_leap_decomp by lia.
    fold leapyear. unfold _DI400Y, _DI100Y, _DI4Y.
    repeat split; lia.
Qed.

End DatetimeFacts.

Section WindowFacts.
Import Datetime.
Local Open Scope Z_scope.

Lemma days_before_year_mono (y1 y2 : Z) :
  y1 ≤ y2 → _days_before_year y1 ≤ _days_before_year y2.
Proof.
  intros H. unfold _days_before_year. cbv zeta.
  Z.div_mod_to_equations. lia.
Qed.

Lemma month_tables (leap : bool) (m : Z) :
  1 ≤ m ≤ 12 →
  0 ≤ getitem _DAYS_BEFORE_MONTH m + b2z ((2 <? m) && leap)
  ∧ getitem _DAYS_BEFORE_MONTH m + b2z ((2 <? m) && leap)
    + (if (m =? 2) && leap then 29 else getitem _DAYS_IN_MONTH m)
    ≤ 365 + b2z leap
  ∧ getitem _DAYS_IN_MONTH m ≤ 31.
Proof.
  intros Hm.
  assert (Hcases : m = 1 ∨ m = 2 ∨ m = 3 ∨ m = 4 ∨ m = 5 ∨ m = 6 ∨ m = 7
                   ∨ m = 8 ∨ m = 9 ∨ m = 10 ∨ m = 11 ∨ m = 12) by lia.
  destruct leap;
    repeat (destruct Hcases as [->|Hcases]; [vm_compute; intuition discriminate|]);
    rewrite Hcases; vm_compute; intuition discriminate.
Qed.

Lemma days_before_year_succ (y : Z) :
  _days_before_year (y + 1) = _days_before_year y + 365 + b2z (_is_leap y).
Proof.
  unfold _days_before_year, _is_leap. cbv zeta.
  replace (y + 1 - 1) with y by lia.
  destruct (Z.eqb_spec (y mod 4) 0) as [H4|H4];
    destruct (Z.eqb_spec (y mod 100) 0) as [H100|H100];
    destruct (Z.eqb_spec (y mod 400) 0) as [H400|H400];
    cbn [negb orb andb b2z];
    revert H4 H100 H400; Z.div_mod_to_equations; lia.
Qed.

Lemma toordinal_bounds (d : date) :
  valid d →
  _days_before_year (year d) < toordinal d ≤ _days_before_year (year d + 1).
Proof.
  intros (Hy & Hm & Hd).
  rewrite days_before_year_succ.
  unfold toordinal, _ymd2ord, _days_before_month.
  unfold _days_in_month in Hd.
  pose proof (month_tables (_is_leap (year d)) (month d) Hm) as (H1 & H2 & _).
  set (before := getitem _DAYS_BEFORE_MONTH (month d) + b2z _) in *.
  set (len := if (month d =? 2) && _ then 29 else _) in *.
  lia.
Qed.

(** The year of a date is fixed by its ordinal. *)
Lemma year_of_ordinal (d : date) (lo hi : Z) :
  valid d →
  _days_before_year lo < toordinal d ≤ _days_before_year (hi + 1) →
  lo ≤ year d ≤ hi.
Proof.
  intros Hv [Hlo Hhi]. pose proof (toordinal_bounds d Hv) as [H1 H2].
  split.
  - destruct (Z_lt_le_dec (year d) lo) as [Hlt|]; [|done].
    assert (_days_before_year (year d + 1) ≤ _days_before_year lo)
      by (apply days_before_year_mono; lia).
    lia.
  - destruct (Z_lt_le_dec hi (year d)) as [Hlt|]; [|lia].
    assert (_days_before_year (hi + 1) ≤ _days_before_year (year d))
      by (apply days_before_year_mono; lia).
    lia.
Qed.

Lemma digit_value_digit (n : Z) : digit_value (digit n) = Some (n mod 10).
Proof.
  unfold digit_value, digit.
  assert (0 ≤ n mod 10 < 10) by (apply Z.mod_pos_bound; lia).
  rewrite nat_ascii_embedding by lia.
  replace ((48 <=? 48 + Z.to_nat (n mod 10))%nat
           && (48 + Z.to_nat (n mod 10) <=? 57)%nat) with true.
  - f_equal. lia.
  - symmetry. apply andb_true_iff. split; apply Nat.leb_le; lia.
Qed.

Lemma parse_strftime_dmY (d : date) :
  0 ≤ year d < 10000 → 0 ≤ month d < 100 → 0 ≤ day d < 100 →
  parse_dmY (strftime_dmY d) = Some d.
Proof.
  intros Hy Hm Hd. destruct d as [y m dd]. cbn [year month day] in *.
  unfold strftime_dmY, fmt04, fmt02. cbn [year month day].
  cbv [String.app]. unfold parse_dmY.
  rewrite !digit_value_digit. cbn [mbind option_bind].
  do 2 f_equal; Z.div_mod_to_equations; lia.
Qed.

Lemma days_before_year_1000 : _days_before_year 1000 = 364877.
Proof. reflexivity. Qed.
Lemma days_before_year_1970 : _days_before_year 1970 = 719162.
Proof. reflexivity. Qed.
Lemma days_before_year_9999 : _days_before_year 9999 = 3651694.
Proof. reflexivity. Qed.
Lemma days_before_year_10000 : _days_before_year (9999 + 1) = 3652059.
Proof. reflexivity. Qed.

(** The ordinals of the dates between 1970 and 9998. *)
Lemma toordinal_range (d : date) :
  valid d → 1970 ≤ year d ≤ 9998 → 719162 < toordinal d ≤ 3651694.
Proof.
  intros Hv Hy.
  pose proof (toordinal_bounds d Hv) as [H1 H2].
  pose proof (days_before_year_mono 1970 (year d)) as Hlo.
  pose proof (days_before_year_mono (year d + 1) 9999) as Hhi.
  rewrite days_before_year_1970 in Hlo.
  rewrite days_before_year_9999 in Hhi.
  lia.
Qed.

Lemma parse_strftime_valid (d : date) :
  valid d → year d ≤ 9999 → parse_dmY (strftime_dmY d) = Some d.
Proof.
  intros (Hy & Hm & Hd) Hyear.
  apply parse_strftime_dmY; [lia|lia|].
  unfold _days_in_month in Hd.
  pose proof (month_tables false _ Hm) as (_ & _ & H31).
  destruct (_ && _); lia.
Qed.

(** The two ends of the query window, for a clock between 1970 and 9998. *)
Lemma window_date (d : date) (k : Z) :
  valid d → 1970 ≤ year d ≤ 9998 → -7 ≤ k ≤ 1 →
  valid (add_days d k)
  ∧ toordinal (add_days d k) = toordinal d + k
  ∧ 1000 ≤ year (add_days d k) ≤ 9999
  ∧ parse_dmY (strftime_dmY (add_days d k)) = Some (add_days d k).
Proof.
  intros Hv Hy Hk.
  pose proof (toordinal_range d Hv Hy) as Hr.
  unfold add_days.
  destruct (fromordinal_spec (toordinal d + k)) as [Hv' Ho']; [lia|].
  assert (Hyear : 1000 ≤ year (fromordinal (toordinal d + k)) ≤ 9999).
  { apply year_of_ordinal; [exact Hv'|].
    rewrite Ho', days_before_year_1000, days_before_year_10000. lia. }
  split; [exact Hv'|]. split; [exact Ho'|]. split; [exact Hyear|].
  apply parse_strftime_valid; [exact Hv' | lia].
Qed.

End WindowFacts.

(** ** Data frames *)

Section PandasFacts.
Import Python Pandas.

Lemma result_bind_ok {A B} (f : A → result B) (r : result A) (b : B) :
  r ≫= f = ok b → ∃ a, r = ok a ∧ f a = ok b.
Proof. destruct r as [a|e]; [eauto | discriminate]. Qed.

Lemma getitem_ok (df : DataFrame) (c : string) (col : list value) :
  getitem df c = ok col →
  c ∈ columns df ∧ col = (λ r, cell r c) <$> rows df.
Proof.
  unfold getitem. intros H.
  destruct (filter (λ k, k = c) (columns df)) as [|k [|k' ks]] eqn:Hf;
    [discriminate| |discriminate].
  split; [|congruence].
  assert (Hk : k ∈ filter (λ k, k = c) (columns df)) by (rewrite Hf; left).
  apply list_elem_of_filter in Hk as [-> Hk]. done.
Qed.

Lemma to_datetime_value_kind parse (v t : value) :
  to_datetime_value parse v = ok t → t = NaN ∨ ∃ x, t = Timestamp x.
Proof.
  destruct v as [|n|y|s|x]; cbn; intros H; try (injection H as <-; eauto).
  apply result_bind_ok in H as (o & _ & H). injection H as <-.
  destruct o; cbn; eauto.
Qed.

Lemma to_datetime_spec parse (col ts : list value) :
  to_datetime parse col = ok ts →
  Forall2 (λ v t, to_datetime_value parse v = ok t) col ts.
Proof.
  revert ts. induction col as [|v col IH]; intros ts H; cbn in H.
  - injection H as <-. constructor.
  - apply result_bind_ok in H as (t & Ht & H).
    apply result_bind_ok in H as (ts' & Hts & H). injection H as <-.
    constructor; auto.
Qed.

Lemma value_le_total : Total value_le.
Proof. intros a b. unfold value_le. lia. Qed.

Lemma value_le_trans : Transitive value_le.
Proof. intros a b c. unfold value_le. lia. Qed.

Lemma label_le_total : Total label_le.
Proof. intros a b. apply value_le_total. Qed.

Lemma label_le_trans : Transitive label_le.
Proof. intros a b c. apply value_le_trans. Qed.

(** [sort_index] returns the same rows, in non-decreasing order of label. *)
Lemma sort_index_spec (df : DataFrame) :
  columns (sort_index df) = columns df
  ∧ rows (sort_index df) ≡ₚ rows df
  ∧ StronglySorted label_le (rows (sort_index df)).
Proof.
  split; [done|]. split.
  - apply merge_sort_Permutation.
  - apply (@StronglySorted_merge_sort _ label_le _ label_le_trans label_le_total).
Qed.

Lemma complete_both (r : row) :
  complete ["DataHora"; "Nivel"] r ↔
  isna (cell r "DataHora") = false ∧ isna (cell r "Nivel") = false.
Proof.
  unfold complete. rewrite !Forall_cons, Forall_nil. tauto.
Qed.

Lemma dropna_ok (subset : list string) (df df' : DataFrame) :
  dropna subset df = ok df' →
  Forall (λ c, c ∈ columns df) subset
  ∧ df' = Frame (columns df) (filter (complete subset) (rows df)).
Proof.
  unfold dropna. intros H.
  destruct (filter (λ c, c ∉ columns df) subset) as [|c cs] eqn:Hf;
    [|discriminate].
  injection H as <-. split; [|done].
  apply Forall_forall. intros c Hc.
  destruct (decide (c ∈ columns df)) as [|Hn]; [done|].
  assert (Hin : c ∈ filter (λ c, c ∉ columns df) subset)
    by (apply list_elem_of_filter; done).
  rewrite Hf in Hin. by apply elem_of_nil in Hin.
Qed.

Lemma dropna_total (subset : list string) (df : DataFrame) :
  Forall (λ c, c ∈ columns df) subset →
  dropna subset df = ok (Frame (columns df) (filter (complete subset) (rows df))).
Proof.
  intros H. unfold dropna.
  destruct (filter (λ c, c ∉ columns df) subset) as [|c cs] eqn:Hf; [done|].
  assert (Hin : c ∈ filter (λ c, c ∉ columns df) subset) by (rewrite Hf; left).
  apply list_elem_of_filter in Hin as [Hn Hin].
  rewrite Forall_forall in H. destruct Hn. auto.
Qed.

(** A row after [rename "Nivel" "Cota"] and [set_index "DataHora"]. *)
Lemma reindexed_row (r : row) :
  isna (cell r "Nivel") = false →
  let r' := Row (label r) (rename_cells "Nivel" "Cota" (cells r)) in
  cell r' "DataHora" = cell r "DataHora"
  ∧ cell (Row (cell r' "DataHora") (delete "DataHora" (cells r'))) "Cota"
    = cell r "Nivel"
  ∧ ∀ c, c ≠ "DataHora" → c ≠ "Nivel" → c ≠ "Cota" →
      cell (Row (cell r' "DataHora") (delete "DataHora" (cells r'))) c = cell r c.
Proof.
  unfold cell, rename_cells. cbn [cells label].
  destruct (cells r !! "Nivel") as [v|] eqn:Hv; [|discriminate].
  intros _. cbn [default].
  split; [|split].
  - by rewrite lookup_insert_ne, lookup_delete_ne.
  - by rewrite lookup_delete_ne, lookup_insert_eq.
  - intros c H1 H2 H3.
    by rewrite lookup_delete_ne, lookup_insert_ne, lookup_delete_ne.
Qed.

End PandasFacts.

(** ** The cleaning step *)

Section CleaningFacts.
Import Python Pandas Script.

Lemma converte_rows parse (c : string) (rs : list row) (ts : list value) :
  Forall2 (λ v t, to_datetime_value parse v = ok t) ((λ r, cell r c) <$> rs) ts →
  Forall2 (λ r r1, label r1 = label r
                   ∧ to_datetime_value parse (cell r c) = ok (cell r1 c)
                   ∧ ∀ c', c' ≠ c → cell r1 c' = cell r c')
          rs (zip_with (λ r v, Row (label r) (<[c := v]> (cells r))) rs ts).
Proof.
  revert ts. induction rs as [|r rs IH]; intros ts H; cbn in H.
  - inversion H; subst. constructor.
  - inversion H as [|v t col ts' Hv Hts]; subst. cbn [zip_with].
    constructor; [|by apply IH].
    unfold cell in *. cbn [label cells].
    split; [done|]. split.
    + by rewrite lookup_insert_eq.
    + intros c' Hc. by rewrite lookup_insert_ne.
Qed.

Lemma converte_DataHora_ok (w : World) (df_temp df1 : DataFrame) :
  converte_DataHora w df_temp = ok df1 →
  "DataHora" ∈ columns df_temp
  ∧ columns df1 = columns df_temp
  ∧ Forall2 (λ r r1, label r1 = label r
               ∧ to_datetime_value (to_datetime_text w) (cell r "DataHora")
                 = ok (cell r1 "DataHora")
               ∧ ∀ c, c ≠ "DataHora" → cell r1 c = cell r c)
            (rows df_temp) (rows df1).
Proof.
  unfold converte_DataHora. intros H.
  apply result_bind_ok in H as (col & Hcol & H).
  apply result_bind_ok in H as (ts & Hts & H). injection H as <-.
  apply getitem_ok in Hcol as [Hin ->].
  split; [done|]. split; [done|].
  apply converte_rows, to_datetime_spec, Hts.
Qed.

Lemma strongly_sorted_time (l : list row) :
  StronglySorted label_le l →
  Forall (λ r, ∃ t, label r = Timestamp t) l →
  StronglySorted time_le l.
Proof.
  induction 1 as [|a l Hs IH Ha]; intros Hl; [constructor|].
  apply Forall_cons in Hl as [[ta Hta] Hl].
  constructor; [by apply IH|].
  rewrite Forall_forall in Ha. rewrite Forall_forall in Hl.
  rewrite Forall_forall. intros b Hb.
  destruct (Hl b Hb) as [tb Htb]. specialize (Ha b Hb).
  exists ta, tb. split; [done|]. split; [done|].
  unfold label_le, value_le in Ha. rewrite Hta, Htb in Ha. cbn in Ha. lia.
Qed.

(** C2.  The cleaning of lines 107-114.  Once the timestamps are converted,
    the cleaned series exists whenever the table has a level column; its
    rows are exactly, as a multiset, the rows whose timestamp and level are
    both present, each indexed by its timestamp, its level now under the name
    [Cota] and its other cells unchanged; the columns hold [Cota] and neither
    [Nivel] nor [DataHora]; the rows are in non-decreasing order of timestamp;
    and no row has a missing timestamp or a missing level. *)
Theorem df_cota_spec (w : World) (df_temp df1 : DataFrame) :
  converte_DataHora w df_temp = ok df1 →
  Forall2 (λ r r1, label r1 = label r
             ∧ to_datetime_value (to_datetime_text w) (cell r "DataHora")
               = ok (cell r1 "DataHora")
             ∧ ∀ c, c ≠ "DataHora" → cell r1 c = cell r c)
          (rows df_temp) (rows df1)
  ∧ ("Nivel" ∈ columns df_temp → ∃ df, df_cota df1 = ok df)
  ∧ ∀ df, df_cota df1 = ok df →
      (∃ kept,
         kept ≡ₚ filter (λ r, isna (cell r "DataHora") = false
                              ∧ isna (cell r "Nivel") = false) (rows df1)
         ∧ Forall2 (λ r1 r, label r = cell r1 "DataHora"
                      ∧ cell r "Cota" = cell r1 "Nivel"
                      ∧ ∀ c, c ≠ "DataHora" → c ≠ "Nivel" → c ≠ "Cota" →
                          cell r c = cell r1 c)
                   kept (rows df))
      ∧ "Cota" ∈ columns df ∧ ("Nivel" ∉ columns df) ∧ ("DataHora" ∉ columns df)
      ∧ StronglySorted time_le (rows df)
      ∧ Forall (λ r, (∃ t, label r = Timestamp t)
                     ∧ isna (cell r "Cota") = false) (rows df).
Proof.
  intros Hconv.
  destruct (converte_DataHora_ok w df_temp df1 Hconv) as (Hdh & Hcols & Hrows).
  split; [exact Hrows|]. split.
  { intros Hniv. unfold df_cota.
    rewrite (dropna_total ["DataHora"; "Nivel"] df1)
      by (rewrite Hcols; repeat constructor; done).
    cbn [mbind result_bind]. unfold set_index. cbn [columns rename].
    rewrite decide_True; [eauto|].
    apply list_elem_of_fmap. exists "DataHora". split; [done|].
    by rewrite Hcols. }
  intros df Hdf. unfold df_cota in Hdf.
  apply result_bind_ok in Hdf as (d1 & Hd1 & Hdf).
  apply result_bind_ok in Hdf as (d2 & Hd2 & Hdf). injection Hdf as <-.
  apply dropna_ok in Hd1 as [Hsub ->].
  unfold set_index in Hd2. cbn [columns rows rename] in Hd2.
  destruct (decide _) as [_|]; [|discriminate]. injection Hd2 as <-.
  destruct (sort_index_spec
    (Frame (filter (λ k, k ≠ "DataHora")
                   (rename_label "Nivel" "Cota" <$> columns df1))
           ((λ r, Row (cell r "DataHora") (delete "DataHora" (cells r))) <$>
            ((λ r, Row (label r) (rename_cells "Nivel" "Cota" (cells r))) <$>
             filter (complete ["DataHora"; "Nivel"]) (rows df1)))))
    as (Hc & Hperm & Hsorted).
  cbn [columns rows] in Hc, Hperm.
  set (df := sort_index _) in *.
  rewrite <- list_fmap_compose in Hperm.
  set (g := (λ r, Row (cell r "DataHora") (delete "DataHora" (cells r)))
            ∘ (λ r, Row (label r) (rename_cells "Nivel" "Cota" (cells r)))) in *.
  apply Permutation_map_inv in Hperm as (kept & Hkept & Hperm).
  assert (Hcomplete : Forall (λ r, isna (cell r "DataHora") = false
                                   ∧ isna (cell r "Nivel") = false) kept).
  { apply Forall_forall. intros r Hr. rewrite <- Hperm in Hr.
    apply list_elem_of_filter in Hr as [Hr _]. by apply complete_both. }
  assert (Htime : Forall (λ r, cell r "DataHora" = NaN
                               ∨ ∃ x, cell r "DataHora" = Timestamp x) kept).
  { apply Forall_forall. intros r Hr. rewrite <- Hperm in Hr.
    apply list_elem_of_filter in Hr as [_ Hr].
    apply list_elem_of_lookup in Hr as [i Hi].
    destruct (Forall2_lookup_r _ _ _ _ _ Hrows Hi) as (r0 & _ & _ & Hv & _).
    by apply to_datetime_value_kind in Hv. }
  assert (Hmap : Forall2 (λ r1 r, label r = cell r1 "DataHora"
                            ∧ cell r "Cota" = cell r1 "Nivel"
                            ∧ ∀ c, c ≠ "DataHora" → c ≠ "Nivel" → c ≠ "Cota" →
                                cell r c = cell r1 c)
                         kept (rows df)).
  { rewrite Hkept. apply Forall2_fmap_r, Forall_Forall2_diag.
    eapply Forall_impl; [exact Hcomplete|]. intros r [_ Hn].
    destruct (reindexed_row r Hn) as (H1 & H2 & H3). cbv zeta in H1, H2, H3.
    unfold g, compose. cbn [label cells] in *.
    split; [exact H1|]. split; [exact H2 | exact H3]. }
  assert (Hgood : Forall (λ r, (∃ t, label r = Timestamp t)
                               ∧ isna (cell r "Cota") = false) (rows df)).
  { apply Forall_forall. intros r Hr.
    apply list_elem_of_lookup in Hr as [i Hi].
    destruct (Forall2_lookup_r _ _ _ _ _ Hmap Hi) as (r1 & Hr1 & Hl & Hcota & _).
    apply list_elem_of_lookup_2 in Hr1.
    rewrite Forall_forall in Hcomplete, Htime.
    destruct (Hcomplete r1 Hr1) as [Hd Hn]. rewrite Hl, Hcota.
    split; [|exact Hn].
    destruct (Htime r1 Hr1) as [E|[x E]]; [|eauto].
    rewrite E in Hd. discriminate. }
  split; [|split; [|split; [|split; [|split]]]].
  - exists kept. split; [|exact Hmap].
    rewrite <- Hperm.
    by rewrite (list_filter_iff (complete ["DataHora"; "Nivel"]) _ _ complete_both).
  - rewrite Hc. apply list_elem_of_filter. split; [done|].
    apply list_elem_of_fmap. exists "Nivel". split; [done|].
    rewrite Forall_cons, Forall_singleton in Hsub. tauto.
  - rewrite Hc. intros Hin. apply list_elem_of_filter in Hin as [_ Hin].
    apply list_elem_of_fmap in Hin as (c & Hren & _).
    unfold rename_label in Hren. case_decide; [discriminate|done].
  - rewrite Hc. intros Hin. by apply list_elem_of_filter in Hin as [Hne _].
  - apply strongly_sorted_time; [exact Hsorted|].
    eapply Forall_impl; [exact Hgood|]. by intros r [Ht _].
  - exact Hgood.
Qed.

End CleaningFacts.

(** ** The stages of the loop body *)

Section StageFacts.
Import Python Pandas Pyplot Script.
Variable w : World.

Lemma requests_get_content_spec (u : string) (t : Z) (s : state) :
  requests_get_content w u t s
  = (add_request (Request u t) s,
     match requests_get w (List.length (requests s)) u t with
     | ok content => Returns content
     | raise e => Raises (Exc e)
     end).
Proof. unfold requests_get_content. by destruct (requests_get w _ u t). Qed.

(** The inventory stage never raises; it sends one request and then binds
    the name, or logs why it could not. *)
Lemma consulta_inventario_spec (codigo : string) (s : state) :
  consulta_inventario w codigo s = (apos_inventario w codigo s, Returns tt).
Proof.
  unfold consulta_inventario, try_except, corpo_inventario, apos_inventario,
    nome_resolvido, tabela_xml.
  unfold mbind at 1 2 3, M_bind. rewrite requests_get_content_spec.
  destruct (requests_get w _ _ 30) as [content|e]; cbn; [|done].
  unfold lift. destruct (decode_utf8 w content) as [xml|e]; cbn; [|done].
  destruct (pd_read_xml w xml ".//Table") as [inventario|e]; cbn; [|done].
  destruct (empty inventario); cbn; [done|].
  unfold mbind, M_bind.
  destruct (getitem inventario "Nome") as [col|e]; cbn; [|done].
  destruct (iloc_first col) as [v|e]; cbn; done.
Qed.

(** The figure a statement builds is the one [figura] gives for the current
    binding of [nome]; building it changes nothing. *)
Lemma grafico_spec (cotas_ref : DataFrame) (codigo : string) (df : DataFrame)
    (s : state) :
  grafico cotas_ref codigo df s
  = (s, match figura (nome s) cotas_ref codigo df with
        | ok fig => Returns fig
        | raise e => Raises (Exc e)
        end).
Proof.
  unfold grafico, figura, lift, get_nome, mbind, M_bind, result_bind.
  destruct (getitem df "Cota") as [cota|e]; [|done].
  destruct (iloc_last cota) as [ultimo|e]; [|done].
  destruct (ultimo_indice_strftime df) as [data|e]; [|done].
  destruct (linhas_referencia cotas_ref codigo _) as [fig|e]; [|done].
  destruct (nome s) as [v|]; [|done].
  destruct (format_0f ultimo) as [txt|e]; done.
Qed.

(** The measurement stage never raises; it sends one request and ends in one
    of the four outcomes of [desfecho_dados]. *)
Lemma processa_dados_spec (cotas_ref : DataFrame) (codigo : string) (s : state) :
  processa_dados w cotas_ref codigo s
  = (apos_dados w cotas_ref codigo s, Returns tt).
Proof.
  unfold processa_dados, try_except, corpo_dados, apos_dados, desfecho_dados,
    tabela_dados, tabela_xml.
  unfold mbind at 1 2 3, M_bind. rewrite requests_get_content_spec.
  destruct (requests_get w _ _ 60) as [content|e]; cbn; [|done].
  unfold lift. destruct (decode_utf8 w content) as [xml|e]; cbn; [|done].
  destruct (pd_read_xml w xml _) as [df_temp|e]; cbn; [|done].
  destruct (empty df_temp); cbn; [done|].
  unfold mbind, M_bind.
  destruct (converte_DataHora w df_temp) as [df1|e]; cbn; [|done].
  destruct (df_cota df1) as [df|e]; cbn; [|done].
  destruct (empty df); cbn; [done|].
  rewrite grafico_spec. cbn [nome add_request].
  destruct (figura (nome s) cotas_ref codigo df) as [fig|e]; cbn; [|done].
  unfold savefig. cbn [requests add_request]. rewrite length_app. cbn [List.length].
  rewrite Nat.add_1_r.
  destruct (savefig_raises w _ _) as [e|]; done.
Qed.

(** A body that raises has logged nothing. *)
Lemma corpo_inventario_raises (codigo : string) (s s' : state) (r : raised) :
  corpo_inventario w codigo s = (s', Raises r) →
  log s' = log s ∧ ∃ e, r = Exc e.
Proof.
  unfold corpo_inventario.
  unfold mbind at 1 2 3, M_bind. rewrite requests_get_content_spec.
  destruct (requests_get w _ _ 30) as [content|e]; cbn;
    [|intros [= <- <-]; eauto].
  unfold lift. destruct (decode_utf8 w content) as [xml|e]; cbn;
    [|intros [= <- <-]; eauto].
  destruct (pd_read_xml w xml ".//Table") as [inventario|e]; cbn;
    [|intros [= <- <-]; eauto].
  destruct (empty inventario); cbn; [discriminate|].
  unfold mbind, M_bind.
  destruct (getitem inventario "Nome") as [col|e]; cbn;
    [|intros [= <- <-]; eauto].
  destruct (iloc_first col) as [v|e]; cbn; [discriminate|].
  intros [= <- <-]; eauto.
Qed.

Lemma corpo_dados_raises (cotas_ref : DataFrame) (codigo : string)
    (s s' : state) (r : raised) :
  corpo_dados w cotas_ref codigo s = (s', Raises r) →
  log s' = log s ∧ files s' = files s ∧ ∃ e, r = Exc e.
Proof.
  unfold corpo_dados.
  unfold mbind at 1 2 3, M_bind. rewrite requests_get_content_spec.
  destruct (requests_get w _ _ 60) as [content|e]; cbn;
    [|intros [= <- <-]; eauto].
  unfold lift. destruct (decode_utf8 w content) as [xml|e]; cbn;
    [|intros [= <- <-]; eauto].
  destruct (pd_read_xml w xml _) as [df_temp|e]; cbn;
    [|intros [= <- <-]; eauto].
  destruct (empty df_temp); cbn; [discriminate|].
  unfold mbind, M_bind.
  destruct (converte_DataHora w df_temp) as [df1|e]; cbn;
    [|intros [= <- <-]; eauto].
  destruct (df_cota df1) as [df|e]; cbn; [|intros [= <- <-]; eauto].
  destruct (empty df); cbn; [discriminate|].
  rewrite grafico_spec. cbn [nome add_request].
  destruct (figura (nome s) cotas_ref codigo df) as [fig|e]; cbn;
    [|intros [= <- <-]; eauto].
  unfold savefig.
  destruct (savefig_raises w _ _) as [e|]; [|discriminate].
  intros [= <- <-]; eauto.
Qed.

Lemma estacao_spec (cotas_ref : DataFrame) (codigo : string) (s : state) :
  estacao w cotas_ref codigo s = (apos_estacao w cotas_ref codigo s, Returns tt).
Proof.
  unfold estacao, mbind, M_bind.
  by rewrite consulta_inventario_spec, processa_dados_spec.
Qed.

Lemma for_each_estacao (cotas_ref : DataFrame) (lista : list string) (s : state) :
  for_each lista (estacao w cotas_ref) s
  = (apos_lista w cotas_ref lista s, Returns tt).
Proof.
  revert s. induction lista as [|codigo lista IH]; intros s; [done|].
  cbn [for_each]. unfold mbind, M_bind. rewrite estacao_spec. apply IH.
Qed.

End StageFacts.

(** ** What each stage leaves in the state *)

Section StateFacts.
Import Python Pandas Pyplot Script.
Variable w : World.

Lemma apos_inventario_fields (codigo : string) (s : state) :
  requests (apos_inventario w codigo s)
  = requests s ++ [Request (url_inventario codigo) 30]
  ∧ files (apos_inventario w codigo s) = files s
  ∧ dirs (apos_inventario w codigo s) = dirs s
  ∧ nome (apos_inventario w codigo s)
    = match nome_resolvido w (List.length (requests s)) codigo with
      | ok (Some v) => Some v
      | _ => nome s
      end
  ∧ log (apos_inventario w codigo s)
    = log s ++
      match nome_resolvido w (List.length (requests s)) codigo with
      | ok (Some v) => []
      | ok None => [LogRecord WARNING (msg_nao_encontrada codigo)]
      | raise e => [LogRecord ERROR (msg_erro_inventario codigo e)]
      end.
Proof.
  unfold apos_inventario.
  destruct (nome_resolvido w _ codigo) as [[v|]|e]; cbn;
    rewrite ?app_nil_r; done.
Qed.

Lemma apos_dados_fields (cotas_ref : DataFrame) (codigo : string) (s : state) :
  requests (apos_dados w cotas_ref codigo s)
  = requests s ++ [Request (url_dados w codigo) 60]
  ∧ nome (apos_dados w cotas_ref codigo s) = nome s
  ∧ dirs (apos_dados w cotas_ref codigo s) = dirs s
  ∧ files (apos_dados w cotas_ref codigo s)
    = match desfecho_dados w (List.length (requests s)) (nome s) cotas_ref codigo with
      | Grafico fig => <[nome_arquivo_grafico codigo := fig]> (files s)
      | _ => files s
      end
  ∧ log (apos_dados w cotas_ref codigo s)
    = log s ++
      match desfecho_dados w (List.length (requests s)) (nome s) cotas_ref codigo with
      | SemDados => [LogRecord WARNING (msg_sem_dados codigo)]
      | SemDadosValidos => [LogRecord WARNING (msg_sem_dados_validos codigo)]
      | Falha e => [LogRecord ERROR (msg_erro_critico codigo e)]
      | Grafico _ => []
      end.
Proof.
  unfold apos_dados.
  destruct (desfecho_dados w _ _ cotas_ref codigo); cbn;
    rewrite ?app_nil_r; done.
Qed.

Lemma apos_estacao_requests (cotas_ref : DataFrame) (codigo : string) (s : state) :
  requests (apos_estacao w cotas_ref codigo s)
  = requests s ++ [Request (url_inventario codigo) 30;
                   Request (url_dados w codigo) 60].
Proof.
  unfold apos_estacao.
  destruct (apos_dados_fields cotas_ref codigo (apos_inventario w codigo s))
    as (-> & _).
  destruct (apos_inventario_fields codigo s) as (-> & _).
  by rewrite <- app_assoc.
Qed.

Lemma apos_lista_requests (cotas_ref : DataFrame) (lista : list string) (s : state) :
  requests (apos_lista w cotas_ref lista s) = requests s ++ pedidos w lista.
Proof.
  revert s. induction lista as [|codigo lista IH]; intros s; cbn.
  - by rewrite app_nil_r.
  - unfold apos_lista in IH. rewrite IH, apos_estacao_requests.
    by rewrite <- app_assoc.
Qed.

Lemma apos_lista_dirs (cotas_ref : DataFrame) (lista : list string) (s : state) :
  dirs (apos_lista w cotas_ref lista s) = dirs s.
Proof.
  revert s. induction lista as [|codigo lista IH]; intros s; cbn; [done|].
  unfold apos_lista in IH. rewrite IH. unfold apos_estacao.
  destruct (apos_dados_fields cotas_ref codigo (apos_inventario w codigo s))
    as (_ & _ & -> & _).
  by destruct (apos_inventario_fields codigo s) as (_ & _ & -> & _).
Qed.

Lemma carrega_cotas_ref_spec (s : state) :
  carrega_cotas_ref w s = (apos_cotas_ref w s, Returns (cotas_ref w)).
Proof.
  unfold carrega_cotas_ref, try_except, lift, apos_cotas_ref, aviso_cotas_ref,
    cotas_ref.
  destruct (read_csv w nome_arquivo_referencia ≫= set_index "Codigo")
    as [df|e]; [done|].
  destruct (decide (exc_class e = "FileNotFoundError")); done.
Qed.

Lemma apos_cotas_ref_fields (s : state) :
  requests (apos_cotas_ref w s) = requests s
  ∧ files (apos_cotas_ref w s) = files s
  ∧ dirs (apos_cotas_ref w s) = dirs s
  ∧ nome (apos_cotas_ref w s) = nome s.
Proof. unfold apos_cotas_ref. by destruct (aviso_cotas_ref w). Qed.

(** The whole run: the two ways it ends early, and the loop otherwise. *)
Lemma main_spec (s : state) :
  main w s
  = match lista_txt w with
    | raise e =>
        if decide (exc_class e = "FileNotFoundError")
        then (add_log (LogRecord ERROR msg_lista_ausente) (apos_cotas_ref w s),
              Raises SystemExit)
        else (apos_cotas_ref w s, Raises (Exc e))
    | ok arquivo =>
        match lista_estacoes arquivo with
        | [] =>
            (add_log (LogRecord ERROR msg_lista_vazia) (apos_cotas_ref w s),
             Raises SystemExit)
        | lista =>
            match makedirs_raises w diretorio_graficos with
            | Some e => (apos_cotas_ref w s, Raises (Exc e))
            | None =>
                (apos_lista w (cotas_ref w) lista
                   (add_dir diretorio_graficos (apos_cotas_ref w s)),
                 Returns tt)
            end
        end
    end.
Proof.
  unfold main. unfold mbind at 1, M_bind. rewrite carrega_cotas_ref_spec.
  unfold mbind at 1, M_bind. unfold carrega_lista.
  unfold mbind at 1, M_bind. unfold try_except_FileNotFoundError.
  unfold mbind at 1, M_bind. unfold lift.
  destruct (lista_txt w) as [arquivo|e].
  2: { destruct (decide (exc_class e = "FileNotFoundError")); done. }
  unfold mret at 1, M_ret.
  destruct (lista_estacoes arquivo) as [|codigo lista]; [done|].
  unfold mret, M_ret. unfold mbind, M_bind, os_makedirs, makedirs.
  destruct (makedirs_raises w diretorio_graficos); [done|].
  apply for_each_estacao.
Qed.

End StateFacts.

(** ** The run loop *)

Section LoopFacts.
Import Python Pandas Pyplot Script.

Lemma pedidos_length (w : World) (lista : list string) :
  List.length (pedidos w lista) = 2 * List.length lista.
Proof.
  induction lista as [|codigo lista IH]; [done|].
  change (pedidos w (codigo :: lista))
    with (Request (url_inventario codigo) 30
          :: Request (url_dados w codigo) 60 :: pedidos w lista).
  cbn [List.length]. lia.
Qed.

(** C1.  The loop over any list of codes ends normally, and the requests
    it sends are, in this order, the inventory request (timeout 30) and the
    measurement request (timeout 60) of each code of the list, in the order
    of the list: two per code, none skipped, whatever the service answers.
    Each iteration runs its inventory stage and then its measurement stage,
    both end normally, and the state they leave is handed to the rest of the
    list.  An exception raised by the body of either [try] statement goes no
    further: the log gains exactly one ERROR record, which starts with the
    code of the station and ends with the text of the exception.  A run whose
    list file is read, yields at least one code and whose output directory
    is created therefore ends normally with the requests of every station
    sent. *)
Theorem run_loop_isolates_failures
    (w : World) (arquivo : list string)
    (dirs0 : gset string) (files0 : gmap string Figure) :
  lista_txt w = ok arquivo →
  lista_estacoes arquivo ≠ [] →
  makedirs_raises w diretorio_graficos = None →
  (∃ s', main w (inicio dirs0 files0) = (s', Returns tt)
         ∧ requests s' = pedidos w (lista_estacoes arquivo)
         ∧ List.length (requests s') = 2 * List.length (lista_estacoes arquivo))
  ∧ (∀ (cotas_ref : DataFrame) (lista : list string) (s : state),
       ∃ s', for_each lista (estacao w cotas_ref) s = (s', Returns tt)
             ∧ requests s' = requests s ++ pedidos w lista)
  ∧ ∀ (cotas_ref : DataFrame) (codigo : string) (resto : list string) (s : state),
      ∃ s1 s2,
        consulta_inventario w codigo s = (s1, Returns tt)
        ∧ processa_dados w cotas_ref codigo s1 = (s2, Returns tt)
        ∧ estacao w cotas_ref codigo s = (s2, Returns tt)
        ∧ for_each (codigo :: resto) (estacao w cotas_ref) s
          = for_each resto (estacao w cotas_ref) s2
        ∧ requests s2 = requests s ++ [Request (url_inventario codigo) 30;
                                        Request (url_dados w codigo) 60]
        ∧ (∀ s' e, corpo_inventario w codigo s = (s', Raises (Exc e)) →
             log s1 = log s ++
               [LogRecord ERROR
                  ("Estação " +:+ codigo
                   +:+ ": Erro ao consultar inventário da ANA. Detalhe: "
                   +:+ exc_str e)])
        ∧ (∀ s' e, corpo_dados w cotas_ref codigo s1 = (s', Raises (Exc e)) →
             log s2 = log s1 ++
               [LogRecord ERROR
                  ("Estação " +:+ codigo
                   +:+ ": ERRO CRÍTICO no processamento, plotagem ou consulta de dados. Detalhe: "
                   +:+ exc_str e)]
             ∧ files s2 = files s1).
Proof.
  intros Hlista Hne Hdir. split; [|split].
  - rewrite main_spec, Hlista, Hdir.
    destruct (lista_estacoes arquivo) as [|codigo lista] eqn:E; [done|].
    eexists. split; [reflexivity|].
    rewrite apos_lista_requests. cbn [requests add_dir].
    destruct (apos_cotas_ref_fields w (inicio dirs0 files0)) as (-> & _).
    cbn [requests inicio app]. split; [done|].
    apply pedidos_length.
  - intros cotas_ref lista s. eexists. split; [apply for_each_estacao|].
    apply apos_lista_requests.
  - intros cotas_ref codigo resto s.
    exists (apos_inventario w codigo s), (apos_estacao w cotas_ref codigo s).
    split; [apply consulta_inventario_spec|].
    split; [apply processa_dados_spec|].
    split; [apply estacao_spec|].
    split; [cbn [for_each]; unfold mbind, M_bind; by rewrite estacao_spec|].
    split; [apply apos_estacao_requests|].
    split.
    + intros s' e H.
      pose proof (consulta_inventario_spec w codigo s) as Hs.
      unfold consulta_inventario, try_except in Hs. rewrite H in Hs.
      apply corpo_inventario_raises in H as [Hl _].
      injection Hs as <-. cbn [log add_log]. by rewrite Hl.
    + intros s' e H.
      pose proof (processa_dados_spec w cotas_ref codigo
                    (apos_inventario w codigo s)) as Hs.
      unfold processa_dados, try_except in Hs. rewrite H in Hs.
      apply corpo_dados_raises in H as (Hl & Hf & _).
      unfold apos_estacao. injection Hs as <-.
      cbn [log files add_log]. by rewrite Hl, Hf.
Qed.


(** The outcome of line 102 is never reached: no table that [pd.read_xml]
    returns is empty. *)
Lemma tabela_xml_not_empty (w : World) (k : nat) (u : string) (t : Z)
    (xpath : string) (df : DataFrame) :
  tabela_xml w k u t xpath = ok df → empty df = false.
Proof.
  unfold tabela_xml, pd_read_xml. intros H.
  apply result_bind_ok in H as (content & _ & H).
  apply result_bind_ok in H as (xml & _ & H).
  apply result_bind_ok in H as (df0 & _ & H).
  destruct (empty df0) eqn:E; [discriminate|]. by injection H as <-.
Qed.

(** C3.  The WARNING of line 103 is never logged: a measurement answer in
    which the xpath selects no row makes [pd.read_xml] raise [ValueError], so
    the station gets the ERROR of line 169 instead of a warning; no chart is
    written and the loop goes on.  The second empty-result test works: a
    table left without rows by the cleaning gets the WARNING of line 117 as
    the last record of the iteration, and no chart.  In the sample run, the
    station whose answer has no row ends with one ERROR record and the
    station whose readings are all incomplete with one WARNING record. *)
Theorem zero_rows_is_an_error :
  (∀ (w : World) (k : nat) (n : option value) (cotas_ref : DataFrame)
     (codigo : string),
     desfecho_dados w k n cotas_ref codigo ≠ SemDados)
  ∧ (∀ (w : World) (cotas_ref : DataFrame) (codigo : string) (s : state)
       (content xml : string) (df : DataFrame),
       requests_get w (S (List.length (requests s))) (url_dados w codigo) 60
       = ok content →
       decode_utf8 w content = ok xml →
       read_xml w xml ".//DadosHidrometereologicos" = ok df →
       rows df = [] →
       let s' := (estacao w cotas_ref codigo s).1 in
       files s' = files s
       ∧ ∃ e, exc_class e = "ValueError"
              ∧ last (log s')
                = Some (LogRecord ERROR
                    ("Estação " +:+ codigo
                     +:+ ": ERRO CRÍTICO no processamento, plotagem ou consulta de dados. Detalhe: "
                     +:+ exc_str e)))
  ∧ (∀ (w : World) (cotas_ref : DataFrame) (codigo : string) (s : state)
       (df_cota_temp df1 df : DataFrame),
       tabela_dados w (S (List.length (requests s))) codigo = ok df_cota_temp →
       converte_DataHora w df_cota_temp = ok df1 →
       df_cota df1 = ok df →
       empty df = true →
       let s' := (estacao w cotas_ref codigo s).1 in
       files s' = files s
       ∧ last (log s')
         = Some (LogRecord WARNING
             ("Estação " +:+ codigo
              +:+ ": Nenhum dado válido de cota encontrado após limpeza.")))
  ∧ (let w := Exemplos.mundo_sem_dados in
     let s1 := (estacao w (cotas_ref w) "12345678" Exemplos.disco_vazio).1 in
     let s2 := (estacao w (cotas_ref w) "60474000" s1).1 in
     read_xml w "vazio" ".//DadosHidrometereologicos" = ok empty_frame
     ∧ levelname <$> log s1 = [ERROR]
     ∧ levelname <$> log s2 = [ERROR; WARNING]
     ∧ files s2 = ∅).
Proof.
  split; [|split; [|split]].
  - intros w k n cotas_ref codigo. unfold desfecho_dados.
    destruct (tabela_dados w k codigo) as [df|e] eqn:Htab; [|done].
    rewrite (tabela_xml_not_empty w k _ _ _ df Htab).
    destruct (converte_DataHora w df ≫= df_cota) as [df'|]; [|done].
    destruct (empty df'); [done|].
    destruct (figura n cotas_ref codigo df'); [|done].
    by destruct (savefig_raises w (S k) _).
  - intros w cotas_ref codigo s content xml df Hget Hdec Hxml Hrows. cbv zeta.
    rewrite estacao_spec. cbn [fst].
    destruct (apos_dados_fields w cotas_ref codigo (apos_inventario w codigo s))
      as (_ & _ & _ & Hfiles & Hlog).
    assert (Hlen : List.length (requests (apos_inventario w codigo s))
                   = S (List.length (requests s))).
    { destruct (apos_inventario_fields w codigo s) as (-> & _).
      rewrite length_app. cbn. lia. }
    rewrite Hlen in Hfiles, Hlog.
    assert (Hd : ∃ e, exc_class e = "ValueError"
                      ∧ desfecho_dados w (S (List.length (requests s)))
                          (nome (apos_inventario w codigo s)) cotas_ref codigo
                        = Falha e).
    { eexists. split; [|unfold desfecho_dados, tabela_dados, tabela_xml, pd_read_xml;
        rewrite Hget; cbn [mbind result_bind]; rewrite Hdec;
        cbn [mbind result_bind]; rewrite Hxml; cbn [mbind result_bind];
        unfold empty; rewrite Hrows; destruct (columns df); reflexivity].
      reflexivity. }
    destruct Hd as (e & He & Hd). rewrite Hd in Hfiles, Hlog.
    unfold apos_estacao. split.
    + rewrite Hfiles. by destruct (apos_inventario_fields w codigo s) as (_ & -> & _).
    + exists e. split; [done|]. rewrite Hlog. by rewrite last_snoc.
  - intros w cotas_ref codigo s df_cota_temp df1 df Htab Hconv Hdf Hemp. cbv zeta.
    rewrite estacao_spec. cbn [fst].
    destruct (apos_dados_fields w cotas_ref codigo (apos_inventario w codigo s))
      as (_ & _ & _ & Hfiles & Hlog).
    assert (Hlen : List.length (requests (apos_inventario w codigo s))
                   = S (List.length (requests s))).
    { destruct (apos_inventario_fields w codigo s) as (-> & _).
      rewrite length_app. cbn. lia. }
    rewrite Hlen in Hfiles, Hlog.
    assert (Hd : desfecho_dados w (S (List.length (requests s)))
                   (nome (apos_inventario w codigo s)) cotas_ref codigo
                 = SemDadosValidos).
    { unfold desfecho_dados. rewrite Htab.
      rewrite (tabela_xml_not_empty w _ _ _ _ df_cota_temp Htab), Hconv.
      cbn [mbind result_bind]. by rewrite Hdf, Hemp. }
    rewrite Hd in Hfiles, Hlog. unfold apos_estacao. split.
    + rewrite Hfiles. by destruct (apos_inventario_fields w codigo s) as (_ & -> & _).
    + rewrite Hlog. by rewrite last_snoc.
  - vm_compute. done.
Qed.

End LoopFacts.

(** ** The chart *)

Section ChartFacts.
Import Python Pandas Pyplot Script.

Lemma desfecho_grafico (w : World) (k : nat) (n : option value)
    (cotas_ref : DataFrame) (codigo : string) (fig : Figure) :
  desfecho_dados w k n cotas_ref codigo = Grafico fig →
  ∃ df, figura n cotas_ref codigo df = ok fig.
Proof.
  unfold desfecho_dados. intros H.
  destruct (tabela_dados w k codigo) as [df_temp|]; [|discriminate].
  destruct (empty df_temp); [discriminate|].
  destruct (converte_DataHora w df_temp ≫= df_cota) as [df|]; [|discriminate].
  destruct (empty df); [discriminate|].
  destruct (figura n cotas_ref codigo df) as [fig'|] eqn:Hfig; [|discriminate].
  destruct (savefig_raises w (S k) _); [discriminate|].
  injection H as <-. eauto.
Qed.

Lemma figura_ok (n : option value) (cotas_ref : DataFrame) (codigo : string)
    (df : DataFrame) (fig : Figure) :
  figura n cotas_ref codigo df = ok fig →
  ∃ cota fig1 v,
    linhas_referencia cotas_ref codigo
      (plot (index df) cota "blue" "-" "Nível do rio" subplots) = ok fig1
    ∧ n = Some v
    ∧ artists fig = artists fig1
    ∧ legend fig = legend fig1
    ∧ title fig = "Estação " +:+ codigo +:+ ": " +:+ py_str v
                  +:+ " - Cotas dos últimos 7 dias".
Proof.
  unfold figura. intros H.
  apply result_bind_ok in H as (cota & _ & H).
  apply result_bind_ok in H as (ultimo & _ & H).
  apply result_bind_ok in H as (data & _ & H).
  apply result_bind_ok in H as (fig1 & Hfig1 & H).
  apply result_bind_ok in H as (v & Hv & H).
  apply result_bind_ok in H as (txt & _ & H). injection H as <-.
  exists cota, fig1, v. split; [done|].
  destruct n as [v'|]; [|discriminate]. injection Hv as ->. done.
Qed.

Lemma linhas_referencia_ok (cotas_ref : DataFrame) (codigo : string)
    (fig0 fig1 : Figure) :
  linhas_referencia cotas_ref codigo fig0 = ok fig1 →
  if in_index (Str codigo) cotas_ref
  then ∃ r, filter (λ r, label r = Str codigo) (rows cotas_ref) = [r]
            ∧ artists fig1
              = artists fig0 ++
                [HLine (row_value cotas_ref r "Alerta") "orange" "--"
                       ("Alerta (" +:+ py_str (row_value cotas_ref r "Alerta")
                        +:+ " cm)");
                 HLine (row_value cotas_ref r "Inundacao") "red" "--"
                       ("Inundação (" +:+ py_str (row_value cotas_ref r "Inundacao")
                        +:+ " cm)")]
            ∧ legend fig1 = true
  else fig1 = fig0.
Proof.
  unfold linhas_referencia. destruct (in_index (Str codigo) cotas_ref).
  - intros H.
    apply result_bind_ok in H as (sel & Hsel & H).
    apply result_bind_ok in H as (alerta & Ha & H).
    apply result_bind_ok in H as (inundacao & Hi & H).
    apply result_bind_ok in H as (f1 & Hf1 & H).
    apply result_bind_ok in H as (f2 & Hf2 & H). injection H as <-.
    unfold selection_getitem in Ha, Hi.
    destruct (decide ("Alerta" ∈ columns cotas_ref)); [|discriminate].
    destruct (decide ("Inundacao" ∈ columns cotas_ref)); [|discriminate].
    unfold loc in Hsel.
    destruct (filter (λ r, label r = Str codigo) (rows cotas_ref))
      as [|r [|r' rs]] eqn:Hf; [discriminate| |].
    + injection Hsel as <-. injection Ha as <-. injection Hi as <-.
      cbn [axhline mbind result_bind] in Hf1. injection Hf1 as <-.
      cbn [axhline mbind result_bind] in Hf2. injection Hf2 as <-.
      exists r. cbn [artists legend set_legend add_artist selected_str].
      split; [done|]. split; [|done]. by rewrite <- app_assoc.
    + injection Hsel as <-. injection Ha as <-. discriminate Hf1.
  - by intros [= <-].
Qed.

(** A cast changes how a number is held, never the number. *)
Lemma astype_cases (d : dtype) (v : value) :
  astype d v = v ∨ ∃ x, v = Num x ∧ astype d v = Float x.
Proof. destruct d, v; cbn; eauto. Qed.

Lemma row_value_cases (df : DataFrame) (r : row) (c : string) :
  row_value df r c = cell r c
  ∨ ∃ x, cell r c = Num x ∧ row_value df r c = Float x.
Proof.
  unfold row_value.
  destruct (astype_cases (column_dtype df c) (cell r c)) as [->|(x & Hx & ->)].
  - apply astype_cases.
  - right. exists x. split; [done|]. by destruct (row_dtype df).
Qed.

(** In a table of integers nothing is cast. *)
Lemma row_value_int (df : DataFrame) (r : row) (c : string) :
  (∀ r' c', r' ∈ rows df → c' ∈ columns df → is_int (cell r' c') = true) →
  c ∈ columns df →
  row_value df r c = cell r c.
Proof.
  intros Hint Hc.
  assert (Hcol : ∀ c', c' ∈ columns df → column_dtype df c' = int64).
  { intros c' Hc'. unfold column_dtype.
    assert (H : forallb is_int ((λ r, cell r c') <$> rows df) = true).
    { apply forallb_forall. intros v Hv. apply list_elem_of_In in Hv.
      apply list_elem_of_fmap in Hv as (r' & -> & Hr'). by apply Hint. }
    by rewrite H. }
  assert (Hrow : row_dtype df = int64).
  { unfold row_dtype.
    assert (H : forallb (λ d, bool_decide (d = int64))
                  (column_dtype df <$> columns df) = true).
    { apply forallb_forall. intros d Hd. apply list_elem_of_In in Hd.
      apply list_elem_of_fmap in Hd as (c' & -> & Hc').
      apply bool_decide_eq_true. by apply Hcol. }
    by rewrite H. }
  unfold row_value. rewrite Hrow, (Hcol c Hc). done.
Qed.

(** C6.  Every figure that lines 122-159 build, which is the figure line
    165 saves, has the plotted series as its first line.  When the station
    code is a label of the reference table, that label selects one row and
    the chart has, after the series, exactly two horizontal lines, at the
    alert level and at the flood level of that row, each labelled with the
    text of its value, and a legend.  The value is the number in the table:
    the row that [loc] returns holds it as the table does, or as a float when
    the table holds it as an integer, so that its text is the digits of the
    number, followed by [.0] for a float; in a table of integers only, it is
    the integer.  When the code is not in the table, the chart has the series
    only: no horizontal line and no legend.  So the horizontal lines are
    there if and only if the code is in the table. *)
Theorem reference_lines_iff_in_table
    (cotas_ref : DataFrame) (codigo : string) (df : DataFrame)
    (s s' : state) (fig : Figure) :
  grafico cotas_ref codigo df s = (s', Returns fig) →
  (hlines fig ≠ [] ↔ Str codigo ∈ index cotas_ref)
  ∧ ∃ x y,
      if in_index (Str codigo) cotas_ref
      then ∃ r alerta inundacao,
             filter (λ r, label r = Str codigo) (rows cotas_ref) = [r]
             ∧ artists fig
               = [Line2D x y "blue" "-" "Nível do rio";
                  HLine alerta "orange" "--"
                        ("Alerta (" +:+ py_str alerta +:+ " cm)");
                  HLine inundacao "red" "--"
                        ("Inundação (" +:+ py_str inundacao +:+ " cm)")]
             ∧ hlines fig
               = [HLine alerta "orange" "--"
                        ("Alerta (" +:+ py_str alerta +:+ " cm)");
                  HLine inundacao "red" "--"
                        ("Inundação (" +:+ py_str inundacao +:+ " cm)")]
             ∧ legend fig = true
             ∧ (alerta = cell r "Alerta"
                ∨ ∃ n, cell r "Alerta" = Num n ∧ alerta = Float n)
             ∧ (inundacao = cell r "Inundacao"
                ∨ ∃ n, cell r "Inundacao" = Num n ∧ inundacao = Float n)
             ∧ (∀ n, cell r "Alerta" = Num n ∨ cell r "Alerta" = Float n →
                  py_str alerta = pretty n ∨ py_str alerta = pretty n +:+ ".0")
             ∧ (∀ n, cell r "Inundacao" = Num n ∨ cell r "Inundacao" = Float n →
                  py_str inundacao = pretty n
                  ∨ py_str inundacao = pretty n +:+ ".0")
             ∧ ((∀ r' c', r' ∈ rows cotas_ref → c' ∈ columns cotas_ref →
                   is_int (cell r' c') = true) →
                alerta = cell r "Alerta" ∧ inundacao = cell r "Inundacao")
      else artists fig = [Line2D x y "blue" "-" "Nível do rio"]
           ∧ hlines fig = [] ∧ legend fig = false.
Proof.
  rewrite grafico_spec. intros H.
  destruct (figura (nome s) cotas_ref codigo df) as [fig'|] eqn:Hfig;
    [|discriminate].
  injection H as _ <-.
  apply figura_ok in Hfig as (cota & fig1 & v & Hl & _ & Ha & Hleg & _).
  pose proof Hl as Hl0.
  apply linhas_referencia_ok in Hl.
  unfold in_index in *. unfold hlines. rewrite Ha, Hleg.
  destruct (bool_decide (Str codigo ∈ index cotas_ref)) eqn:Hin.
  - apply bool_decide_eq_true in Hin.
    destruct Hl as (r & Hr & -> & ->). split.
    + split; [done|]. intros _. discriminate.
    + exists (index df), cota, r,
        (row_value cotas_ref r "Alerta"), (row_value cotas_ref r "Inundacao").
      assert (Hcols : "Alerta" ∈ columns cotas_ref
                      ∧ "Inundacao" ∈ columns cotas_ref).
      { unfold linhas_referencia, in_index in Hl0.
        rewrite (bool_decide_eq_true_2 _ Hin) in Hl0.
        apply result_bind_ok in Hl0 as (sel & _ & Hl0).
        apply result_bind_ok in Hl0 as (a & Ha' & Hl0).
        apply result_bind_ok in Hl0 as (i & Hi' & _).
        unfold selection_getitem in Ha', Hi'.
        destruct (decide ("Alerta" ∈ columns cotas_ref)); [|discriminate].
        by destruct (decide ("Inundacao" ∈ columns cotas_ref)). }
      assert (Htxt : ∀ c n, cell r c = Num n ∨ cell r c = Float n →
                py_str (row_value cotas_ref r c) = pretty n
                ∨ py_str (row_value cotas_ref r c) = pretty n +:+ ".0").
      { intros c n Hc.
        destruct (row_value_cases cotas_ref r c) as [->|(m & Hm & ->)].
        - destruct Hc as [-> | ->]; [by left | by right].
        - right. destruct Hc as [Hc|Hc]; rewrite Hc in Hm;
            [by injection Hm as -> | discriminate]. }
      split; [done|]. split; [done|]. split; [done|]. split; [done|].
      split; [apply row_value_cases|]. split; [apply row_value_cases|].
      split; [apply Htxt|]. split; [apply Htxt|].
      intros Hint. destruct Hcols. split; by apply row_value_int.
  - apply bool_decide_eq_false in Hin. subst fig1. split.
    + split; [intros Hh; by destruct Hh | done].
    + exists (index df), cota. done.
Qed.

(** The figure a measurement stage saves is one that [grafico] built. *)
Lemma desfecho_grafico_built (w : World) (k : nat) (n : option value)
    (cotas_ref : DataFrame) (codigo : string) (fig : Figure) (s : state) :
  nome s = n →
  desfecho_dados w k n cotas_ref codigo = Grafico fig →
  ∃ df, grafico cotas_ref codigo df s = (s, Returns fig).
Proof.
  intros Hn H. apply desfecho_grafico in H as [df H].
  exists df. by rewrite grafico_spec, Hn, H.
Qed.

End ChartFacts.

(** ** The output file *)

Section OutputFacts.
Import Python Pandas Pyplot Script.

Lemma startswith_contains (c : ascii) (s : string) :
  contains_char c s = false → startswith s (String c EmptyString) = false.
Proof.
  destruct s as [|a s]; [done|]. cbn. rewrite (Ascii.eqb_sym c a).
  by destruct (Ascii.eqb a c).
Qed.

Lemma nome_arquivo_grafico_plain (codigo : string) :
  contains_char "/" codigo = false →
  nome_arquivo_grafico codigo = "Graficos_Saida/" +:+ codigo +:+ ".png".
Proof.
  intros H. unfold nome_arquivo_grafico, os_path_join.
  assert (Hs : startswith (codigo +:+ ".png") "/" = false).
  { destruct codigo as [|a codigo]; [done|].
    rewrite startswith_app_char by done. by apply startswith_contains. }
  rewrite Hs. reflexivity.
Qed.

Lemma makedirs_idempotent (d : string) (s : state) :
  (makedirs d (makedirs d s).1).1 = (makedirs d s).1.
Proof.
  unfold makedirs, add_dir. cbn. f_equal.
  apply set_eq. intros x. rewrite !elem_of_union. tauto.
Qed.


End OutputFacts.

(** ** The query window *)

Section QueryFacts.
Import Python Datetime Pandas Pyplot Script.


End QueryFacts.

(** ** The variable [nome] *)

Section NomeFacts.
Import Python Pandas Pyplot Script.
Variable w : World.
Variable cotas_ref : DataFrame.

Lemma apos_estacao_nome (codigo : string) (s : state) :
  nome (apos_estacao w cotas_ref codigo s)
  = match nome_resolvido w (List.length (requests s)) codigo with
    | ok (Some v) => Some v
    | _ => nome s
    end.
Proof.
  unfold apos_estacao.
  destruct (apos_dados_fields w cotas_ref codigo (apos_inventario w codigo s))
    as (_ & -> & _).
  by destruct (apos_inventario_fields w codigo s) as (_ & _ & _ & -> & _).
Qed.

Lemma apos_lista_snoc (antes : list string) (codigo : string) (s : state) :
  apos_lista w cotas_ref (antes ++ [codigo]) s
  = apos_estacao w cotas_ref codigo (apos_lista w cotas_ref antes s).
Proof. unfold apos_lista. by rewrite foldl_app. Qed.

Lemma apos_lista_length (antes : list string) (s : state) :
  List.length (requests (apos_lista w cotas_ref antes s))
  = List.length (requests s) + 2 * List.length antes.
Proof. by rewrite apos_lista_requests, length_app, pedidos_length. Qed.

(** After the loop has run over [antes], [nome] holds what the most recent
    successful lookup resolved, or what it held before when none succeeded. *)
Lemma nome_apos_lista (antes : list string) (s0 : state) :
  (nome (apos_lista w cotas_ref antes s0) = nome s0
   ∧ ∀ j c v, antes !! j = Some c →
       nome_resolvido w (List.length (requests s0) + 2 * j) c ≠ ok (Some v))
  ∨ ∃ j c v,
      antes !! j = Some c
      ∧ nome_resolvido w (List.length (requests s0) + 2 * j) c = ok (Some v)
      ∧ nome (apos_lista w cotas_ref antes s0) = Some v
      ∧ ∀ j' c' v', j < j' → antes !! j' = Some c' →
          nome_resolvido w (List.length (requests s0) + 2 * j') c' ≠ ok (Some v').
Proof.
  induction antes as [|codigo antes IH] using rev_ind.
  - left. split; [done|]. intros j c v H. by rewrite lookup_nil in H.
  - rewrite apos_lista_snoc, apos_estacao_nome, apos_lista_length.
    destruct (nome_resolvido w (List.length (requests s0) + 2 * List.length antes)
                codigo) as [[v|]|e] eqn:Hres.
    + right. exists (List.length antes), codigo, v.
      split; [by rewrite list_lookup_middle|]. split; [done|]. split; [done|].
      intros j' c' v' Hlt Hl. apply lookup_lt_Some in Hl.
      rewrite length_app in Hl. cbn in Hl. lia.
    + destruct IH as [[Hn Hall]|(j & c & v & Hj & Hr & Hn & Hlater)].
      * left. split; [done|]. intros j c v Hl.
        apply lookup_snoc_Some in Hl as [[_ Hl]|[-> <-]]; [eauto|].
        by rewrite Hres.
      * right. exists j, c, v. split; [by apply lookup_app_l_Some|].
        split; [done|]. split; [done|]. intros j' c' v' Hlt Hl.
        apply lookup_snoc_Some in Hl as [[_ Hl]|[-> <-]]; [eauto|].
        by rewrite Hres.
    + destruct IH as [[Hn Hall]|(j & c & v & Hj & Hr & Hn & Hlater)].
      * left. split; [done|]. intros j c v Hl.
        apply lookup_snoc_Some in Hl as [[_ Hl]|[-> <-]]; [eauto|].
        by rewrite Hres.
      * right. exists j, c, v. split; [by apply lookup_app_l_Some|].
        split; [done|]. split; [done|]. intros j' c' v' Hlt Hl.
        apply lookup_snoc_Some in Hl as [[_ Hl]|[-> <-]]; [eauto|].
        by rewrite Hres.
Qed.

Lemma figura_sem_nome (v0 : value) (codigo : string) (df : DataFrame) (fig : Figure) :
  figura (Some v0) cotas_ref codigo df = ok fig →
  figura None cotas_ref codigo df = raise (NameError "nome").
Proof.
  unfold figura, mbind, result_bind.
  destruct (getitem df "Cota") as [cota|]; [|discriminate].
  destruct (iloc_last cota) as [ultimo|]; [|discriminate].
  destruct (ultimo_indice_strftime df) as [data|]; [|discriminate].
  destruct (linhas_referencia cotas_ref codigo _) as [fig1|]; [|discriminate].
  done.
Qed.

Lemma desfecho_sem_nome (k : nat) (v0 : value) (codigo : string) (fig : Figure) :
  desfecho_dados w k (Some v0) cotas_ref codigo = Grafico fig →
  desfecho_dados w k None cotas_ref codigo = Falha (NameError "nome").
Proof.
  unfold desfecho_dados. intros H.
  destruct (tabela_dados w k codigo) as [df_temp|]; [|discriminate].
  destruct (empty df_temp); [discriminate|].
  destruct (converte_DataHora w df_temp ≫= df_cota) as [df|]; [|discriminate].
  destruct (empty df); [discriminate|].
  destruct (figura (Some v0) cotas_ref codigo df) as [fig'|] eqn:Hfig;
    [|discriminate].
  by rewrite (figura_sem_nome v0 codigo df fig' Hfig).
Qed.

Lemma desfecho_sem_nome_nunca_grafico (k : nat) (codigo : string) (fig : Figure) :
  desfecho_dados w k None cotas_ref codigo ≠ Grafico fig.
Proof.
  intros H. apply desfecho_grafico in H as [df H].
  apply figura_ok in H as (_ & _ & v & _ & Hn & _). discriminate.
Qed.

End NomeFacts.

Section StaleNameFacts.
Import Python Pandas Pyplot Script.

(** C5.  [nome] is bound by an iteration only when its inventory lookup
    succeeds with at least one row, and otherwise keeps what it held.  So at
    a station whose lookup fails or finds no row, after the loop has run over
    the earlier stations [antes] of a run that started with [nome] unbound:
    if no earlier lookup succeeded, [nome] is still unbound, nothing is
    written to disk for this station, and whenever the station would have
    been drawn with a bound name the measurement stage ends normally with
    the ERROR record of [NameError: name 'nome' is not defined]; otherwise
    [nome] holds the name resolved by the most recent earlier station whose
    lookup succeeded, and any chart saved for this station carries that name
    in its title. *)
Theorem stale_station_name
    (w : World) (cotas_ref : DataFrame) (antes : list string) (codigo : string)
    (s0 : state) :
  nome s0 = None →
  let s := (for_each antes (estacao w cotas_ref) s0).1 in
  (∀ v, nome_resolvido w (List.length (requests s)) codigo ≠ ok (Some v)) →
  let s1 := (consulta_inventario w codigo s).1 in
  let s2 := (processa_dados w cotas_ref codigo s1).1 in
  (∀ c s', nome (estacao w cotas_ref c s').1
           = match nome_resolvido w (List.length (requests s')) c with
             | ok (Some v) => Some v
             | _ => nome s'
             end)
  ∧ nome s1 = nome s
  ∧ match nome s with
    | None =>
        (∀ j c v, antes !! j = Some c →
           nome_resolvido w (List.length (requests s0) + 2 * j) c ≠ ok (Some v))
        ∧ files s2 = files s
        ∧ ∀ v0 fig,
            desfecho_dados w (List.length (requests s1)) (Some v0) cotas_ref codigo
            = Grafico fig →
            processa_dados w cotas_ref codigo s1
            = (add_log (LogRecord ERROR
                  ("Estação " +:+ codigo
                   +:+ ": ERRO CRÍTICO no processamento, plotagem ou consulta de dados. Detalhe: "
                   +:+ "name 'nome' is not defined"))
                 (add_request (Request (url_dados w codigo) 60) s1),
               Returns tt)
    | Some v =>
        (∃ j c, antes !! j = Some c
           ∧ nome_resolvido w (List.length (requests s0) + 2 * j) c = ok (Some v)
           ∧ ∀ j' c' v', j < j' → antes !! j' = Some c' →
               nome_resolvido w (List.length (requests s0) + 2 * j') c'
               ≠ ok (Some v'))
        ∧ ∀ fig,
            desfecho_dados w (List.length (requests s1)) (nome s1) cotas_ref codigo
            = Grafico fig →
            files s2 !! nome_arquivo_grafico codigo = Some fig
            ∧ title fig = "Estação " +:+ codigo +:+ ": " +:+ py_str v
                          +:+ " - Cotas dos últimos 7 dias"
    end.
Proof.
  intros Hs0 s Hfalha s1 s2.
  assert (Es : s = apos_lista w cotas_ref antes s0)
    by (unfold s; by rewrite for_each_estacao).
  assert (Es1 : s1 = apos_inventario w codigo s)
    by (unfold s1; by rewrite consulta_inventario_spec).
  assert (Es2 : s2 = apos_dados w cotas_ref codigo s1)
    by (unfold s2; by rewrite processa_dados_spec).
  clearbody s s1 s2.
  assert (Hn1 : nome s1 = nome s).
  { rewrite Es1.
    destruct (apos_inventario_fields w codigo s) as (_ & _ & _ & -> & _).
    destruct (nome_resolvido w _ codigo) as [[v|]|e] eqn:Hres; [|done|done].
    by destruct (Hfalha v). }
  assert (Hf1 : files s1 = files s).
  { rewrite Es1. by destruct (apos_inventario_fields w codigo s) as (_ & -> & _). }
  split; [|split; [exact Hn1|]].
  { intros c s'. rewrite estacao_spec. apply apos_estacao_nome. }
  destruct (apos_dados_fields w cotas_ref codigo s1) as (_ & _ & _ & Hfiles & _).
  rewrite <- Es2 in Hfiles.
  destruct (nome_apos_lista w cotas_ref antes s0)
    as [[Hn Hall]|(j & c & v & Hj & Hr & Hn & Hlater)]; rewrite <- Es in Hn.
  - rewrite Hn, Hs0. rewrite Hn, Hs0 in Hn1. split; [exact Hall|]. split.
    + rewrite Hfiles, Hn1, Hf1.
      destruct (desfecho_dados w _ None cotas_ref codigo) eqn:Hd; try done.
      by apply desfecho_sem_nome_nunca_grafico in Hd.
    + intros v0 fig Hd. rewrite processa_dados_spec. f_equal.
      unfold apos_dados. rewrite Hn1.
      by rewrite (desfecho_sem_nome w cotas_ref _ v0 codigo fig Hd).
  - rewrite Hn. split; [eauto|]. intros fig Hd.
    rewrite Hfiles, Hd. split; [apply lookup_insert_eq|].
    apply desfecho_grafico in Hd as [df Hd].
    apply figura_ok in Hd as (_ & _ & v' & _ & Hv' & _ & _ & ->).
    rewrite Hn1, Hn in Hv'. by injection Hv' as ->.
Qed.

(** C4.  The script on two runs in which an inventory lookup times out.
    When it is the lookup of the only station, the measurement stage is
    reached, the series is fetched and cleaned, and the chart is then lost
    to [NameError]: two ERROR records, no file.  When it is the lookup of
    the second station, the chart of that station is saved under the name
    of the first one. *)
Theorem inventory_failure_runs :
  (let fim := main Exemplos.mundo_sem_nome Exemplos.disco_vazio in
   fim.2 = Returns tt
   ∧ requests fim.1 = pedidos Exemplos.mundo_sem_nome ["60474000"]
   ∧ log fim.1
     = [LogRecord ERROR
          ("Estação 60474000: Erro ao consultar inventário da ANA. Detalhe: "
           +:+ exc_str Exemplos.Timeout);
        LogRecord ERROR
          "Estação 60474000: ERRO CRÍTICO no processamento, plotagem ou consulta de dados. Detalhe: name 'nome' is not defined"]
   ∧ files fim.1 !! "Graficos_Saida/60474000.png" = None)
  ∧ (let fim := main Exemplos.mundo_nome_anterior Exemplos.disco_vazio in
     fim.2 = Returns tt
     ∧ title <$> (files fim.1 !! "Graficos_Saida/12345678.png")
       = Some "Estação 12345678: RIO DOCE - Cotas dos últimos 7 dias"
     ∧ title <$> (files fim.1 !! "Graficos_Saida/60474000.png")
       = Some "Estação 60474000: RIO DOCE - Cotas dos últimos 7 dias").
Proof. vm_compute. repeat split; reflexivity. Qed.

End StaleNameFacts.

(** ** The theorems on the sample runs *)

Section Witnesses.
Import Python Datetime Pandas Pyplot Script Texto Exemplos MaisExemplos.

(** The cleaning of the sample table keeps its two complete readings. *)
Lemma df_cota_spec_witness :
  converte_DataHora mundo_normal tabela = ok tabela_convertida
  ∧ ∃ df, df_cota tabela_convertida = ok df
          ∧ StronglySorted time_le (rows df)
          ∧ Forall (λ r, (∃ t, label r = Timestamp t)
                         ∧ isna (cell r "Cota") = false) (rows df).
Proof.
  assert (H : converte_DataHora mundo_normal tabela = ok tabela_convertida)
    by (vm_compute; reflexivity).
  split; [exact H|].
  destruct (df_cota_spec mundo_normal tabela tabela_convertida H)
    as (_ & Htotal & Hspec).
  destruct Htotal as [df Hdf]; [by repeat constructor|].
  exists df. split; [exact Hdf|].
  destruct (Hspec df Hdf) as (_ & _ & _ & _ & Hsorted & Hgood).
  split; [exact Hsorted | exact Hgood].
Defined.

(** The run whose only station meets a timeout at the inventory and then an
    unbound name at the chart sends both requests, ends normally and leaves
    the two ERROR records of that station in the log. *)
Lemma run_loop_isolates_failures_witness :
  lista_txt mundo_sem_nome = ok ["60474000"]
  ∧ lista_estacoes ["60474000"] ≠ []
  ∧ makedirs_raises mundo_sem_nome diretorio_graficos = None
  ∧ (∃ s', main mundo_sem_nome disco_vazio = (s', Returns tt)
           ∧ requests s' = pedidos mundo_sem_nome ["60474000"])
  ∧ ∃ s1 s2,
      consulta_inventario mundo_sem_nome "60474000" disco_vazio = (s1, Returns tt)
      ∧ processa_dados mundo_sem_nome (cotas_ref mundo_sem_nome) "60474000" s1
        = (s2, Returns tt)
      ∧ log s1
        = [LogRecord ERROR
             "Estação 60474000: Erro ao consultar inventário da ANA. Detalhe: HTTPSConnectionPool(host='telemetriaws1.ana.gov.br', port=443): Read timed out."]
      ∧ log s2
        = log s1 ++
          [LogRecord ERROR
             "Estação 60474000: ERRO CRÍTICO no processamento, plotagem ou consulta de dados. Detalhe: name 'nome' is not defined"].
Proof.
  assert (H1 : lista_txt mundo_sem_nome = ok ["60474000"]) by reflexivity.
  assert (H2 : lista_estacoes ["60474000"] ≠ []) by (vm_compute; discriminate).
  assert (H3 : makedirs_raises mundo_sem_nome diretorio_graficos = None)
    by reflexivity.
  split; [exact H1|]. split; [exact H2|]. split; [exact H3|].
  destruct (run_loop_isolates_failures mundo_sem_nome ["60474000"] ∅ ∅ H1 H2 H3)
    as ((s' & Hmain & Hreq & _) & _ & Hiter).
  split; [exists s'; split; [exact Hmain | exact Hreq]|].
  destruct (Hiter (cotas_ref mundo_sem_nome) "60474000" [] disco_vazio)
    as (s1 & s2 & Hs1 & Hs2 & _ & _ & _ & Hinv & Hdados).
  exists s1, s2. split; [exact Hs1|]. split; [exact Hs2|].
  assert (Hc1 : ∃ s', corpo_inventario mundo_sem_nome "60474000" disco_vazio
                      = (s', Raises (Exc Timeout)))
    by (eexists; vm_compute; reflexivity).
  assert (E : s1 = (consulta_inventario mundo_sem_nome "60474000" disco_vazio).1)
    by (by rewrite Hs1).
  assert (Hc2 : ∃ s', corpo_dados mundo_sem_nome (cotas_ref mundo_sem_nome)
                        "60474000" s1
                      = (s', Raises (Exc (NameError "nome"))))
    by (rewrite E; eexists; vm_compute; reflexivity).
  destruct Hc1 as [s1' Hc1]. destruct Hc2 as [s2' Hc2]. split.
  - exact (Hinv s1' Timeout Hc1).
  - exact (proj1 (Hdados s2' (NameError "nome") Hc2)).
Defined.

(** The chart of station 12345678, with alert at 150 and flood at 300. *)
Lemma reference_lines_iff_in_table_witness :
  let s := assign_nome (Str "RIO DOCE") disco_vazio in
  grafico (cotas_ref mundo_normal) "12345678" serie_limpa s
  = (s, Returns grafico_12345678)
  ∧ (hlines grafico_12345678 ≠ [] ↔ Str "12345678" ∈ index (cotas_ref mundo_normal))
  ∧ hlines grafico_12345678
    = [HLine (Num 150) "orange" "--" "Alerta (150 cm)";
       HLine (Num 300) "red" "--" "Inundação (300 cm)"]
  ∧ grafico referencia_com_falta "12345678" serie_limpa s
    = (s, Returns grafico_com_falta)
  ∧ (hlines grafico_com_falta ≠ [] ↔ Str "12345678" ∈ index referencia_com_falta)
  ∧ hlines grafico_com_falta
    = [HLine (Float 150) "orange" "--" "Alerta (150.0 cm)";
       HLine (Float 300) "red" "--" "Inundação (300.0 cm)"].
Proof.
  intros s.
  assert (H : grafico (cotas_ref mundo_normal) "12345678" serie_limpa s
              = (s, Returns grafico_12345678))
    by (vm_compute; reflexivity).
  assert (H' : grafico referencia_com_falta "12345678" serie_limpa s
               = (s, Returns grafico_com_falta))
    by (vm_compute; reflexivity).
  split; [exact H|].
  destruct (reference_lines_iff_in_table (cotas_ref mundo_normal) "12345678"
              serie_limpa s s grafico_12345678 H) as (Hiff & _).
  destruct (reference_lines_iff_in_table referencia_com_falta "12345678"
              serie_limpa s s grafico_com_falta H') as (Hiff' & _).
  split; [exact Hiff|]. split; [vm_compute; reflexivity|].
  split; [exact H'|]. split; [exact Hiff' | vm_compute; reflexivity].
Defined.

(** The sample file with Unicode white space yields its two codes and the
    indented comment. *)
Lemma lista_estacoes_spec_witness :
  lista_estacoes lista_unicode = ["12345678"; "60474000"; "# nota"]
  ∧ lista_do_arquivo lista_unicode ["12345678"; "60474000"; "# nota"]
  ∧ sem_espacos_em_volta (NBSP +:+ "12345678" +:+ String "013" nl) "12345678".
Proof.
  assert (H : lista_estacoes lista_unicode = ["12345678"; "60474000"; "# nota"])
    by (vm_compute; reflexivity).
  assert (H' : strip (NBSP +:+ "12345678" +:+ String "013" nl) = "12345678")
    by (vm_compute; reflexivity).
  destruct (lista_estacoes_spec lista_unicode) as (Hstrip & _ & Hlista & _).
  split; [exact H|]. split; [rewrite <- H; exact Hlista|].
  rewrite <- H'. apply Hstrip.
Defined.




(** The second station of [mundo_nome_anterior] is drawn under the name of
    the first. *)
Lemma stale_station_name_witness :
  let w := mundo_nome_anterior in
  let s := (for_each ["12345678"] (estacao w (cotas_ref w)) disco_vazio).1 in
  let s1 := (consulta_inventario w "60474000" s).1 in
  let s2 := (processa_dados w (cotas_ref w) "60474000" s1).1 in
  nome disco_vazio = None
  ∧ (∀ v, nome_resolvido w (List.length (requests s)) "60474000" ≠ ok (Some v))
  ∧ nome s = Some (Str "RIO DOCE")
  ∧ files s2 !! nome_arquivo_grafico "60474000" = Some grafico_60474000
  ∧ title grafico_60474000
    = "Estação 60474000: RIO DOCE - Cotas dos últimos 7 dias".
Proof.
  intros w s s1 s2.
  assert (H1 : nome disco_vazio = None) by reflexivity.
  assert (H2 : ∀ v, nome_resolvido w (List.length (requests s)) "60474000"
                    ≠ ok (Some v)) by (intros v; vm_compute; discriminate).
  assert (Hn : nome s = Some (Str "RIO DOCE")) by (vm_compute; reflexivity).
  split; [exact H1|]. split; [exact H2|]. split; [exact Hn|].
  destruct (stale_station_name w (cotas_ref w) ["12345678"] "60474000"
              disco_vazio H1 H2) as (_ & _ & H).
  fold s in H. rewrite Hn in H. destruct H as [_ H].
  apply (H grafico_60474000). vm_compute. reflexivity.
Defined.

End Witnesses.

(** * Further properties of the script *)

(** ** More on the station list *)

Section ListaMore.
Import Python Script Texto Corrida.

Lemma string_app_inv_tail (s1 s2 t : string) :
  s1 +:+ t = s2 +:+ t → s1 = s2.
Proof.
  revert s2. induction s1 as [|a s1 IH]; intros [|b s2] H.
  - done.
  - apply (f_equal String.length) in H.
    change (EmptyString +:+ t) with t in H.
    rewrite string_length_app in H. cbn in H. lia.
  - apply (f_equal String.length) in H.
    change (EmptyString +:+ t) with t in H.
    rewrite string_length_app in H. cbn in H. lia.
  - change (String a (s1 +:+ t) = String b (s2 +:+ t)) in H.
    injection H as -> H. f_equal. by apply IH.
Qed.

Lemma rstrip_hash (r : string) :
  rstrip (String "#" r) = String "#" (rstrip r).
Proof.
  cbn [rstrip]. unfold blank.
  assert (H : lstrip (String "#" r) = String "#" r)
    by (destruct r as [|b [|c r]]; reflexivity).
  by rewrite H.
Qed.

Lemma strip_line (s : string) :
  s ≠ EmptyString → lstrip s = s → rstrip s = s → strip (s +:+ LF) = s.
Proof.
  intros Hne Hl Hr. symmetry. apply strip_unique. split; [|split].
  - exists EmptyString, LF. split; [done|]. split; [constructor|].
    apply brancos_espaco. rewrite espacos_eq. right. left.
  - intros c r Hc. by apply lstrip_fixed.
  - destruct (rstrip_spec s) as (_ & _ & _ & H). by rewrite Hr in H.
Qed.

Lemma lista_estacoes_clean (arquivo : list string) :
  Forall (λ codigo, codigo ≠ EmptyString
                    ∧ lstrip codigo = codigo ∧ rstrip codigo = codigo)
         (lista_estacoes arquivo).
Proof.
  induction arquivo as [|linha resto IH]; cbn [lista_estacoes]; [constructor|].
  destruct (truthy (strip linha)) eqn:Ht; cbn [andb]; [|done].
  destruct (negb (startswith linha "#")); [|done].
  constructor; [|done]. split; [by apply truthy_nonempty|].
  split; [apply lstrip_strip | apply rstrip_strip].
Qed.

(** X1.  The comment test is made on the line as read, before stripping: a
    line that does not itself start with [#] but does once its leading
    whitespace is removed (an indented comment) is loaded, wherever it stands
    in the file, as a station code that starts with [#]. *)
Theorem indented_comment_is_loaded (antes depois : list string) (linha : string) :
  startswith linha "#" = false →
  startswith (lstrip linha) "#" = true →
  strip linha ∈ lista_estacoes (antes ++ linha :: depois)
  ∧ startswith (strip linha) "#" = true.
Proof.
  intros Hraw Hstripped.
  assert (Hhead : ∃ r, strip linha = String "#" r).
  { unfold strip. destruct (lstrip linha) as [|a r]; [discriminate|].
    change (startswith (String a r) "#")
      with (if Ascii.eqb "#" a then true else false) in Hstripped.
    destruct (Ascii.eqb_spec "#" a) as [<-|]; [|discriminate].
    rewrite rstrip_hash. eauto. }
  destruct Hhead as [r Hr]. split; [|by rewrite Hr].
  rewrite lista_estacoes_filter. apply list_elem_of_fmap.
  exists linha. split; [done|].
  apply list_elem_of_In, filter_In. split.
  - apply in_or_app. right. by left.
  - by rewrite Hr, Hraw.
Qed.

(** X2.  Loading is a round trip on its own output: when no loaded code
    starts with [#], writing the loaded codes one per line and loading that
    file gives the same list, in the same order, duplicates included. *)
Theorem lista_estacoes_reload (arquivo : list string) :
  Forall (λ codigo, startswith codigo "#" = false) (lista_estacoes arquivo) →
  lista_estacoes (linhas_de (lista_estacoes arquivo)) = lista_estacoes arquivo.
Proof.
  pose proof (lista_estacoes_clean arquivo) as Hclean.
  generalize dependent (lista_estacoes arquivo). intros lista.
  induction lista as [|codigo lista IH]; intros Hclean Hhash; [done|].
  apply Forall_cons in Hclean as [(Hne & Hl & Hr) Hclean].
  apply Forall_cons in Hhash as [Hc Hhash].
  change (linhas_de (codigo :: lista)) with ((codigo +:+ LF) :: linhas_de lista).
  cbn [lista_estacoes].
  rewrite (strip_line codigo Hne Hl Hr).
  rewrite startswith_app_char by done. rewrite Hc.
  apply truthy_nonempty in Hne. rewrite Hne. cbn [andb negb].
  by rewrite IH.
Qed.

End ListaMore.

(** ** More on the chart path *)

Section PathMore.
Import Python Script.

Lemma nome_arquivo_grafico_cases (codigo : string) :
  (startswith codigo "/" = true
   ∧ nome_arquivo_grafico codigo = codigo +:+ ".png")
  ∨ (startswith codigo "/" = false
     ∧ nome_arquivo_grafico codigo = "Graficos_Saida/" +:+ codigo +:+ ".png").
Proof.
  unfold nome_arquivo_grafico, os_path_join.
  assert (Hs : startswith (codigo +:+ ".png") "/" = startswith codigo "/").
  { destruct codigo as [|a codigo]; [done|]. by apply startswith_app_char. }
  rewrite Hs. destruct (startswith codigo "/"); [by left | by right].
Qed.

Lemma startswith_slash_head (s : string) :
  startswith s "/" = true → ∃ r, s = String "/" r.
Proof.
  destruct s as [|a r]; [discriminate|].
  change (startswith (String a r) "/")
    with (if Ascii.eqb "/" a then true else false).
  destruct (Ascii.eqb_spec "/" a) as [<-|]; [eauto | discriminate].
Qed.

Lemma nome_arquivo_grafico_inj (codigo1 codigo2 : string) :
  nome_arquivo_grafico codigo1 = nome_arquivo_grafico codigo2 →
  codigo1 = codigo2.
Proof.
  intros Heq.
  destruct (nome_arquivo_grafico_cases codigo1) as [[H1 E1]|[H1 E1]];
    destruct (nome_arquivo_grafico_cases codigo2) as [[H2 E2]|[H2 E2]];
    rewrite E1, E2 in Heq.
  - by apply string_app_inv_tail in Heq.
  - apply startswith_slash_head in H1 as [r ->]. discriminate Heq.
  - apply startswith_slash_head in H2 as [r ->]. discriminate Heq.
  - change ("Graficos_Saida/" +:+ codigo1 +:+ ".png")
      with ("Graficos_Saida/" +:+ (codigo1 +:+ ".png")) in Heq.
    injection Heq as Heq.
    apply (string_app_inv_tail codigo1 codigo2 ".png"). exact Heq.
Qed.

(** X3.  Two different station codes never get the same chart path,
    whatever the codes are. *)
Theorem chart_paths_differ (codigo1 codigo2 : string) :
  codigo1 ≠ codigo2 →
  nome_arquivo_grafico codigo1 ≠ nome_arquivo_grafico codigo2.
Proof. intros Hne Heq. by apply Hne, nome_arquivo_grafico_inj. Qed.

(** X4.  A code that starts with [/] takes its chart out of the output
    directory: the path is the code itself with the extension, and it does
    not start with the name of the directory. *)
Theorem absolute_code_leaves_directory (codigo : string) :
  startswith codigo "/" = true →
  nome_arquivo_grafico codigo = codigo +:+ ".png"
  ∧ startswith (nome_arquivo_grafico codigo) diretorio_graficos = false.
Proof.
  intros H.
  destruct (nome_arquivo_grafico_cases codigo) as [[_ E]|[H' _]];
    [|congruence].
  split; [exact E|]. rewrite E.
  apply startswith_slash_head in H as [r ->]. reflexivity.
Qed.

End PathMore.

(** ** The files a run writes *)

Section DiskFacts.
Import Python Pandas Pyplot Script Corrida.

Lemma grava_union (m : gmap string Figure) (u : list (string * Figure)) :
  grava m u = list_to_map (reverse u) ∪ m.
Proof.
  revert m. induction u as [|[k v] u IH]; intros m.
  - cbn. by rewrite (left_id_L ∅ (∪)).
  - change (grava m ((k, v) :: u)) with (grava (<[k := v]> m) u).
    rewrite IH, reverse_cons, list_to_map_app.
    rewrite <- (assoc_L (∪)). f_equal.
    cbn [list_to_map foldr]. cbn.
    by rewrite <- insert_union_l, (left_id_L ∅ (∪)).
Qed.

Lemma grava_app (m : gmap string Figure) (u1 u2 : list (string * Figure)) :
  grava m (u1 ++ u2) = grava (grava m u1) u2.
Proof. unfold grava. apply foldl_app. Qed.

Lemma grava_idemp (m : gmap string Figure) (u : list (string * Figure)) :
  grava (grava m u) u = grava m u.
Proof.
  rewrite !grava_union, (assoc_L (∪)). f_equal. apply (idemp_L (∪)).
Qed.

Lemma grava_lookup_other (m : gmap string Figure) (u : list (string * Figure))
    (p : string) :
  p ∉ u.*1 → grava m u !! p = m !! p.
Proof.
  intros Hp. rewrite grava_union. apply lookup_union_r.
  apply not_elem_of_list_to_map_1. by rewrite fmap_reverse, elem_of_reverse.
Qed.

Lemma grava_lookup_last (m : gmap string Figure) (u : list (string * Figure))
    (p : string) (fig : Figure) (u' : list (string * Figure)) :
  p ∉ u'.*1 → grava m (u ++ (p, fig) :: u') !! p = Some fig.
Proof.
  intros Hp. rewrite grava_app.
  change (grava (grava m u) ((p, fig) :: u'))
    with (grava (<[p := fig]> (grava m u)) u').
  rewrite grava_lookup_other by done. apply lookup_insert_eq.
Qed.

Lemma grava_dom (m : gmap string Figure) (u : list (string * Figure)) :
  dom m ⊆ dom (grava m u).
Proof.
  rewrite grava_union, dom_union_L. intros x Hx. apply elem_of_union. by right.
Qed.

Section WithWorld.
Variable w : World.
Variable cotas_ref : DataFrame.

Lemma apos_inventario_length (codigo : string) (s : state) :
  List.length (requests (apos_inventario w codigo s))
  = S (List.length (requests s)).
Proof.
  destruct (apos_inventario_fields w codigo s) as (-> & _).
  rewrite length_app. cbn. lia.
Qed.

Lemma apos_estacao_files (codigo : string) (s : state) :
  files (apos_estacao w cotas_ref codigo s)
  = grava (files s) (escrita w cotas_ref codigo s).
Proof.
  unfold apos_estacao, escrita.
  destruct (apos_dados_fields w cotas_ref codigo (apos_inventario w codigo s))
    as (_ & _ & _ & -> & _).
  rewrite apos_inventario_length.
  destruct (apos_inventario_fields w codigo s) as (_ & -> & _).
  by destruct (desfecho_dados w _ _ cotas_ref codigo).
Qed.

Lemma apos_lista_files (lista : list string) (s : state) :
  files (apos_lista w cotas_ref lista s)
  = grava (files s) (escritas w cotas_ref lista s).
Proof.
  revert s. induction lista as [|codigo lista IH]; intros s; [done|].
  change (apos_lista w cotas_ref (codigo :: lista) s)
    with (apos_lista w cotas_ref lista (apos_estacao w cotas_ref codigo s)).
  cbn [escritas]. by rewrite IH, apos_estacao_files, grava_app.
Qed.

Lemma escrita_path (codigo : string) (s : state) (p : string) :
  p ∈ (escrita w cotas_ref codigo s).*1 → p = nome_arquivo_grafico codigo.
Proof.
  unfold escrita. destruct (desfecho_dados w _ _ cotas_ref codigo); cbn;
    intros H; try by apply elem_of_nil in H.
  by apply list_elem_of_singleton in H.
Qed.

Lemma escritas_paths (lista : list string) (s : state) (p : string) :
  p ∈ (escritas w cotas_ref lista s).*1 →
  ∃ codigo, codigo ∈ lista ∧ p = nome_arquivo_grafico codigo.
Proof.
  revert s. induction lista as [|codigo lista IH]; intros s; cbn [escritas].
  - intros H. by apply elem_of_nil in H.
  - rewrite fmap_app, elem_of_app. intros [H|H].
    + exists codigo. split; [left | by eapply escrita_path].
    + destruct (IH _ H) as (c & Hc & ->). exists c. split; [by right | done].
Qed.

Lemma mesmo_apos_estacao (codigo : string) (s t : state) :
  mesmo_fora_do_disco s t →
  mesmo_fora_do_disco (apos_estacao w cotas_ref codigo s)
                      (apos_estacao w cotas_ref codigo t)
  ∧ escrita w cotas_ref codigo s = escrita w cotas_ref codigo t.
Proof.
  intros (Hl & Hr & Hn).
  assert (Hi : mesmo_fora_do_disco (apos_inventario w codigo s)
                                   (apos_inventario w codigo t)).
  { destruct (apos_inventario_fields w codigo s) as (Hr1 & _ & _ & Hn1 & Hl1).
    destruct (apos_inventario_fields w codigo t) as (Hr2 & _ & _ & Hn2 & Hl2).
    unfold mesmo_fora_do_disco. rewrite Hr1, Hr2, Hn1, Hn2, Hl1, Hl2.
    by rewrite Hl, Hr, Hn. }
  destruct Hi as (Hl' & Hr' & Hn'). split.
  - unfold apos_estacao.
    destruct (apos_dados_fields w cotas_ref codigo (apos_inventario w codigo s))
      as (Hr1 & Hn1 & _ & _ & Hl1).
    destruct (apos_dados_fields w cotas_ref codigo (apos_inventario w codigo t))
      as (Hr2 & Hn2 & _ & _ & Hl2).
    unfold mesmo_fora_do_disco. rewrite Hr1, Hr2, Hn1, Hn2, Hl1, Hl2.
    by rewrite Hl', Hr', Hn'.
  - unfold escrita. by rewrite Hr, Hn'.
Qed.

Lemma mesmo_apos_lista (lista : list string) (s t : state) :
  mesmo_fora_do_disco s t →
  mesmo_fora_do_disco (apos_lista w cotas_ref lista s)
                      (apos_lista w cotas_ref lista t)
  ∧ escritas w cotas_ref lista s = escritas w cotas_ref lista t.
Proof.
  revert s t. induction lista as [|codigo lista IH]; intros s t H; [done|].
  destruct (mesmo_apos_estacao codigo s t H) as [H' E].
  destruct (IH _ _ H') as [H'' E'].
  split; [exact H''|]. cbn [escritas]. by rewrite E, E'.
Qed.

End WithWorld.

Lemma state_eq (s t : state) :
  log s = log t → requests s = requests t → dirs s = dirs t →
  files s = files t → nome s = nome t → s = t.
Proof. destruct s, t; cbn; intros; by subst. Qed.

End DiskFacts.

Section DiskTheorems.
Import Python Pandas Pyplot Script Corrida.

(** X5.  A run never removes an image and saves no image anywhere but at the
    chart paths of the codes of its list: every image path that was on disk
    is still there, and every path that is not the chart path of a listed
    code holds what it held before.  In particular a run that ends early
    saves nothing. *)
Theorem run_changes_only_chart_files
    (w : World) (dirs0 : gset string) (files0 : gmap string Figure) :
  let fim := (main w (inicio dirs0 files0)).1 in
  dom files0 ⊆ dom (files fim)
  ∧ ∀ p, (∀ arquivo codigo, lista_txt w = ok arquivo →
            codigo ∈ lista_estacoes arquivo → p ≠ nome_arquivo_grafico codigo) →
         files fim !! p = files0 !! p.
Proof.
  cbv zeta. rewrite main_spec.
  destruct (apos_cotas_ref_fields w (inicio dirs0 files0)) as (_ & Hf & _).
  cbn [files inicio] in Hf.
  destruct (lista_txt w) as [arquivo|e];
    [|destruct (decide (exc_class e = "FileNotFoundError"));
      cbn [fst files add_log]; by rewrite Hf].
  destruct (lista_estacoes arquivo) as [|codigo lista] eqn:E;
    [cbn [fst files add_log]; by rewrite Hf|].
  destruct (makedirs_raises w diretorio_graficos) as [e|];
    [cbn [fst]; by rewrite Hf|].
  cbn [fst]. rewrite apos_lista_files. cbn [files add_dir]. rewrite Hf.
  split; [apply grava_dom|].
  intros p Hp. apply grava_lookup_other. intros Hin.
  apply escritas_paths in Hin as (c & Hc & ->).
  apply (Hp arquivo c); [done | by rewrite E | done].
Qed.

Lemma apos_lista_middle (w : World) (cotas_ref : DataFrame)
    (antes : list string) (codigo : string) (depois : list string) (s : state) :
  apos_lista w cotas_ref (antes ++ codigo :: depois) s
  = apos_lista w cotas_ref depois
      (apos_estacao w cotas_ref codigo (apos_lista w cotas_ref antes s)).
Proof. unfold apos_lista. by rewrite foldl_app. Qed.

(** X6.  The chart saved for a station is still on disk, unchanged, when the
    loop ends, provided the code does not come again later in the list: no
    other station writes to its file. *)
Theorem chart_survives_the_loop
    (w : World) (cotas_ref : DataFrame) (antes : list string) (codigo : string)
    (depois : list string) (s0 : state) (fig : Figure) :
  codigo ∉ depois →
  let s := (for_each antes (estacao w cotas_ref) s0).1 in
  let s1 := (consulta_inventario w codigo s).1 in
  desfecho_dados w (List.length (requests s1)) (nome s1) cotas_ref codigo
  = Grafico fig →
  files (for_each (antes ++ codigo :: depois) (estacao w cotas_ref) s0).1
    !! nome_arquivo_grafico codigo = Some fig.
Proof.
  intros Hlater s s1 Hd.
  assert (Es : s = apos_lista w cotas_ref antes s0)
    by (unfold s; by rewrite for_each_estacao).
  assert (Es1 : s1 = apos_inventario w codigo s)
    by (unfold s1; by rewrite consulta_inventario_spec).
  clearbody s s1. rewrite for_each_estacao. cbn [fst].
  rewrite apos_lista_middle.
  rewrite <- Es. rewrite apos_lista_files, apos_estacao_files.
  unfold escrita at 1. rewrite <- Es1.
  rewrite Es1, apos_inventario_length in Hd. rewrite <- Es1 in Hd. rewrite Hd.
  rewrite grava_lookup_other.
  - cbn. apply lookup_insert_eq.
  - intros Hin. apply escritas_paths in Hin as (c & Hc & Heq).
    apply nome_arquivo_grafico_inj in Heq. by subst.
Qed.

(** X7.  Running the script again in the same surroundings (clock, input
    files, answers of the service), on the disk the first run left, ends in
    exactly the same state: the same images with the same figures, the same
    directories, the same records logged by the run, the same requests and
    the same way of ending. *)
Theorem rerun_reaches_same_state
    (w : World) (dirs0 : gset string) (files0 : gmap string Figure) :
  let fim := main w (inicio dirs0 files0) in
  main w (inicio (dirs fim.1) (files fim.1)) = fim.
Proof.
  cbv zeta. rewrite !main_spec.
  assert (Hcr : ∀ d f,
            log (apos_cotas_ref w (inicio d f))
            = log (apos_cotas_ref w (inicio dirs0 files0))
            ∧ requests (apos_cotas_ref w (inicio d f)) = []
            ∧ dirs (apos_cotas_ref w (inicio d f)) = d
            ∧ files (apos_cotas_ref w (inicio d f)) = f
            ∧ nome (apos_cotas_ref w (inicio d f)) = None).
  { intros d f. unfold apos_cotas_ref. by destruct (aviso_cotas_ref w). }
  destruct (lista_txt w) as [arquivo|e].
  - destruct (lista_estacoes arquivo) as [|codigo lista].
    + cbn [fst]. f_equal. cbn [dirs files add_log].
      destruct (Hcr dirs0 files0) as (_ & _ & -> & -> & _).
      reflexivity.
    + destruct (makedirs_raises w diretorio_graficos) as [e|].
      { cbn [fst]. f_equal.
        destruct (Hcr dirs0 files0) as (_ & _ & -> & -> & _).
        reflexivity. }
      cbn [fst]. f_equal.
      set (lista' := codigo :: lista).
      set (a0 := add_dir diretorio_graficos (apos_cotas_ref w (inicio dirs0 files0))).
      set (s1 := apos_lista w (cotas_ref w) lista' a0).
      set (a1 := add_dir diretorio_graficos
                   (apos_cotas_ref w (inicio (dirs s1) (files s1)))).
      assert (Hm : mesmo_fora_do_disco a1 a0).
      { unfold a0, a1, mesmo_fora_do_disco. cbn [log requests nome add_dir].
        destruct (Hcr (dirs s1) (files s1)) as (-> & -> & _ & _ & ->).
        by destruct (Hcr dirs0 files0) as (_ & -> & _ & _ & ->). }
      destruct (mesmo_apos_lista w (cotas_ref w) lista' a1 a0 Hm)
        as ((Hl & Hr & Hn) & Hu).
      apply state_eq; [exact Hl | exact Hr | | | exact Hn].
      * rewrite !apos_lista_dirs. unfold a1, a0. cbn [dirs add_dir].
        destruct (Hcr (dirs s1) (files s1)) as (_ & _ & -> & _).
        unfold s1. rewrite apos_lista_dirs. unfold a0. cbn [dirs add_dir].
        by rewrite (assoc_L (∪)), (idemp_L (∪)).
      * rewrite apos_lista_files, Hu. unfold a1. cbn [files add_dir].
        destruct (Hcr (dirs s1) (files s1)) as (_ & _ & _ & -> & _).
        unfold s1. rewrite apos_lista_files. apply grava_idemp.
  - destruct (decide (exc_class e = "FileNotFoundError"));
      cbn [fst]; f_equal; cbn [dirs files add_log];
      destruct (Hcr dirs0 files0) as (_ & _ & -> & -> & _);
      reflexivity.
Qed.

End DiskTheorems.

(** ** The log of the loop *)

Section LogMore.
Import Python Pandas Pyplot Script Corrida.
Variable w : World.
Variable cotas_ref : DataFrame.

(** The records one iteration adds: those of the inventory stage, then those
    of the measurement stage. *)
Lemma apos_estacao_log (codigo : string) (s : state) :
  log (apos_estacao w cotas_ref codigo s)
  = log s
    ++ match nome_resolvido w (List.length (requests s)) codigo with
       | ok (Some v) => []
       | ok None => [LogRecord WARNING (msg_nao_encontrada codigo)]
       | raise e => [LogRecord ERROR (msg_erro_inventario codigo e)]
       end
    ++ match desfecho_dados w (S (List.length (requests s)))
               (nome (apos_inventario w codigo s)) cotas_ref codigo with
       | SemDados => [LogRecord WARNING (msg_sem_dados codigo)]
       | SemDadosValidos => [LogRecord WARNING (msg_sem_dados_validos codigo)]
       | Falha e => [LogRecord ERROR (msg_erro_critico codigo e)]
       | Grafico _ => []
       end.
Proof.
  unfold apos_estacao.
  destruct (apos_dados_fields w cotas_ref codigo (apos_inventario w codigo s))
    as (_ & _ & _ & _ & ->).
  rewrite apos_inventario_length.
  destruct (apos_inventario_fields w codigo s) as (_ & _ & _ & _ & ->).
  by rewrite <- app_assoc.
Qed.

Lemma apos_estacao_log_records (codigo : string) (s : state) :
  ∃ novos, log (apos_estacao w cotas_ref codigo s) = log s ++ novos
           ∧ List.length novos ≤ 2
           ∧ Forall (registro_da_estacao codigo) novos.
Proof.
  rewrite apos_estacao_log. eexists. split; [reflexivity|].
  assert (H1 : registro_da_estacao codigo
                 (LogRecord WARNING (msg_nao_encontrada codigo)))
    by (split; [by left|]; by exists "Não encontrada no inventário da ANA.").
  assert (H2 : ∀ e, registro_da_estacao codigo
                 (LogRecord ERROR (msg_erro_inventario codigo e)))
    by (intros e; split; [by right|];
        by exists ("Erro ao consultar inventário da ANA. Detalhe: " +:+ exc_str e)).
  assert (H3 : registro_da_estacao codigo
                 (LogRecord WARNING (msg_sem_dados codigo)))
    by (split; [by left|];
        by exists "Nenhum dado de cota encontrado no período de consulta.").
  assert (H4 : registro_da_estacao codigo
                 (LogRecord WARNING (msg_sem_dados_validos codigo)))
    by (split; [by left|];
        by exists "Nenhum dado válido de cota encontrado após limpeza.").
  assert (H5 : ∀ e, registro_da_estacao codigo
                 (LogRecord ERROR (msg_erro_critico codigo e)))
    by (intros e; split; [by right|];
        by exists ("ERRO CRÍTICO no processamento, plotagem ou consulta de dados. Detalhe: "
                   +:+ exc_str e)).
  destruct (nome_resolvido w _ codigo) as [[v|]|e];
    destruct (desfecho_dados w _ _ cotas_ref codigo);
    (split; [cbn; lia |]); cbn [app];
    repeat (apply Forall_cons_2; [by auto|]); apply Forall_nil_2.
Qed.

(** X8.  Every record the loop adds to the log is a WARNING or an ERROR
    whose message starts with [Estação <codigo>: ] for a code of the list;
    the records already in the log are kept, and the loop adds at most two
    records per station. *)
Theorem loop_log_names_stations (lista : list string) (s0 : state) :
  ∃ novos,
    log (for_each lista (estacao w cotas_ref) s0).1 = log s0 ++ novos
    ∧ List.length novos ≤ 2 * List.length lista
    ∧ Forall (λ r, ∃ codigo, codigo ∈ lista ∧ registro_da_estacao codigo r) novos.
Proof.
  rewrite for_each_estacao. cbn [fst]. revert s0.
  induction lista as [|codigo lista IH]; intros s0.
  - exists []. cbn. by rewrite app_nil_r.
  - change (apos_lista w cotas_ref (codigo :: lista) s0)
      with (apos_lista w cotas_ref lista (apos_estacao w cotas_ref codigo s0)).
    destruct (IH (apos_estacao w cotas_ref codigo s0)) as (n2 & -> & Hlen2 & Hall2).
    destruct (apos_estacao_log_records codigo s0) as (n1 & -> & Hlen1 & Hall1).
    exists (n1 ++ n2). split; [by rewrite app_assoc|]. split.
    + rewrite length_app. cbn [List.length]. lia.
    + apply Forall_app. split.
      * eapply Forall_impl; [exact Hall1|]. intros r Hr.
        exists codigo. split; [left | done].
      * eapply Forall_impl; [exact Hall2|]. intros r (c & Hc & Hr).
        exists c. split; [by right | done].
Qed.

(** X9.  An iteration leaves the log as it was exactly when the inventory
    lookup of the station resolved a name and its measurement stage ended
    with a saved figure; in that case the chart file of the station holds
    that figure. *)
Theorem station_is_silent_iff_chart_saved (codigo : string) (s : state) :
  let s' := (estacao w cotas_ref codigo s).1 in
  let s1 := (consulta_inventario w codigo s).1 in
  (log s' = log s ↔
   (∃ v, nome_resolvido w (List.length (requests s)) codigo = ok (Some v))
   ∧ ∃ fig, desfecho_dados w (List.length (requests s1)) (nome s1)
              cotas_ref codigo = Grafico fig)
  ∧ (log s' = log s → is_Some (files s' !! nome_arquivo_grafico codigo)).
Proof.
  cbv zeta. rewrite estacao_spec, consulta_inventario_spec. cbn [fst].
  rewrite apos_estacao_log, apos_estacao_files, apos_inventario_length.
  unfold escrita.
  destruct (nome_resolvido w _ codigo) as [[v|]|e];
    destruct (desfecho_dados w _ _ cotas_ref codigo) as [| |e'|fig];
    cbn [app].
  all: split; [split|].
  all: try (intros H; apply (f_equal List.length) in H;
            rewrite length_app in H; cbn in H; lia).
  all: try (intros [[v' Hv] [fig' Hfig]]; discriminate).
  - intros _. split; eauto.
  - intros _. by rewrite app_nil_r.
  - intros _. cbn. rewrite lookup_insert_eq. eauto.
Qed.

End LogMore.

(** ** The reference table *)

Section ReferenceMore.
Import Python Pandas Pyplot Script Corrida.

Lemma set_index_ok (c : string) (df df' : DataFrame) :
  set_index c df = ok df' →
  c ∈ columns df
  ∧ columns df' = filter (λ k, k ≠ c) (columns df)
  ∧ index df' = (λ r, cell r c) <$> rows df
  ∧ Forall2 (λ r r', ∀ k, k ≠ c → cell r' k = cell r k) (rows df) (rows df').
Proof.
  unfold set_index. destruct (decide (c ∈ columns df)) as [Hin|]; [|discriminate].
  intros [= <-]. split; [done|]. split; [done|]. split.
  - unfold index. cbn [rows]. by rewrite <- list_fmap_compose.
  - cbn [rows]. apply Forall2_fmap_r, Forall_Forall2_diag, Forall_forall.
    intros r _ k Hk. unfold cell. cbn [cells]. by rewrite lookup_delete_ne.
Qed.

(** X10.  Loading the reference table never ends the run and touches
    nothing but the log.  With the file missing the table is empty and one
    WARNING is logged; with any other failure of the reader, or with a file
    that has no [Codigo] column, the table is empty and one ERROR is logged;
    otherwise nothing is logged and the table is the file indexed by its
    [Codigo] column, which leaves the columns, the other cells unchanged. *)
Theorem reference_table_load (w : World) (s : state) :
  ∃ s' df,
    carrega_cotas_ref w s = (s', Returns df)
    ∧ requests s' = requests s ∧ files s' = files s ∧ dirs s' = dirs s
    ∧ nome s' = nome s
    ∧ match read_csv w "cotas_referencia.txt" with
      | raise e =>
          df = empty_frame
          ∧ log s' = log s ++
              [if decide (exc_class e = "FileNotFoundError")
               then LogRecord WARNING
                      "Arquivo de referência 'cotas_referencia.txt' não encontrado. As linhas de alerta/inundação não serão plotadas."
               else LogRecord ERROR
                      ("Erro ao carregar o arquivo de referência: " +:+ exc_str e)]
      | ok csv =>
          if decide ("Codigo" ∈ columns csv)
          then log s' = log s
               ∧ columns df = filter (λ k, k ≠ "Codigo") (columns csv)
               ∧ index df = (λ r, cell r "Codigo") <$> rows csv
               ∧ Forall2 (λ r r', ∀ k, k ≠ "Codigo" → cell r' k = cell r k)
                         (rows csv) (rows df)
          else df = empty_frame
               ∧ ∃ detalhe,
                   log s' = log s ++
                     [LogRecord ERROR
                        ("Erro ao carregar o arquivo de referência: " +:+ detalhe)]
      end.
Proof.
  exists (apos_cotas_ref w s), (cotas_ref w).
  split; [apply carrega_cotas_ref_spec|].
  destruct (apos_cotas_ref_fields w s) as (-> & -> & -> & ->).
  do 4 (split; [done|]).
  unfold apos_cotas_ref, aviso_cotas_ref, cotas_ref.
  change nome_arquivo_referencia with "cotas_referencia.txt".
  destruct (read_csv w "cotas_referencia.txt") as [csv|e]; cbn [mbind result_bind].
  - destruct (set_index "Codigo" csv) as [df|e] eqn:Hset.
    + apply set_index_ok in Hset as (Hin & Hc & Hi & Hr).
      rewrite decide_True by done. done.
    + unfold set_index in Hset.
      destruct (decide ("Codigo" ∈ columns csv)); [discriminate|].
      injection Hset as <-. split; [done|]. eexists. reflexivity.
  - split; [done|]. by destruct (decide (exc_class e = "FileNotFoundError")).
Qed.

Lemma grava_lookup_cases (m : gmap string Figure) (u : list (string * Figure))
    (p : string) (fig : Figure) :
  grava m u !! p = Some fig → m !! p = Some fig ∨ (p, fig) ∈ u.
Proof.
  rewrite grava_union, lookup_union_Some_raw. intros [H|[_ H]]; [|by left].
  right. apply elem_of_list_to_map_2 in H. by rewrite elem_of_reverse in H.
Qed.

Lemma escritas_origin (w : World) (cotas_ref : DataFrame) (lista : list string)
    (s : state) (p : string) (fig : Figure) :
  (p, fig) ∈ escritas w cotas_ref lista s →
  ∃ codigo k n, codigo ∈ lista ∧ p = nome_arquivo_grafico codigo
                ∧ desfecho_dados w k n cotas_ref codigo = Grafico fig.
Proof.
  revert s. induction lista as [|codigo lista IH]; intros s; cbn [escritas].
  - intros H. by apply elem_of_nil in H.
  - rewrite elem_of_app. intros [H|H].
    + unfold escrita in H.
      destruct (desfecho_dados w _ _ cotas_ref codigo) eqn:Hd;
        try by apply elem_of_nil in H.
      apply list_elem_of_singleton in H. injection H as -> ->.
      exists codigo. eexists _, _. split; [left|]. split; [done | exact Hd].
    + destruct (IH _ H) as (c & k & n & Hc & Hp & Hd).
      exists c, k, n. split; [by right | done].
Qed.

(** Every file on disk after a run is a file that was there before or the
    figure of a measurement stage of a listed station, at its chart path. *)
Lemma main_file_origin (w : World) (dirs0 : gset string)
    (files0 : gmap string Figure) (p : string) (fig : Figure) :
  files (main w (inicio dirs0 files0)).1 !! p = Some fig →
  files0 !! p = Some fig
  ∨ ∃ arquivo codigo k n,
      lista_txt w = ok arquivo ∧ codigo ∈ lista_estacoes arquivo
      ∧ p = nome_arquivo_grafico codigo
      ∧ desfecho_dados w k n (cotas_ref w) codigo = Grafico fig.
Proof.
  rewrite main_spec.
  destruct (apos_cotas_ref_fields w (inicio dirs0 files0)) as (_ & Hf & _).
  cbn [files inicio] in Hf.
  destruct (lista_txt w) as [arquivo|e];
    [|destruct (decide (exc_class e = "FileNotFoundError"));
      cbn [fst files add_log]; rewrite Hf; by left].
  destruct (lista_estacoes arquivo) as [|codigo lista] eqn:E;
    [cbn [fst files add_log]; rewrite Hf; by left|].
  destruct (makedirs_raises w diretorio_graficos) as [e|];
    [cbn [fst]; rewrite Hf; by left|].
  cbn [fst]. rewrite apos_lista_files. cbn [files add_dir]. rewrite Hf.
  intros H. apply grava_lookup_cases in H as [H|H]; [by left|].
  apply escritas_origin in H as (c & k & n & Hc & Hp & Hd).
  right. exists arquivo, c, k, n. by rewrite E.
Qed.

(** X11.  When the reference file cannot be read, every chart the run
    writes holds the series alone: no alert line, no flood line and no
    legend, for every station of the list. *)
Theorem no_reference_file_no_lines
    (w : World) (dirs0 : gset string) (files0 : gmap string Figure)
    (e : exception) :
  read_csv w "cotas_referencia.txt" = raise e →
  ∀ p fig,
    files (main w (inicio dirs0 files0)).1 !! p = Some fig →
    files0 !! p ≠ Some fig →
    hlines fig = [] ∧ legend fig = false
    ∧ ∃ x y, artists fig = [Line2D x y "blue" "-" "Nível do rio"].
Proof.
  intros Hcsv p fig Hfig Hnew.
  apply main_file_origin in Hfig as [|(arquivo & c & k & n & _ & _ & _ & Hd)];
    [done|].
  assert (Hcr : cotas_ref w = empty_frame).
  { unfold cotas_ref. change nome_arquivo_referencia with "cotas_referencia.txt".
    by rewrite Hcsv. }
  rewrite Hcr in Hd.
  apply desfecho_grafico in Hd as [df Hd].
  apply figura_ok in Hd as (cota & fig1 & v & Hl & _ & Ha & Hleg & _).
  apply linhas_referencia_ok in Hl.
  assert (Hidx : in_index (Str c) empty_frame = false) by reflexivity.
  rewrite Hidx in Hl. subst fig1.
  unfold hlines. rewrite Ha, Hleg. split; [done|]. split; [done|].
  by exists (index df), cota.
Qed.

End ReferenceMore.

(** ** What the chart shows *)

Section ChartMore.
Import Python Datetime Pandas Pyplot Script Corrida.

Lemma df_cota_kept (df1 df : DataFrame) :
  df_cota df1 = ok df →
  ∃ kept,
    kept ≡ₚ filter (complete ["DataHora"; "Nivel"]) (rows df1)
    ∧ Forall (complete ["DataHora"; "Nivel"]) kept
    ∧ Forall2 (λ r1 r, label r = cell r1 "DataHora"
                       ∧ cell r "Cota" = cell r1 "Nivel") kept (rows df)
    ∧ StronglySorted label_le (rows df).
Proof.
  unfold df_cota. intros Hdf.
  apply result_bind_ok in Hdf as (d1 & Hd1 & Hdf).
  apply result_bind_ok in Hdf as (d2 & Hd2 & Hdf). injection Hdf as <-.
  apply dropna_ok in Hd1 as [_ ->].
  unfold set_index in Hd2. cbn [columns rows rename] in Hd2.
  destruct (decide _) as [_|]; [|discriminate]. injection Hd2 as <-.
  match goal with |- context [sort_index ?d] =>
    destruct (sort_index_spec d) as (_ & Hperm & Hsorted); set (df := sort_index d) in *
  end.
  cbn [rows] in Hperm. rewrite <- list_fmap_compose in Hperm.
  apply Permutation_map_inv in Hperm as (kept & Hkept & Hperm).
  assert (Hcomplete : Forall (complete ["DataHora"; "Nivel"]) kept).
  { apply Forall_forall. intros r Hr. rewrite <- Hperm in Hr.
    by apply list_elem_of_filter in Hr as [Hr _]. }
  exists kept. split; [by symmetry|]. split; [exact Hcomplete|].
  split; [|exact Hsorted].
  rewrite Hkept. apply Forall2_fmap_r, Forall_Forall2_diag.
  eapply Forall_impl; [exact Hcomplete|]. intros r Hr.
  apply complete_both in Hr as [_ Hn].
  destruct (reindexed_row r Hn) as (H1 & H2 & _). cbv zeta in H1, H2.
  unfold compose. cbn [label cells] in *. by split.
Qed.

Lemma strongly_sorted_last {A} (R : relation A) (l : list A) (x : A) :
  Reflexive R → StronglySorted R l → last l = Some x → Forall (λ y, R y x) l.
Proof.
  intros Hrefl Hs. revert x. induction Hs as [|a l Hs IH Ha]; intros x Hx.
  - constructor.
  - destruct l as [|b l].
    + cbn in Hx. injection Hx as <-. by constructor.
    + cbn [last] in Hx. change (last (b :: l) = Some x) in Hx.
      constructor; [|by apply IH].
      rewrite Forall_forall in Ha. apply Ha.
      by apply last_Some_elem_of.
Qed.

Lemma zip_fmap_same {A B C} (f : A → B) (g : A → C) (l : list A) :
  zip (f <$> l) (g <$> l) = (λ a, (f a, g a)) <$> l.
Proof. induction l as [|a l IH]; [done|]. cbn. by rewrite IH. Qed.

Lemma linhas_referencia_texts (cotas_ref : DataFrame) (codigo : string)
    (fig0 fig1 : Figure) :
  linhas_referencia cotas_ref codigo fig0 = ok fig1 → texts fig1 = texts fig0.
Proof.
  unfold linhas_referencia. destruct (in_index (Str codigo) cotas_ref).
  - intros H.
    apply result_bind_ok in H as (sel & _ & H).
    apply result_bind_ok in H as (alerta & _ & H).
    apply result_bind_ok in H as (inundacao & _ & H).
    apply result_bind_ok in H as (f1 & Hf1 & H).
    apply result_bind_ok in H as (f2 & Hf2 & H). injection H as <-.
    destruct alerta; [|discriminate]. destruct inundacao; [|discriminate].
    cbn in Hf1. injection Hf1 as <-. cbn in Hf2. injection Hf2 as <-. done.
  - by intros [= <-].
Qed.

(** The figure of [figura], piece by piece. *)
Lemma figura_parts (n : option value) (cotas_ref : DataFrame) (codigo : string)
    (df : DataFrame) (fig : Figure) :
  figura n cotas_ref codigo df = ok fig →
  ∃ ultimo rl t txt fig1,
    last (rows df) = Some rl
    ∧ cell rl "Cota" = ultimo ∧ label rl = Timestamp t
    ∧ format_0f ultimo = ok txt
    ∧ linhas_referencia cotas_ref codigo
        (plot (index df) ((λ r, cell r "Cota") <$> rows df)
              "blue" "-" "Nível do rio" subplots) = ok fig1
    ∧ artists fig = artists fig1
    ∧ texts fig = ["Último Dado:" +:+ LF +:+ "Data: " +:+ strftime_dmy_HM t
                   +:+ LF +:+ "Cota: " +:+ txt +:+ " cm"].
Proof.
  unfold figura. intros H.
  apply result_bind_ok in H as (cota & Hcota & H).
  apply result_bind_ok in H as (ultimo & Hult & H).
  apply result_bind_ok in H as (data & Hdata & H).
  apply result_bind_ok in H as (fig1 & Hfig1 & H).
  apply result_bind_ok in H as (v & _ & H).
  apply result_bind_ok in H as (txt & Htxt & H). injection H as <-.
  apply getitem_ok in Hcota as [_ ->].
  unfold iloc_last in Hult. rewrite fmap_last in Hult.
  destruct (last (rows df)) as [rl|] eqn:Hlast; [|discriminate].
  cbn in Hult. injection Hult as <-.
  unfold ultimo_indice_strftime, iloc_last, index in Hdata.
  rewrite fmap_last, Hlast in Hdata. cbn in Hdata.
  destruct (label rl) as [| | | |t] eqn:Hl; try discriminate.
  injection Hdata as <-.
  exists (cell rl "Cota"), rl, t, txt, fig1.
  split; [done|]. split; [done|]. split; [done|]. split; [done|].
  split; [done|]. split; [done|].
  cbn [texts text set_ylabel set_xlabel set_title].
  by rewrite (linhas_referencia_texts _ _ _ _ Hfig1).
Qed.

Lemma value_le_refl (a : value) : value_le a a.
Proof. unfold value_le. lia. Qed.

(** X12.  The box on the chart reports the most recent reading: its date is
    the timestamp of a row of the fetched table that has both timestamp and
    level, its level is the level of that row, and no row with both fields
    has a later timestamp. *)
Theorem text_box_shows_latest_reading
    (cotas_ref : DataFrame) (codigo : string) (df1 df : DataFrame)
    (s s' : state) (fig : Figure) :
  df_cota df1 = ok df →
  grafico cotas_ref codigo df s = (s', Returns fig) →
  ∃ r t txt,
    r ∈ rows df1
    ∧ cell r "DataHora" = Timestamp t
    ∧ isna (cell r "Nivel") = false
    ∧ format_0f (cell r "Nivel") = ok txt
    ∧ texts fig = ["Último Dado:" +:+ LF +:+ "Data: " +:+ strftime_dmy_HM t
                   +:+ LF +:+ "Cota: " +:+ txt +:+ " cm"]
    ∧ ∀ r' t', r' ∈ rows df1 →
        cell r' "DataHora" = Timestamp t' →
        isna (cell r' "Nivel") = false → (t' ≤ t)%Z.
Proof.
  intros Hdf. rewrite grafico_spec. intros H.
  destruct (figura (nome s) cotas_ref codigo df) as [fig'|] eqn:Hfig;
    [|discriminate].
  injection H as _ <-.
  apply figura_parts in Hfig
    as (ultimo & rl & t & txt & fig1 & Hlast & Hult & Hlab & Htxt & _ & _ & Htexts).
  destruct (df_cota_kept df1 df Hdf) as (kept & Hperm & Hcomplete & Hmap & Hsorted).
  assert (Hrl : rl ∈ rows df) by (by apply last_Some_elem_of).
  apply list_elem_of_lookup in Hrl as [i Hi].
  destruct (Forall2_lookup_r _ _ _ _ _ Hmap Hi) as (r & Hr & Hl & Hc).
  apply list_elem_of_lookup_2 in Hr.
  assert (Hrc : complete ["DataHora"; "Nivel"] r)
    by (rewrite Forall_forall in Hcomplete; auto).
  apply complete_both in Hrc as [_ Hniv].
  exists r, t, txt.
  split. { rewrite Hperm in Hr. by apply list_elem_of_filter in Hr as [_ Hr]. }
  split; [by rewrite <- Hl|]. split; [done|].
  split; [by rewrite <- Hc, Hult|]. split; [done|].
  intros r' t' Hr' Ht' Hn'.
  assert (Hk : r' ∈ kept).
  { rewrite Hperm. apply list_elem_of_filter. split; [|done].
    apply complete_both. split; [by rewrite Ht' | done]. }
  apply list_elem_of_lookup in Hk as [j Hj].
  destruct (Forall2_lookup_l _ _ _ _ _ Hmap Hj) as (y & Hy & Hly & _).
  apply list_elem_of_lookup_2 in Hy.
  assert (Hrefl : Reflexive label_le) by (intros a; apply value_le_refl).
  pose proof (strongly_sorted_last label_le (rows df) rl Hrefl Hsorted Hlast)
    as Hmax.
  rewrite Forall_forall in Hmax. specialize (Hmax y Hy).
  unfold label_le, value_le in Hmax. rewrite Hly, Ht', Hlab in Hmax.
  cbn in Hmax. lia.
Qed.

(** X13.  The line drawn first on the chart is the cleaned series: its
    points, as pairs of timestamp and level, are exactly the rows of the
    fetched table that have both fields, none missing and none added, and
    they are plotted in non-decreasing order of timestamp. *)
Theorem plotted_series_is_the_clean_series
    (cotas_ref : DataFrame) (codigo : string) (df1 df : DataFrame)
    (s s' : state) (fig : Figure) :
  df_cota df1 = ok df →
  grafico cotas_ref codigo df s = (s', Returns fig) →
  ∃ x y resto,
    artists fig = Line2D x y "blue" "-" "Nível do rio" :: resto
    ∧ zip x y ≡ₚ (λ r, (cell r "DataHora", cell r "Nivel"))
                 <$> filter (λ r, isna (cell r "DataHora") = false
                                  ∧ isna (cell r "Nivel") = false) (rows df1)
    ∧ List.length x = List.length y
    ∧ StronglySorted value_le x
    ∧ Forall (λ v, isna v = false) y.
Proof.
  intros Hdf. rewrite grafico_spec. intros H.
  destruct (figura (nome s) cotas_ref codigo df) as [fig'|] eqn:Hfig;
    [|discriminate].
  injection H as _ <-.
  apply figura_parts in Hfig
    as (ultimo & rl & t & txt & fig1 & _ & _ & _ & _ & Hl & Ha & _).
  destruct (df_cota_kept df1 df Hdf) as (kept & Hperm & Hcomplete & Hmap & Hsorted).
  assert (Hart : ∃ resto, artists fig1
                   = Line2D (index df) ((λ r, cell r "Cota") <$> rows df)
                            "blue" "-" "Nível do rio" :: resto).
  { apply linhas_referencia_ok in Hl.
    destruct (in_index (Str codigo) cotas_ref).
    - destruct Hl as (r & _ & -> & _). eexists. reflexivity.
    - subst fig1. by exists []. }
  destruct Hart as [resto Hart].
  exists (index df), ((λ r, cell r "Cota") <$> rows df), resto.
  split; [by rewrite Ha|].
  assert (Hx : index df = (λ r, cell r "DataHora") <$> kept).
  { unfold index. clear -Hmap. induction Hmap as [|r1 r k l [Hl _] _ IH]; [done|].
    cbn. by rewrite Hl, IH. }
  assert (Hy : (λ r, cell r "Cota") <$> rows df = (λ r, cell r "Nivel") <$> kept).
  { clear -Hmap. induction Hmap as [|r1 r k l [_ Hc] _ IH]; [done|].
    cbn. by rewrite Hc, IH. }
  split; [|split; [|split]].
  - rewrite Hx, Hy, zip_fmap_same, Hperm.
    by rewrite (list_filter_iff (complete ["DataHora"; "Nivel"]) _ _ complete_both).
  - unfold index. by rewrite !length_fmap.
  - unfold index. eapply StronglySorted_fmap; [|exact Hsorted]. done.
  - rewrite Hy. apply Forall_fmap. eapply Forall_impl; [exact Hcomplete|].
    intros r Hr. by apply complete_both in Hr as [_ Hr].
Qed.

End ChartMore.

(** ** Stations that fail, and stations that resolve their name *)

Section FailureMore.
Import Python Datetime Pandas Pyplot Script Corrida.
Variable w : World.
Variable cotas_ref : DataFrame.

(** A measurement stage that fails costs the station its chart and leaves
    one ERROR record that carries the text of the exception. *)
Lemma estacao_falha (codigo : string) (s : state) (e : exception) :
  desfecho_dados w (S (List.length (requests s)))
    (nome (apos_inventario w codigo s)) cotas_ref codigo = Falha e →
  files (estacao w cotas_ref codigo s).1 = files s
  ∧ last (log (estacao w cotas_ref codigo s).1)
    = Some (LogRecord ERROR
        ("Estação " +:+ codigo
         +:+ ": ERRO CRÍTICO no processamento, plotagem ou consulta de dados. Detalhe: "
         +:+ exc_str e)).
Proof.
  intros Hd. rewrite estacao_spec. cbn [fst].
  rewrite apos_estacao_files, apos_estacao_log. unfold escrita. rewrite Hd.
  split; [done|]. by rewrite app_assoc, last_snoc.
Qed.

Lemma to_datetime_raises parse (col : list value) (v : value) (e : exception) :
  v ∈ col → to_datetime_value parse v = raise e →
  ∃ e', to_datetime parse col = raise e'.
Proof.
  intros Hin Hv. induction col as [|a col IH]; [by apply elem_of_nil in Hin|].
  cbn [to_datetime].
  destruct (to_datetime_value parse a) as [t|e1] eqn:Ha; [|by eexists].
  cbn [mbind result_bind].
  apply elem_of_cons in Hin as [->|Hin]; [congruence|].
  destruct (IH Hin) as [e' ->]. by eexists.
Qed.

(** X14.  One timestamp that the parser refuses costs the station its
    chart, however many other rows are fine: nothing is written for the
    station and its iteration ends with the ERROR record of the failure. *)
Theorem unparseable_timestamp_loses_chart
    (codigo : string) (s : state) (df_cota_temp : DataFrame)
    (r : row) (txt : string) (e : exception) :
  tabela_dados w (S (List.length (requests s))) codigo = ok df_cota_temp →
  "DataHora" ∈ columns df_cota_temp →
  r ∈ rows df_cota_temp →
  cell r "DataHora" = Str txt →
  to_datetime_text w txt = raise e →
  let s' := (estacao w cotas_ref codigo s).1 in
  files s' = files s
  ∧ ∃ e', last (log s')
          = Some (LogRecord ERROR
              ("Estação " +:+ codigo
               +:+ ": ERRO CRÍTICO no processamento, plotagem ou consulta de dados. Detalhe: "
               +:+ exc_str e')).
Proof.
  intros Htab Hcol Hr Hcell Hparse. cbv zeta.
  assert (Hconv : ∃ e', converte_DataHora w df_cota_temp = raise e').
  { unfold converte_DataHora.
    destruct (getitem df_cota_temp "DataHora") as [col|e1] eqn:Hg; [|by eexists].
    apply getitem_ok in Hg as [_ ->]. cbn [mbind result_bind].
    destruct (to_datetime_raises (to_datetime_text w)
                ((λ r, cell r "DataHora") <$> rows df_cota_temp)
                (Str txt) e) as [e' ->]; [| |by eexists].
    - apply list_elem_of_fmap. by exists r.
    - cbn. by rewrite Hparse. }
  destruct Hconv as [e' Hconv].
  assert (Hemp : empty df_cota_temp = false).
  { unfold empty. destruct (columns df_cota_temp); [by apply elem_of_nil in Hcol|].
    destruct (rows df_cota_temp); [by apply elem_of_nil in Hr | done]. }
  destruct (estacao_falha codigo s e') as [Hf Hl]; [|eauto].
  unfold desfecho_dados. by rewrite Htab, Hemp, Hconv.
Qed.

(** X15.  A measurement table that has rows and timestamps but no [Nivel]
    column costs the station its chart: the cleaning raises [KeyError],
    nothing is written and the iteration ends with the ERROR record. *)
Theorem missing_level_column_loses_chart
    (codigo : string) (s : state) (df_cota_temp df1 : DataFrame) :
  tabela_dados w (S (List.length (requests s))) codigo = ok df_cota_temp →
  rows df_cota_temp ≠ [] →
  converte_DataHora w df_cota_temp = ok df1 →
  "Nivel" ∉ columns df_cota_temp →
  let s' := (estacao w cotas_ref codigo s).1 in
  (∃ e, df_cota df1 = raise e ∧ exc_class e = "KeyError")
  ∧ files s' = files s
  ∧ ∃ e, exc_class e = "KeyError"
         ∧ last (log s')
           = Some (LogRecord ERROR
               ("Estação " +:+ codigo
                +:+ ": ERRO CRÍTICO no processamento, plotagem ou consulta de dados. Detalhe: "
                +:+ exc_str e)).
Proof.
  intros Htab Hrows Hconv Hniv. cbv zeta.
  destruct (converte_DataHora_ok w df_cota_temp df1 Hconv) as (Hdh & Hcols & _).
  assert (Hdrop : df_cota df1 = raise (KeyError "Nivel")).
  { unfold df_cota, dropna. rewrite Hcols.
    assert (Hf : filter (λ c, c ∉ columns df_cota_temp) ["DataHora"; "Nivel"]
                 = ["Nivel"]).
    { rewrite filter_cons_False by (intros H; by apply H).
      rewrite filter_cons_True by done. done. }
    by rewrite Hf. }
  assert (Hemp : empty df_cota_temp = false).
  { unfold empty. destruct (columns df_cota_temp); [by apply elem_of_nil in Hdh|].
    by destruct (rows df_cota_temp). }
  split; [by exists (KeyError "Nivel")|].
  destruct (estacao_falha codigo s (KeyError "Nivel")) as [Hf Hl].
  - unfold desfecho_dados. rewrite Htab, Hemp, Hconv. cbn [mbind result_bind].
    by rewrite Hdrop.
  - split; [exact Hf|]. by exists (KeyError "Nivel").
Qed.

(** X16.  A reference table that lists a station but lacks the [Alerta] or
    the [Inundacao] column costs that station its chart: no figure is ever
    built for it, and its iteration writes nothing. *)
Theorem missing_threshold_column_loses_chart (codigo : string) :
  in_index (Str codigo) cotas_ref = true →
  "Alerta" ∉ columns cotas_ref ∨ "Inundacao" ∉ columns cotas_ref →
  (∀ df s, ∃ e, grafico cotas_ref codigo df s = (s, Raises (Exc e)))
  ∧ ∀ s, files (estacao w cotas_ref codigo s).1 = files s.
Proof.
  intros Hin Hcols.
  assert (Hl : ∀ fig0, ∃ e, linhas_referencia cotas_ref codigo fig0 = raise e).
  { intros fig0. unfold linhas_referencia. rewrite Hin.
    destruct (loc cotas_ref (Str codigo)) as [sel|e]; [|by eexists].
    cbn [mbind result_bind]. unfold selection_getitem.
    destruct (decide ("Alerta" ∈ columns cotas_ref)) as [Ha|]; [|by eexists].
    destruct (decide ("Inundacao" ∈ columns cotas_ref)) as [Hi|].
    - destruct Hcols; done.
    - destruct sel; cbn [mbind result_bind]; by eexists. }
  assert (Hfig : ∀ n df, ∃ e, figura n cotas_ref codigo df = raise e).
  { intros n df. unfold figura, mbind, result_bind.
    destruct (getitem df "Cota") as [cota|]; [|by eexists].
    destruct (iloc_last cota) as [ultimo|]; [|by eexists].
    destruct (ultimo_indice_strftime df) as [data|]; [|by eexists].
    destruct (Hl (plot (index df) cota "blue" "-" "Nível do rio" subplots))
      as [e ->]. by eexists. }
  split.
  - intros df s. rewrite grafico_spec.
    destruct (Hfig (nome s) df) as [e ->]. by eexists.
  - intros s. rewrite estacao_spec. cbn [fst].
    rewrite apos_estacao_files. unfold escrita.
    destruct (desfecho_dados w _ _ cotas_ref codigo) as [| | |fig] eqn:Hd;
      try done.
    apply desfecho_grafico in Hd as [df Hd].
    destruct (Hfig (nome (apos_inventario w codigo s)) df) as [e He].
    congruence.
Qed.

(** X17.  An inventory table that has rows but no [Nome] column leaves
    [nome] as it was and logs the [KeyError] as an ERROR naming the station;
    the measurement request of the station is sent all the same. *)
Theorem inventory_without_name_column
    (codigo : string) (s : state) (inventario : DataFrame) :
  tabela_xml w (List.length (requests s)) (url_inventario codigo) 30 ".//Table"
  = ok inventario →
  empty inventario = false →
  "Nome" ∉ columns inventario →
  let s1 := (consulta_inventario w codigo s).1 in
  nome s1 = nome s
  ∧ log s1 = log s ++
      [LogRecord ERROR
         ("Estação " +:+ codigo
          +:+ ": Erro ao consultar inventário da ANA. Detalhe: 'Nome'")]
  ∧ requests (estacao w cotas_ref codigo s).1
    = requests s ++ [Request (url_inventario codigo) 30;
                     Request (url_dados w codigo) 60].
Proof.
  intros Htab Hemp Hcol. cbv zeta.
  rewrite consulta_inventario_spec, estacao_spec. cbn [fst].
  assert (Hres : nome_resolvido w (List.length (requests s)) codigo
                 = raise (KeyError "Nome")).
  { unfold nome_resolvido. rewrite Htab. cbn [mbind result_bind].
    rewrite Hemp. cbn [negb]. unfold getitem.
    assert (Hf : filter (λ k, k = "Nome") (columns inventario) = []).
    { induction (columns inventario) as [|k l IH]; [done|].
      rewrite filter_cons_False; [apply IH; set_solver|].
      intros ->. apply Hcol. left. }
    by rewrite Hf. }
  destruct (apos_inventario_fields w codigo s) as (_ & _ & _ & -> & ->).
  rewrite Hres. split; [done|]. split; [done|].
  apply apos_estacao_requests.
Qed.

(** X18.  When the inventory table has rows and a [Nome] column, [nome]
    becomes the name in the first row, nothing is logged by the lookup, and
    any chart then saved for the station has the code and that name in its
    title. *)
Theorem resolved_name_is_in_title
    (codigo : string) (s : state) (inventario : DataFrame)
    (r : row) (resto : list row) (col : list value) :
  tabela_xml w (List.length (requests s)) (url_inventario codigo) 30 ".//Table"
  = ok inventario →
  rows inventario = r :: resto →
  getitem inventario "Nome" = ok col →
  let s1 := (consulta_inventario w codigo s).1 in
  nome s1 = Some (cell r "Nome")
  ∧ log s1 = log s
  ∧ ∀ fig,
      desfecho_dados w (List.length (requests s1)) (nome s1) cotas_ref codigo
      = Grafico fig →
      title fig = "Estação " +:+ codigo +:+ ": " +:+ py_str (cell r "Nome")
                  +:+ " - Cotas dos últimos 7 dias".
Proof.
  intros Htab Hrows Hget. cbv zeta.
  rewrite consulta_inventario_spec. cbn [fst].
  assert (Hres : nome_resolvido w (List.length (requests s)) codigo
                 = ok (Some (cell r "Nome"))).
  { unfold nome_resolvido. rewrite Htab. cbn [mbind result_bind].
    assert (Hemp : empty inventario = false).
    { apply getitem_ok in Hget as [Hin _]. unfold empty. rewrite Hrows.
      destruct (columns inventario); [by apply elem_of_nil in Hin | done]. }
    rewrite Hemp. cbn [negb]. rewrite Hget. cbn [mbind result_bind].
    apply getitem_ok in Hget as [_ ->]. by rewrite Hrows. }
  destruct (apos_inventario_fields w codigo s) as (_ & _ & _ & Hn & Hl).
  rewrite Hres in Hn, Hl. rewrite app_nil_r in Hl.
  split; [exact Hn|]. split; [exact Hl|].
  intros fig Hd. rewrite Hn in Hd.
  apply desfecho_grafico in Hd as [df Hd].
  apply figura_ok in Hd as (_ & _ & v & _ & Hv & _ & _ & ->).
  by injection Hv as <-.
Qed.

End FailureMore.

(** ** When a chart is saved *)

Section SuccessMore.
Import Python Datetime Pandas Pyplot Script Corrida.

Lemma filter_eq_absent (c : string) (l : list string) :
  c ∉ l → filter (λ k, k = c) l = [].
Proof.
  induction l as [|a l IH]; [done|]. intros H.
  apply not_elem_of_cons in H as [Ha Hl].
  rewrite filter_cons_False by (intros ->; done). by apply IH.
Qed.

Lemma filter_eq_unique (c : string) (l : list string) :
  NoDup l → c ∈ l → filter (λ k, k = c) l = [c].
Proof.
  induction 1 as [|a l Ha Hnd IH]; intros Hc; [by apply elem_of_nil in Hc|].
  destruct (decide (a = c)) as [->|Hne].
  - rewrite filter_cons_True by done. by rewrite filter_eq_absent.
  - rewrite filter_cons_False by done.
    apply elem_of_cons in Hc as [->|Hc]; [done|]. by apply IH.
Qed.

Lemma forall2_elem_of_r {A B} (P : A → B → Prop) (l : list A) (k : list B) (y : B) :
  Forall2 P l k → y ∈ k → ∃ x, x ∈ l ∧ P x y.
Proof.
  intros H Hy. apply list_elem_of_lookup in Hy as [i Hi].
  destruct (Forall2_lookup_r _ _ _ _ _ H Hi) as (x & Hx & HP).
  exists x. split; [|done]. by eapply list_elem_of_lookup_2.
Qed.

(** The cleaned series exists when the table has both columns; its columns
    are those of the table with [Nivel] renamed and [DataHora] removed. *)
Lemma df_cota_total (df1 : DataFrame) :
  "DataHora" ∈ columns df1 → "Nivel" ∈ columns df1 →
  ∃ df, df_cota df1 = ok df
        ∧ columns df = filter (λ k, k ≠ "DataHora")
                         (rename_label "Nivel" "Cota" <$> columns df1).
Proof.
  intros Hd Hn. unfold df_cota.
  rewrite dropna_total by (repeat constructor; done).
  cbn [mbind result_bind]. unfold set_index. cbn [columns rename].
  destruct (decide _) as [|Hno].
  - eexists. split; [reflexivity|]. done.
  - destruct Hno. apply list_elem_of_fmap. by exists "DataHora".
Qed.

Lemma cota_column_unique (l : list string) :
  NoDup l → "Nivel" ∈ l → "Cota" ∉ l →
  filter (λ k, k = "Cota")
    (filter (λ k, k ≠ "DataHora") (rename_label "Nivel" "Cota" <$> l))
  = ["Cota"].
Proof.
  intros Hnd Hn Hc. apply filter_eq_unique.
  - apply NoDup_filter, NoDup_fmap_2_strong; [|done].
    intros x y Hx Hy. unfold rename_label.
    repeat destruct (decide _); intros; congruence.
  - apply list_elem_of_filter. split; [done|].
    apply list_elem_of_fmap. by exists "Nivel".
Qed.

(** X19.  The conditions under which a station gets its chart.  The
    measurement table has distinct column names, among them [Nivel] and not
    [Cota]; its timestamps convert; after the conversion one row at least has
    both timestamp and level; every level present is a number, integer or
    float; the code is
    not in the reference table; [nome] is bound after the inventory lookup;
    and matplotlib writes the file.  Then the iteration writes one figure at
    the chart path of the station, titled with the code and the name, and the
    measurement stage logs nothing. *)
Theorem complete_reading_gives_chart
    (w : World) (cotas_ref : DataFrame) (codigo : string) (s : state)
    (df_cota_temp df1 : DataFrame) (r : row) (v : value) :
  tabela_dados w (S (List.length (requests s))) codigo = ok df_cota_temp →
  converte_DataHora w df_cota_temp = ok df1 →
  NoDup (columns df_cota_temp) →
  "Nivel" ∈ columns df_cota_temp →
  "Cota" ∉ columns df_cota_temp →
  r ∈ rows df1 →
  complete ["DataHora"; "Nivel"] r →
  Forall (λ r0, cell r0 "Nivel" = NaN
                ∨ ∃ x, cell r0 "Nivel" = Num x ∨ cell r0 "Nivel" = Float x)
         (rows df_cota_temp) →
  in_index (Str codigo) cotas_ref = false →
  nome (consulta_inventario w codigo s).1 = Some v →
  savefig_raises w (S (S (List.length (requests s))))
    (nome_arquivo_grafico codigo) = None →
  let s1 := (consulta_inventario w codigo s).1 in
  let s' := (estacao w cotas_ref codigo s).1 in
  ∃ fig,
    files s' = <[nome_arquivo_grafico codigo := fig]> (files s)
    ∧ log s' = log s1
    ∧ title fig = "Estação " +:+ codigo +:+ ": " +:+ py_str v
                  +:+ " - Cotas dos últimos 7 dias"
    ∧ hlines fig = [].
Proof.
  intros Htab Hconv Hnd Hniv Hcota Hr Hcomp Hnum Href Hnome Hsave. cbv zeta.
  rewrite consulta_inventario_spec in Hnome |- *. cbn [fst] in Hnome |- *.
  destruct (converte_DataHora_ok w df_cota_temp df1 Hconv) as (Hdh & Hcols & Hrows).
  destruct (df_cota_total df1) as (df & Hdf & Hdfcols);
    [by rewrite Hcols | by rewrite Hcols |].
  rewrite Hcols in Hdfcols.
  destruct (df_cota_kept df1 df Hdf) as (kept & Hperm & Hkept & Hrel & _).
  assert (Hrk : r ∈ kept).
  { rewrite Hperm. by apply list_elem_of_filter. }
  destruct (last (rows df)) as [rl|] eqn:Hlast.
  2: { apply last_None in Hlast. apply Forall2_length in Hrel.
       rewrite Hlast in Hrel. destruct kept; [by apply elem_of_nil in Hrk|].
       discriminate Hrel. }
  destruct (forall2_elem_of_r _ _ _ rl Hrel (last_Some_elem_of _ _ Hlast))
    as (r1 & Hr1 & Hlabel & Hcell).
  assert (Hr1c : complete ["DataHora"; "Nivel"] r1).
  { rewrite Forall_forall in Hkept. by apply Hkept. }
  apply complete_both in Hr1c as [Hna1 Hna2].
  assert (Hr1in : r1 ∈ rows df1).
  { rewrite Hperm in Hr1. by apply list_elem_of_filter in Hr1 as [_ ?]. }
  destruct (forall2_elem_of_r _ _ _ r1 Hrows Hr1in)
    as (r0 & Hr0 & _ & Hts & Hsame).
  apply to_datetime_value_kind in Hts as [Hts|[t Hts]];
    [by rewrite Hts in Hna1|].
  rewrite Forall_forall in Hnum. specialize (Hnum r0 Hr0).
  rewrite <- (Hsame "Nivel") in Hnum by done.
  destruct Hnum as [Hnum|[x Hnum]]; [by rewrite Hnum in Hna2|].
  assert (Hfmt : format_0f (cell r1 "Nivel") = ok (pretty x))
    by (by destruct Hnum as [-> | ->]).
  assert (Hget : getitem df "Cota" = ok ((λ r, cell r "Cota") <$> rows df)).
  { unfold getitem. by rewrite Hdfcols, cota_column_unique. }
  set (fig := text ("Último Dado:" +:+ LF +:+ "Data: " +:+ strftime_dmy_HM t
                    +:+ LF +:+ "Cota: " +:+ pretty x +:+ " cm")
                (set_ylabel "Cota (cm)"
                  (set_xlabel "Data"
                    (set_title ("Estação " +:+ codigo +:+ ": " +:+ py_str v
                                +:+ " - Cotas dos últimos 7 dias")
                      (plot (index df) ((λ r, cell r "Cota") <$> rows df)
                            "blue" "-" "Nível do rio" subplots))))).
  assert (Hfig : figura (Some v) cotas_ref codigo df = ok fig).
  { unfold figura. rewrite Hget. cbn [mbind result_bind].
    unfold iloc_last at 1. rewrite fmap_last, Hlast. cbn [fmap option_fmap option_map].
    unfold ultimo_indice_strftime, iloc_last, index.
    rewrite fmap_last, Hlast. cbn [fmap option_fmap option_map].
    rewrite Hlabel, Hts. unfold linhas_referencia. rewrite Href.
    rewrite Hcell. cbn [mbind result_bind]. rewrite Hfmt. reflexivity. }
  assert (Hemp1 : empty df_cota_temp = false).
  { unfold empty. destruct (columns df_cota_temp); [by apply elem_of_nil in Hniv|].
    destruct (rows df_cota_temp); [by apply elem_of_nil in Hr0 | done]. }
  assert (Hemp2 : empty df = false).
  { unfold empty. rewrite Hdfcols.
    pose proof (cota_column_unique _ Hnd Hniv Hcota) as Hu.
    destruct (filter _ (_ <$> columns df_cota_temp)); [discriminate Hu|].
    destruct (rows df); [discriminate Hlast | done]. }
  assert (Hd : desfecho_dados w (S (List.length (requests s)))
                 (nome (apos_inventario w codigo s)) cotas_ref codigo
               = Grafico fig).
  { unfold desfecho_dados. rewrite Htab, Hemp1, Hconv. cbn [mbind result_bind].
    by rewrite Hdf, Hemp2, Hnome, Hfig, Hsave. }
  exists fig. rewrite estacao_spec. cbn [fst].
  rewrite apos_estacao_files, apos_estacao_log. unfold escrita. rewrite Hd.
  split; [done|]. split.
  - destruct (apos_inventario_fields w codigo s) as (_ & _ & _ & _ & ->).
    by rewrite app_nil_r.
  - split; reflexivity.
Qed.

End SuccessMore.

(** ** Sample runs for the further properties *)

Section MoreWitnesses.
Import Python Datetime Pandas Pyplot Script Corrida Exemplos MaisExemplos.

(** An indented comment line of a list file is loaded as the code [# nota]. *)
Lemma indented_comment_is_loaded_witness :
  startswith ("  # nota" +:+ nl) "#" = false
  ∧ "# nota" ∈ lista_estacoes (["12345678" +:+ nl] ++ ("  # nota" +:+ nl) :: [nl]).
Proof.
  assert (H1 : startswith ("  # nota" +:+ nl) "#" = false) by reflexivity.
  assert (H2 : startswith (lstrip ("  # nota" +:+ nl)) "#" = true) by reflexivity.
  split; [exact H1|].
  destruct (indented_comment_is_loaded ["12345678" +:+ nl] [nl]
              ("  # nota" +:+ nl) H1 H2) as [H _].
  exact H.
Defined.

(** The codes of the sample list file survive being written and read. *)
Lemma lista_estacoes_reload_witness :
  lista_estacoes lista_exemplo = ["12345678"; "60474000"]
  ∧ lista_estacoes (linhas_de (lista_estacoes lista_exemplo))
    = lista_estacoes lista_exemplo.
Proof.
  assert (H : Forall (λ codigo, startswith codigo "#" = false)
                     (lista_estacoes lista_exemplo))
    by (vm_compute; repeat constructor).
  split; [reflexivity|].
  exact (lista_estacoes_reload lista_exemplo H).
Defined.

(** The two sample stations have different chart files. *)
Lemma chart_paths_differ_witness :
  nome_arquivo_grafico "12345678" ≠ nome_arquivo_grafico "60474000".
Proof.
  assert (H : "12345678" ≠ "60474000") by discriminate.
  exact (chart_paths_differ "12345678" "60474000" H).
Defined.

(** A code written as an absolute path is saved outside the directory. *)
Lemma absolute_code_leaves_directory_witness :
  nome_arquivo_grafico "/tmp/x" = "/tmp/x.png".
Proof.
  assert (H : startswith "/tmp/x" "/" = true) by reflexivity.
  destruct (absolute_code_leaves_directory "/tmp/x" H) as [Hp _].
  exact Hp.
Defined.

(** The chart of the first sample station is on disk after the whole loop. *)
Lemma chart_survives_the_loop_witness :
  files (for_each ([] ++ "12345678" :: ["60474000"])
           (estacao mundo_normal (cotas_ref mundo_normal)) disco_vazio).1
    !! nome_arquivo_grafico "12345678" = Some grafico_12345678.
Proof.
  assert (H1 : "12345678" ∉ ["60474000"]).
  { intros H. apply list_elem_of_singleton in H. discriminate H. }
  apply (chart_survives_the_loop mundo_normal (cotas_ref mundo_normal) []
           "12345678" ["60474000"] disco_vazio grafico_12345678 H1).
  vm_compute. reflexivity.
Defined.

(** Without the reference file the chart of the first sample station has its
    series and nothing else. *)
Lemma no_reference_file_no_lines_witness :
  hlines grafico_sem_referencia = [] ∧ legend grafico_sem_referencia = false.
Proof.
  assert (H1 : read_csv mundo_sem_referencia "cotas_referencia.txt"
               = raise (FileNotFoundError "cotas_referencia.txt")) by reflexivity.
  assert (H2 : files (main mundo_sem_referencia (inicio ∅ ∅)).1
                 !! nome_arquivo_grafico "12345678"
               = Some grafico_sem_referencia) by (vm_compute; reflexivity).
  assert (H3 : (∅ : gmap string Figure) !! nome_arquivo_grafico "12345678"
               ≠ Some grafico_sem_referencia) by (rewrite lookup_empty; discriminate).
  destruct (no_reference_file_no_lines mundo_sem_referencia ∅ ∅ _ H1
              (nome_arquivo_grafico "12345678") grafico_sem_referencia H2 H3)
    as (Hh & Hl & _).
  split; [exact Hh | exact Hl].
Defined.

(** The box of the sample chart shows the reading of 2 March, the latest
    complete one. *)
Lemma text_box_shows_latest_reading_witness :
  ∃ r t txt,
    r ∈ rows tabela_convertida
    ∧ cell r "DataHora" = Timestamp t
    ∧ format_0f (cell r "Nivel") = ok txt
    ∧ texts grafico_12345678
      = ["Último Dado:" +:+ LF +:+ "Data: " +:+ strftime_dmy_HM t
         +:+ LF +:+ "Cota: " +:+ txt +:+ " cm"].
Proof.
  assert (H1 : df_cota tabela_convertida = ok serie_limpa)
    by (vm_compute; reflexivity).
  assert (H2 : grafico (cotas_ref mundo_normal) "12345678" serie_limpa
                 (assign_nome (Str "RIO DOCE") disco_vazio)
               = (assign_nome (Str "RIO DOCE") disco_vazio,
                  Returns grafico_12345678))
    by (vm_compute; reflexivity).
  destruct (text_box_shows_latest_reading (cotas_ref mundo_normal) "12345678"
              tabela_convertida serie_limpa _ _ grafico_12345678 H1 H2)
    as (r & t & txt & Hr & Ht & _ & Htxt & Hbox & _).
  exists r, t, txt. split; [exact Hr|]. split; [exact Ht|].
  split; [exact Htxt | exact Hbox].
Defined.

(** The line of the sample chart is the two complete readings, in order of
    time. *)
Lemma plotted_series_is_the_clean_series_witness :
  ∃ x y resto,
    artists grafico_12345678 = Line2D x y "blue" "-" "Nível do rio" :: resto
    ∧ List.length x = List.length y
    ∧ StronglySorted value_le x.
Proof.
  assert (H1 : df_cota tabela_convertida = ok serie_limpa)
    by (vm_compute; reflexivity).
  assert (H2 : grafico (cotas_ref mundo_normal) "12345678" serie_limpa
                 (assign_nome (Str "RIO DOCE") disco_vazio)
               = (assign_nome (Str "RIO DOCE") disco_vazio,
                  Returns grafico_12345678))
    by (vm_compute; reflexivity).
  destruct (plotted_series_is_the_clean_series (cotas_ref mundo_normal)
              "12345678" tabela_convertida serie_limpa _ _ grafico_12345678
              H1 H2)
    as (x & y & resto & Ha & _ & Hlen & Hs & _).
  exists x, y, resto. split; [exact Ha|]. split; [exact Hlen | exact Hs].
Defined.

(** One unreadable timestamp among two readings: no chart. *)
Lemma unparseable_timestamp_loses_chart_witness :
  let w := mundo_com inventario_rio tabela_ilegivel in
  files (estacao w (cotas_ref w) "12345678" disco_vazio).1 = files disco_vazio.
Proof.
  intros w.
  assert (H1 : tabela_dados w (S (List.length (requests disco_vazio))) "12345678"
               = ok tabela_ilegivel) by (vm_compute; reflexivity).
  assert (H2 : "DataHora" ∈ columns tabela_ilegivel)
    by (right; left).
  assert (H3 : medicao 1 (Str "ontem") (Num 130) ∈ rows tabela_ilegivel)
    by (right; left).
  assert (H4 : cell (medicao 1 (Str "ontem") (Num 130)) "DataHora" = Str "ontem")
    by (vm_compute; reflexivity).
  assert (H5 : to_datetime_text w "ontem"
               = raise (ValueError
                   "Unknown datetime string format, unable to parse: ontem"))
    by (vm_compute; reflexivity).
  destruct (unparseable_timestamp_loses_chart w (cotas_ref w) "12345678"
              disco_vazio tabela_ilegivel _ "ontem" _ H1 H2 H3 H4 H5)
    as [Hf _].
  exact Hf.
Defined.

(** A table without levels: no chart. *)
Lemma missing_level_column_loses_chart_witness :
  let w := mundo_com inventario_rio tabela_sem_nivel in
  files (estacao w (cotas_ref w) "12345678" disco_vazio).1 = files disco_vazio.
Proof.
  intros w.
  assert (H1 : tabela_dados w (S (List.length (requests disco_vazio))) "12345678"
               = ok tabela_sem_nivel) by (vm_compute; reflexivity).
  assert (H2 : rows tabela_sem_nivel ≠ []) by discriminate.
  assert (H3 : converte_DataHora w tabela_sem_nivel
               = ok tabela_sem_nivel_convertida) by (vm_compute; reflexivity).
  assert (H4 : "Nivel" ∉ columns tabela_sem_nivel).
  { intros H. apply elem_of_cons in H as [H|H]; [discriminate H|].
    apply list_elem_of_singleton in H. discriminate H. }
  destruct (missing_level_column_loses_chart w (cotas_ref w) "12345678"
              disco_vazio tabela_sem_nivel tabela_sem_nivel_convertida
              H1 H2 H3 H4) as (_ & Hf & _).
  exact Hf.
Defined.

(** A reference table without the alert column: no chart for its station. *)
Lemma missing_threshold_column_loses_chart_witness :
  files (estacao mundo_normal referencia_sem_alerta "12345678" disco_vazio).1
  = files disco_vazio.
Proof.
  assert (H1 : in_index (Str "12345678") referencia_sem_alerta = true)
    by (vm_compute; reflexivity).
  assert (H2 : "Alerta" ∉ columns referencia_sem_alerta
               ∨ "Inundacao" ∉ columns referencia_sem_alerta).
  { left. intros H. apply list_elem_of_singleton in H. discriminate H. }
  destruct (missing_threshold_column_loses_chart mundo_normal
              referencia_sem_alerta "12345678" H1 H2) as [_ Hf].
  exact (Hf disco_vazio).
Defined.

(** An inventory answer without the name column leaves [nome] unbound. *)
Lemma inventory_without_name_column_witness :
  let w := mundo_com inventario_sem_nome tabela in
  nome (consulta_inventario w "12345678" disco_vazio).1 = None.
Proof.
  intros w.
  assert (H1 : tabela_xml w (List.length (requests disco_vazio))
                 (url_inventario "12345678") 30 ".//Table"
               = ok inventario_sem_nome) by (vm_compute; reflexivity).
  assert (H2 : empty inventario_sem_nome = false) by reflexivity.
  assert (H3 : "Nome" ∉ columns inventario_sem_nome).
  { intros H. apply list_elem_of_singleton in H. discriminate H. }
  destruct (inventory_without_name_column w (cotas_ref w) "12345678"
              disco_vazio inventario_sem_nome H1 H2 H3) as (Hn & _).
  exact Hn.
Defined.

(** The first sample station is drawn under its own name. *)
Lemma resolved_name_is_in_title_witness :
  nome (consulta_inventario mundo_normal "12345678" disco_vazio).1
  = Some (Str "RIO DOCE").
Proof.
  assert (H1 : tabela_xml mundo_normal (List.length (requests disco_vazio))
                 (url_inventario "12345678") 30 ".//Table"
               = ok inventario_rio) by (vm_compute; reflexivity).
  assert (H2 : rows inventario_rio = linha_rio :: []) by reflexivity.
  assert (H3 : getitem inventario_rio "Nome" = ok [Str "RIO DOCE"])
    by (vm_compute; reflexivity).
  destruct (resolved_name_is_in_title mundo_normal (cotas_ref mundo_normal)
              "12345678" disco_vazio inventario_rio linha_rio [] _ H1 H2 H3)
    as (Hn & _).
  exact Hn.
Defined.

(** Station 60474000, absent from the reference table, gets its chart in
    the sample world. *)
Lemma complete_reading_gives_chart_witness :
  ∃ fig,
    files (estacao mundo_normal (cotas_ref mundo_normal) "60474000" disco_vazio).1
    = <[nome_arquivo_grafico "60474000" := fig]> (files disco_vazio)
    ∧ title fig = "Estação 60474000: RIO DOCE - Cotas dos últimos 7 dias".
Proof.
  assert (H1 : tabela_dados mundo_normal (S (List.length (requests disco_vazio)))
                 "60474000" = ok tabela) by (vm_compute; reflexivity).
  assert (H2 : converte_DataHora mundo_normal tabela = ok tabela_convertida)
    by (vm_compute; reflexivity).
  assert (H3 : NoDup (columns tabela)).
  { apply (bool_decide_unpack _). vm_compute. exact I. }
  assert (H4 : "Nivel" ∈ columns tabela) by (right; right; left).
  assert (H5 : "Cota" ∉ columns tabela).
  { apply (bool_decide_unpack _). vm_compute. exact I. }
  assert (H6 : medicao 0 (Timestamp 1709337600000000000) (Float 120)
               ∈ rows tabela_convertida) by left.
  assert (H7 : complete ["DataHora"; "Nivel"]
                 (medicao 0 (Timestamp 1709337600000000000) (Float 120)))
    by (repeat constructor).
  assert (H8 : Forall (λ r0, cell r0 "Nivel" = NaN
                             ∨ ∃ x, cell r0 "Nivel" = Num x
                                    ∨ cell r0 "Nivel" = Float x)
                      (rows tabela)).
  { repeat apply Forall_cons_2; try apply Forall_nil_2;
      vm_compute; eauto. }
  assert (H9 : in_index (Str "60474000") (cotas_ref mundo_normal) = false)
    by (vm_compute; reflexivity).
  assert (H10 : nome (consulta_inventario mundo_normal "60474000" disco_vazio).1
                = Some (Str "RIO DOCE")) by (vm_compute; reflexivity).
  assert (H11 : savefig_raises mundo_normal
                  (S (S (List.length (requests disco_vazio))))
                  (nome_arquivo_grafico "60474000") = None) by reflexivity.
  destruct (complete_reading_gives_chart mundo_normal (cotas_ref mundo_normal)
              "60474000" disco_vazio tabela tabela_convertida _ _
              H1 H2 H3 H4 H5 H6 H7 H8 H9 H10 H11)
    as (fig & Hf & _ & Ht & _).
  exists fig. split; [exact Hf | exact Ht].
Defined.

End MoreWitnesses.
